(** * Graph Analysis AI backend: the two-pass validation pipeline

    A shallow embedding of [backend/main.py]: the Insight Validator
    ([get_validated_insights]), the persistence helper
    ([store_new_data_in_db]), the two analyze endpoints and the history
    listing, over an explicit model of the values [json.loads] produces,
    of Python exceptions, and of the SQLAlchemy session and table. *)

From Stdlib Require Import ZArith List String Ascii Bool Lia.
From Stdlib Require Import SpecFloat DecimalString Permutation Sorted.
Import ListNotations.

Local Open Scope string_scope.
Local Open Scope Z_scope.

#[local] Set Warnings "-register-all".

(* ================================================================= *)
(** ** Values produced by [json.loads] *)

(** A JSON number is read by Python either as an [int] (arbitrary
    precision) or as a [float] (IEEE 754 binary64). *)
Inductive pynum : Type :=
| PInt (z : Z)
| PFloat (f : spec_float).

(** A [dict] keeps insertion order ([str(data_point)] depends on it), so
    it is an association list; [json.loads] leaves one binding per key. *)
Inductive json : Type :=
| JNull
| JBool (b : bool)
| JNum (n : pynum)
| JStr (s : string)
| JArr (items : list json)
| JObj (fields : list (string * json)).

Fixpoint lookup (k : string) (fields : list (string * json)) : option json :=
  match fields with
  | [] => None
  | (k', v) :: rest => if String.eqb k k' then Some v else lookup k rest
  end.

(* ================================================================= *)
(** ** Exceptions *)

Inductive exn_class : Type :=
| TypeError | ValueError | OverflowError | AttributeError
| KeyError | IndexError | JSONDecodeError | GatewayFailure | ValidationError
| DBAPIError | DataError | IntegrityError | PendingRollbackError.

(** [HTTPException] is kept apart: it is the one exception the web layer
    turns into a response with a chosen status code. *)
Inductive exn : Type :=
| PyExn (c : exn_class) (msg : string)
| HTTPException (status_code : Z) (detail : string).

Definition exn_str (e : exn) : string :=
  match e with
  | PyExn _ msg => msg
  | HTTPException _ detail => detail
  end.

Inductive result (A : Type) : Type :=
| Ok (a : A)
| Raise (e : exn).
Arguments Ok {A} a.
Arguments Raise {A} e.

Definition rbind {A B} (r : result A) (k : A -> result B) : result B :=
  match r with
  | Ok a => k a
  | Raise e => Raise e
  end.

(* ================================================================= *)
(** ** Python built-ins the pipeline applies to parsed values *)

(** Truth value, as tested by [if not extracted_data]. *)
Definition py_truthy (v : json) : bool :=
  match v with
  | JNull => false
  | JBool b => b
  | JNum (PInt z) => negb (Z.eqb z 0)
  | JNum (PFloat (S754_zero _)) => false
  | JNum (PFloat _) => true
  | JStr s => negb (String.eqb s EmptyString)
  | JArr items => match items with [] => false | _ => true end
  | JObj fields => match fields with [] => false | _ => true end
  end.

(** A [str] is kept as the bytes of its UTF-8 encoding; a lone
    surrogate, which a [str] may hold and UTF-8 excludes, is kept as the
    three bytes its code point would take. Length, slices and iteration
    count characters: a character is a byte and the continuation bytes
    that follow it. *)
Definition byte_between (lo hi : N) (c : ascii) : bool :=
  ((lo <=? N_of_ascii c) && (N_of_ascii c <=? hi))%N.

Definition is_continuation (c : ascii) : bool := byte_between 128 191 c.

Fixpoint continuation_prefix (s : string) : string :=
  match s with
  | EmptyString => EmptyString
  | String c s' =>
      if is_continuation c then String c (continuation_prefix s') else EmptyString
  end.

Fixpoint skip_continuation (s : string) : string :=
  match s with
  | EmptyString => EmptyString
  | String c s' => if is_continuation c then skip_continuation s' else s
  end.

(** [len(s)]. *)
Fixpoint py_len (s : string) : nat :=
  match s with
  | EmptyString => O
  | String c s' => ((if is_continuation c then 0 else 1) + py_len s')%nat
  end.

(** [s[:n]]. *)
Fixpoint py_take (n : nat) (s : string) : string :=
  match n, s with
  | S n', String c s' =>
      String c (continuation_prefix s' ++ py_take n' (skip_continuation s'))
  | _, _ => EmptyString
  end.

(** [s[n:]]. *)
Fixpoint py_drop (n : nat) (s : string) : string :=
  match n, s with
  | S n', String c s' => py_drop n' (skip_continuation s')
  | _, _ => s
  end.

Arguments py_take n s : simpl never.
Arguments py_drop n s : simpl never.

(** The characters of [s], in order. *)
Fixpoint py_chars (s : string) : list string :=
  match s with
  | EmptyString => []
  | String c s' =>
      match s' with
      | EmptyString => [String c EmptyString]
      | String c' _ =>
          if is_continuation c' then
            match py_chars s' with
            | ch :: chs => String c ch :: chs
            | [] => [String c EmptyString]
            end
          else String c EmptyString :: py_chars s'
      end
  end.

(** The ranges in which the bytes after first byte [c] must lie for the
    character to be one UTF-8 encodes (surrogates and overlong forms are
    not); [None] when [c] starts no character. *)
Definition utf8_tail (c : ascii) : option (list (N * N)) :=
  let n := N_of_ascii c in
  (if n <=? 127 then Some []
   else if byte_between 194 223 c then Some [(128, 191)]
   else if n =? 224 then Some [(160, 191); (128, 191)]
   else if byte_between 225 236 c || byte_between 238 239 c
        then Some [(128, 191); (128, 191)]
   else if n =? 237 then Some [(128, 159); (128, 191)]
   else if n =? 240 then Some [(144, 191); (128, 191); (128, 191)]
   else if byte_between 241 243 c then Some [(128, 191); (128, 191); (128, 191)]
   else if n =? 244 then Some [(128, 143); (128, 191); (128, 191)]
   else None)%N.

Fixpoint utf8_ok (pending : list (N * N)) (s : string) : bool :=
  match s with
  | EmptyString => match pending with [] => true | _ :: _ => false end
  | String c s' =>
      match pending with
      | [] =>
          match utf8_tail c with
          | Some tail => utf8_ok tail s'
          | None => false
          end
      | (lo, hi) :: tail => byte_between lo hi c && utf8_ok tail s'
      end
  end.

(** [s.encode()] succeeds: no lone surrogate. *)
Definition encodes (s : string) : bool := utf8_ok [] s.

Definition has_nul (s : string) : bool :=
  existsb (Ascii.eqb zero) (list_ascii_of_string s).

Fixpoint all_spaces (s : string) : bool :=
  match s with
  | EmptyString => true
  | String c s' => Ascii.eqb c " " && all_spaces s'
  end.

Fixpoint repeat_string (s : string) (n : nat) : string :=
  match n with
  | O => EmptyString
  | S n' => s ++ repeat_string s n'
  end.

(** [for item in v]: a list yields its items, a dict its keys, a string
    its characters; anything else is not iterable. *)
Definition py_iter (v : json) : result (list json) :=
  match v with
  | JArr items => Ok items
  | JObj fields => Ok (map (fun kv => JStr (fst kv)) fields)
  | JStr s => Ok (map JStr (py_chars s))
  | _ => Raise (PyExn TypeError "object is not iterable")
  end.

Definition is_substring (needle hay : string) : bool :=
  match String.index 0 needle hay with
  | Some _ => true
  | None => false
  end.

Definition json_is_str (k : string) (v : json) : bool :=
  match v with
  | JStr s => String.eqb k s
  | _ => false
  end.

(** [k in v] for a string [k]: key membership on a dict, element
    membership on a list, substring test on a string. *)
Definition py_contains (k : string) (v : json) : result bool :=
  match v with
  | JObj fields => Ok (match lookup k fields with Some _ => true | None => false end)
  | JArr items => Ok (existsb (json_is_str k) items)
  | JStr s => Ok (is_substring k s)
  | _ => Raise (PyExn TypeError "argument is not iterable")
  end.

(** [v.get(k, default)]: only a dict has the method. *)
Definition py_get (v : json) (k : string) (default : json) : result json :=
  match v with
  | JObj fields => Ok (match lookup k fields with Some x => x | None => default end)
  | _ => Raise (PyExn AttributeError "object has no attribute 'get'")
  end.

(** [v[k]] with a string key. *)
Definition py_getitem (v : json) (k : string) : result json :=
  match v with
  | JObj fields =>
      match lookup k fields with
      | Some x => Ok x
      | None => Raise (PyExn KeyError k)
      end
  | _ => Raise (PyExn TypeError "indices must be integers")
  end.

(** [float(n)] on an [int]: the nearest binary64 value (ties to even),
    [OverflowError] when that value is not finite. *)
Definition float_of_int (z : Z) : result spec_float :=
  match binary_normalize 53 1024 z 0 false with
  | S754_infinity _ => Raise (PyExn OverflowError "int too large to convert to float")
  | f => Ok f
  end.

(** [float(True)] is [1.0], [float(False)] is [0.0]. *)
Definition float_of_bool (b : bool) : spec_float :=
  if b then binary_normalize 53 1024 1 0 false else S754_zero false.

(* ================================================================= *)
(** ** Timestamps *)

(** The ranges [datetime] enforces on its fields. *)
Definition fields_in_range (year month day hour minute second microsecond : N) : bool :=
  ((1 <=? year) && (year <=? 9999) &&
   (1 <=? month) && (month <=? 12) &&
   (1 <=? day) && (day <=? 31) &&
   (hour <=? 23) && (minute <=? 59) && (second <=? 59) &&
   (microsecond <=? 999999))%N.

(** A naive [datetime]: a value of the class always has its fields in
    range. *)
Record datetime : Type := {
  year : N; month : N; day : N;
  hour : N; minute : N; second : N; microsecond : N;
  in_range : fields_in_range year month day hour minute second microsecond = true
}.

Definition dt_key (d : datetime) : list N :=
  [year d; month d; day d; hour d; minute d; second d; microsecond d].

Fixpoint lex_compare (a b : list N) : comparison :=
  match a, b with
  | [], [] => Eq
  | [], _ :: _ => Lt
  | _ :: _, [] => Gt
  | x :: a', y :: b' =>
      match N.compare x y with
      | Eq => lex_compare a' b'
      | c => c
      end
  end.

(** Chronological order on calendar fields. *)
Definition dt_leb (a b : datetime) : bool :=
  match lex_compare (dt_key a) (dt_key b) with
  | Gt => false
  | _ => true
  end.

Definition digits (n : N) : string := NilZero.string_of_uint (N.to_uint n).

Fixpoint zeros (k : nat) : string :=
  match k with
  | O => EmptyString
  | S k' => String "0"%char (zeros k')
  end.

(** ["%0*d"]: decimal digits, padded on the left to [width]. *)
Definition zfill (width : nat) (n : N) : string :=
  zeros (width - String.length (digits n)) ++ digits n.

(** [datetime.isoformat()] of a naive timestamp:
    [YYYY-MM-DDTHH:MM:SS], followed by [.ffffff] when the microsecond
    field is not zero. *)
Definition isoformat (d : datetime) : string :=
  zfill 4 (year d) ++ "-" ++ zfill 2 (month d) ++ "-" ++ zfill 2 (day d) ++ "T" ++
  zfill 2 (hour d) ++ ":" ++ zfill 2 (minute d) ++ ":" ++ zfill 2 (second d) ++
  (if N.eqb (microsecond d) 0 then EmptyString
   else "." ++ zfill 6 (microsecond d)).

(* ================================================================= *)
(** ** The History Store *)

(** A value of a [Numeric] column: a number [m * 2 ^ e], or one of the
    three special values. The driver writes a float as its [repr], a
    decimal that reads back as the same float, so the model keeps the
    exact value of the float; a decimal has no negative zero. *)
Inductive numeric : Type :=
| NumNaN
| NumInfinity (negative : bool)
| NumExact (m e : Z).

(** What the column holds once a float was written to it. *)
Definition float_to_numeric (f : spec_float) : numeric :=
  match f with
  | S754_zero _ => NumExact 0 0
  | S754_infinity negative => NumInfinity negative
  | S754_nan => NumNaN
  | S754_finite negative m e => NumExact (if negative then Z.neg m else Z.pos m) e
  end.

(** [float(r.value)]: the nearest binary64 value. *)
Definition numeric_to_float (x : numeric) : spec_float :=
  match x with
  | NumNaN => S754_nan
  | NumInfinity negative => S754_infinity negative
  | NumExact m e => binary_normalize 53 1024 m e false
  end.

(** A row of table [graph_data_history]. Rows are only inserted through
    the ORM, so [id] and [extracted_at] always carry the values the
    store assigned ([func.now()] at insertion). *)
Module GraphDataHistory.

Record t : Type := {
  id : Z;
  metric_name : string;
  category : string;
  value : numeric;
  extracted_at : datetime;
  source_graph_hash : string
}.

End GraphDataHistory.
Definition row : Type := GraphDataHistory.t.

(** A [GraphDataHistory(...)] object as constructed by the persistence
    helper, before the session flushes it: [category] is whatever
    [data_point['category']] was. *)
Record new_record : Type := {
  new_metric_name : string;
  new_category : json;
  new_value : spec_float;
  new_source_graph_hash : string
}.

Inductive Image : Type := PILImage (raw : string).

(** What a request does to the outside, in order. *)
Inductive event : Type :=
| EvGenerate (model prompt : string) (image : option Image)
| EvQueryFiltered (metric : string) (categories : list json)
| EvQueryRecent
| EvAdd (r : new_record)
| EvCommit
| EvPrint (line : string).

Record world : Type := {
  table : list row;            (* committed rows, in insertion order *)
  session : list new_record;   (* objects added to the session, not yet flushed *)
  inactive : bool;             (* a flush failed: the session wants a rollback *)
  next_id : Z;                 (* the serial behind [id] *)
  db_now : datetime;           (* the store's clock *)
  trace : list event
}.

(** The world seen through a new session that holds [s]. *)
Definition with_session (w : world) (s : list new_record) : world :=
  {| table := table w; session := s; inactive := false; next_id := next_id w;
     db_now := db_now w; trace := trace w |}.

Definition with_trace (w : world) (t : list event) : world :=
  {| table := table w; session := session w; inactive := inactive w;
     next_id := next_id w; db_now := db_now w; trace := t |}.

(* ================================================================= *)
(** ** The monad of a request: state and exceptions *)

Definition M (A : Type) : Type := world -> result A * world.

Definition ret {A} (a : A) : M A := fun w => (Ok a, w).
Definition raise {A} (e : exn) : M A := fun w => (Raise e, w).
Definition lift {A} (r : result A) : M A := fun w => (r, w).

Definition bind {A B} (m : M A) (k : A -> M B) : M B :=
  fun w =>
    match m w with
    | (Ok a, w') => k a w'
    | (Raise e, w') => (Raise e, w')
    end.

(** [try: body except Exception as e: handler e]. *)
Definition try_except {A} (body : M A) (handler : exn -> M A) : M A :=
  fun w =>
    match body w with
    | (Ok a, w') => (Ok a, w')
    | (Raise e, w') => handler e w'
    end.

Notation "x <- m ;; k" := (bind m (fun x => k))
  (at level 61, m at next level, right associativity).
Notation "m ;;; k" := (bind m (fun _ => k))
  (at level 61, right associativity).

Definition emit (ev : event) : M unit :=
  fun w => (Ok tt, with_trace w (trace w ++ [ev])).

Fixpoint for_each {A} (body : A -> M unit) (l : list A) : M unit :=
  match l with
  | [] => ret tt
  | x :: rest => body x ;;; for_each body rest
  end.

Fixpoint map_result {A B} (f : A -> result B) (l : list A) : result (list B) :=
  match l with
  | [] => Ok []
  | x :: rest =>
      rbind (f x) (fun y => rbind (map_result f rest) (fun ys => Ok (y :: ys)))
  end.

(* ================================================================= *)
(** ** Collaborators outside the repository *)

(** Field annotations of the response model. *)
Inductive field_type : Type := TStr | TListStr | TListDict.

(** The library code and the external services the pipeline calls. The
    two gateway fields fold [generate_content] and the read of
    [response.text] into one outcome: [inl] carries the message of the
    exception, [inr] the text. *)
Record Env : Type := {
  json_loads : string -> string + json;          (* [inl]: JSONDecodeError *)
  json_dumps : json -> string;
  py_str : json -> string;                       (* [str(v)] *)
  float_of_str : string -> option spec_float;    (* [float(s)] on a [str] *)
  sha256_hexdigest : string -> string;
  b64decode : string -> string + string;
  image_open : string -> string + Image;         (* [PIL.Image.open] *)
  generate_content_async : string -> string -> Image -> string + string;
  generate_content : string -> string -> string + string;
  pydantic_validate : field_type -> json -> option json;
  (* a value that is no [str], [int] or [None], written to a [String]
     column: the driver or the server refuses it ([inl]), or the server
     casts it to the text [inr] gives *)
  varchar_of : json -> string + string;
  (* a list holding a value that is no [str] or [None], compared with a
     [String] column by [in_]: refused, or compared as the texts given *)
  in_list_of : list json -> string + list (option string)
}.

Definition dq : string := String "034"%char EmptyString.
Definition quoted (s : string) : string := dq ++ s ++ dq.
Definition LF : string := String "010"%char EmptyString.

(** The body of a triple-quoted literal written at four spaces of
    indentation: every line starts on a new line, blank lines stay
    empty, and the closing quotes sit on an indented line of their own. *)
Fixpoint indented_lines (ls : list string) : string :=
  match ls with
  | [] => LF ++ "    "
  | l :: rest =>
      LF ++ (if String.eqb l EmptyString then l else "    " ++ l) ++ indented_lines rest
  end.

(** The extraction prompt of [analyze_graph_with_gemini]. *)
Definition analysis_prompt : string :=
  indented_lines [
    "You are an expert data analyst. Analyze the provided chart image.";
    "Respond in a valid JSON format with the following keys:";
    "- " ++ quoted "chart_type" ++ ": (e.g., " ++ quoted "Line Chart" ++ ", "
         ++ quoted "Bar Chart" ++ ", " ++ quoted "Pie Chart" ++ ")";
    "- " ++ quoted "summary" ++ ": A brief, one-sentence summary of the chart's main point.";
    "- " ++ quoted "trends" ++ ": A list of key trends or patterns observed.";
    "- " ++ quoted "anomalies" ++ ": A list of any outliers or unexpected data points.";
    "- " ++ quoted "recommendations"
         ++ ": A list of 2-3 actionable business recommendations based ONLY on the data in this chart.";
    "- " ++ quoted "extracted_data"
         ++ ": An array of JSON objects representing the data points. For example, [{"
         ++ quoted "category" ++ ": " ++ quoted "Jan" ++ ", " ++ quoted "value" ++ ": 150}, {"
         ++ quoted "category" ++ ": " ++ quoted "Feb" ++ ", " ++ quoted "value" ++ ": 170}].";
    EmptyString;
    "Here is the chart:"
  ].

(** The f-string of the validation pass, with its two holes. *)
Definition validation_prompt_of (initial_dump historical_data_str : string) : string :=
  indented_lines [
    "An initial analysis of a new chart produced these insights:";
    initial_dump;
    EmptyString;
    "Here is the relevant historical data for the same metrics from our database:";
    historical_data_str;
    EmptyString;
    "Your task is to act as a senior auditor.";
    "1. Cross-check the " ++ quoted "trends" ++ " and " ++ quoted "anomalies"
         ++ " from the initial analysis against the historical data.";
    "2. Refine, confirm, or challenge the " ++ quoted "recommendations"
         ++ ". A recommendation is only valid if supported by both the new chart and the historical context.";
    "3. Return a final, validated JSON object with the same structure as the initial analysis, but with the refined content."
  ].

(* ================================================================= *)
(** ** Session and table operations *)

(** The store is PostgreSQL (from version 14, whose [Numeric] takes
    infinities), in UTF-8, through psycopg2; a flush sends its INSERTs
    as one statement. *)

(** psycopg2 renders a [str] parameter: the text must encode, and a
    string literal cannot hold a NUL. *)
Definition adapt_str (s : string) : result string :=
  if negb (encodes s) then
    Raise (PyExn ValueError "'utf-8' codec can't encode character: surrogates not allowed")
  else if has_nul s then
    Raise (PyExn ValueError "A string literal cannot contain NUL (0x00) characters.")
  else Ok s.

(** The decimal text of an [int]. *)
Definition int_text (z : Z) : string := NilZero.string_of_int (Z.to_int z).

(** A text stored in a [String(limit)] column: at most [limit]
    characters; a longer text is refused, unless what exceeds the limit
    is spaces only, which are cut off. *)
Definition to_varchar (limit : nat) (s : string) : result string :=
  if (py_len s <=? limit)%nat then Ok s
  else if all_spaces (py_drop limit s) then Ok (py_take limit s)
  else Raise (PyExn DataError
                ("value too long for type character varying("
                   ++ digits (N.of_nat limit) ++ ")")).

(** The parameters of the INSERT of one object, as psycopg2 renders
    them: [None] is [NULL]. The hash is made of hexadecimal digits. *)
Record insert_params : Type := {
  param_metric_name : string;
  param_category : option string;
  param_value : spec_float;
  param_source_graph_hash : string
}.

Definition adapt_category (E : Env) (v : json) : result (option string) :=
  match v with
  | JStr s => rbind (adapt_str s) (fun s' => Ok (Some s'))
  | JNum (PInt z) => Ok (Some (int_text z))
  | JNull => Ok None
  | _ =>
      match varchar_of E v with
      | inr text => Ok (Some text)
      | inl msg => Raise (PyExn DBAPIError msg)
      end
  end.

Definition adapt_record (E : Env) (p : new_record) : result insert_params :=
  rbind (adapt_str (new_metric_name p)) (fun m =>
  rbind (adapt_category E (new_category p)) (fun c =>
  Ok {| param_metric_name := m;
        param_category := c;
        param_value := new_value p;
        param_source_graph_hash := new_source_graph_hash p |})).

(** The server inserts one row: the serial gives the [id], the clock
    [extracted_at]; [metric_name] and [category] are [String(255)] and
    not nullable, [source_graph_hash] is [String(64)]. *)
Definition insert_row (new_id : Z) (now : datetime) (p : insert_params) : result row :=
  rbind (to_varchar 255 (param_metric_name p)) (fun m =>
  rbind (match param_category p with
         | Some c => to_varchar 255 c
         | None =>
             Raise (PyExn IntegrityError
                      "null value in column category violates not-null constraint")
         end) (fun c =>
  rbind (to_varchar 64 (param_source_graph_hash p)) (fun h =>
  Ok {| GraphDataHistory.id := new_id;
        GraphDataHistory.metric_name := m;
        GraphDataHistory.category := c;
        GraphDataHistory.value := float_to_numeric (param_value p);
        GraphDataHistory.extracted_at := now;
        GraphDataHistory.source_graph_hash := h |}))).

(** The rows of one INSERT, in order, with the value the serial is left
    at: a row the server refuses has taken its [id] already. *)
Fixpoint insert_rows (first_id : Z) (now : datetime) (ps : list insert_params)
  : result (list row) * Z :=
  match ps with
  | [] => (Ok [], first_id)
  | p :: rest =>
      match insert_row first_id now p with
      | Raise e => (Raise e, first_id + 1)
      | Ok r =>
          match insert_rows (first_id + 1) now rest with
          | (Ok rows, next) => (Ok (r :: rows), next)
          | (Raise e, next) => (Raise e, next)
          end
      end
  end.

(** A flush: the driver renders the parameters of all pending objects
    (a value it refuses stops the flush before anything is sent), then
    the server inserts the rows. *)
Definition flush (E : Env) (first_id : Z) (now : datetime) (pending : list new_record)
  : result (list row) * Z :=
  match map_result (adapt_record E) pending with
  | Ok ps => insert_rows first_id now ps
  | Raise e => (Raise e, first_id)
  end.

Definition pending_rollback : exn :=
  PyExn PendingRollbackError
    "This Session's transaction has been rolled back due to a previous exception during flush.".

(** Any statement on a session whose flush failed is refused until the
    session is rolled back. *)
Definition check_active : M unit :=
  fun w => if inactive w then (Raise pending_rollback, w) else (Ok tt, w).

(** The comparison list of [in_]: [None] is [NULL], which equals
    nothing. *)
Definition str_or_null (v : json) : bool :=
  match v with
  | JStr _ | JNull => true
  | _ => false
  end.

Definition adapt_in_param (v : json) : result (option string) :=
  match v with
  | JStr s => rbind (adapt_str s) (fun s' => Ok (Some s'))
  | _ => Ok None
  end.

Definition adapt_in_list (E : Env) (categories : list json) : result (list (option string)) :=
  if forallb str_or_null categories then map_result adapt_in_param categories
  else match in_list_of E categories with
       | inr texts => Ok texts
       | inl msg => Raise (PyExn DBAPIError msg)
       end.

Definition in_texts (c : string) (texts : list (option string)) : bool :=
  existsb (fun t => match t with Some s => String.eqb c s | None => false end) texts.

(** [query(GraphDataHistory).filter(metric_name == m,
    category.in_(categories)).all()]. *)
Definition query_filtered (E : Env) (m : string) (categories : list json) : M (list row) :=
  emit (EvQueryFiltered m categories) ;;;
  check_active ;;;
  m' <- lift (adapt_str m) ;;
  texts <- lift (adapt_in_list E categories) ;;
  fun w =>
    (Ok (filter (fun r =>
                   String.eqb (GraphDataHistory.metric_name r) m' &&
                   in_texts (GraphDataHistory.category r) texts)
                (table w)), w).

(** [db_session.add(db_record)]. *)
Definition session_add (r : new_record) : M unit :=
  fun w =>
    (Ok tt, {| table := table w; session := session w ++ [r];
               inactive := inactive w;
               next_id := next_id w; db_now := db_now w;
               trace := trace w ++ [EvAdd r] |}).

(** [db_session.commit()]: all pending objects become rows, or none
    does; after a failed flush the pending objects are gone and the
    session is left inactive. *)
Definition session_commit (E : Env) : M unit :=
  fun w =>
    if inactive w then (Raise pending_rollback, with_trace w (trace w ++ [EvCommit]))
    else
      match flush E (next_id w) (db_now w) (session w) with
      | (Ok rows, next) =>
          (Ok tt, {| table := table w ++ rows; session := []; inactive := false;
                     next_id := next; db_now := db_now w;
                     trace := trace w ++ [EvCommit] |})
      | (Raise e, next) =>
          (Raise e, {| table := table w; session := []; inactive := true;
                       next_id := next; db_now := db_now w;
                       trace := trace w ++ [EvCommit] |})
      end.

(** [ORDER BY extracted_at DESC], by insertion. *)
Fixpoint insert_desc (r : row) (sorted : list row) : list row :=
  match sorted with
  | [] => [r]
  | x :: rest =>
      if dt_leb (GraphDataHistory.extracted_at x) (GraphDataHistory.extracted_at r)
      then r :: x :: rest
      else x :: insert_desc r rest
  end.

Definition order_by_extracted_at_desc (rows : list row) : list row :=
  fold_right insert_desc [] rows.

(** [query(GraphDataHistory).order_by(extracted_at.desc()).limit(n).all()]. *)
Definition query_recent (n : nat) : M (list row) :=
  emit EvQueryRecent ;;;
  check_active ;;;
  fun w => (Ok (firstn n (order_by_extracted_at_desc (table w))), w).

(* ================================================================= *)
(** ** The pipeline *)

Section Pipeline.

Variable E : Env.

(** [float(v)]. *)
Definition py_float (v : json) : result spec_float :=
  match v with
  | JNum (PInt z) => float_of_int z
  | JNum (PFloat f) => Ok f
  | JBool b => Ok (float_of_bool b)
  | JStr s =>
      match float_of_str E s with
      | Some f => Ok f
      | None => Raise (PyExn ValueError "could not convert string to float")
      end
  | _ => Raise (PyExn TypeError "float() argument must be a string or a real number")
  end.

(** One turn of the loop of [store_new_data_in_db]. *)
Definition store_data_point (metric_name : string) (data_point : json) : M unit :=
  has_category <- lift (py_contains "category" data_point) ;;
  has_both <- (if has_category : bool then lift (py_contains "value" data_point)
               else ret false) ;;
  if has_both : bool then
    category <- lift (py_getitem data_point "category") ;;
    raw_value <- lift (py_getitem data_point "value") ;;
    value <- lift (py_float raw_value) ;;
    session_add {| new_metric_name := metric_name;
                   new_category := category;
                   new_value := value;
                   new_source_graph_hash :=
                     py_take 64 (sha256_hexdigest E (py_str E data_point)) |}
  else ret tt.

Definition store_new_data_in_db (extracted_data : json) (metric_name : string) : M unit :=
  items <- lift (py_iter extracted_data) ;;
  for_each (store_data_point metric_name) items ;;;
  session_commit E.

(** [[item.get('category', '') for item in extracted_data if 'category' in item]]. *)
Fixpoint category_values (items : list json) : result (list json) :=
  match items with
  | [] => Ok []
  | item :: rest =>
      rbind (py_contains "category" item) (fun has_category =>
        if has_category : bool then
          rbind (py_get item "category" (JStr EmptyString)) (fun c =>
          rbind (category_values rest) (fun cs => Ok (c :: cs)))
        else category_values rest)
  end.

Definition historical_json (historical_records : list row) : json :=
  JArr (map (fun r => JObj [("category", JStr (GraphDataHistory.category r));
                            ("value",
                             JNum (PFloat (numeric_to_float (GraphDataHistory.value r))))])
            historical_records).

(** A call of the Model Gateway that answers with text. *)
Definition gateway_text (model prompt : string) : M string :=
  emit (EvGenerate model prompt None) ;;;
  match generate_content E model prompt with
  | inr text => ret text
  | inl msg => raise (PyExn GatewayFailure msg)
  end.

Definition gateway_vision (model prompt : string) (image : Image) : M string :=
  emit (EvGenerate model prompt (Some image)) ;;;
  match generate_content_async E model prompt image with
  | inr text => ret text
  | inl msg => raise (PyExn GatewayFailure msg)
  end.

Definition loads (text : string) : M json :=
  match json_loads E text with
  | inr v => ret v
  | inl msg => raise (PyExn JSONDecodeError msg)
  end.

Definition print (line : string) : M unit := emit (EvPrint line).

Definition general_metric : string := "general_metric".

Definition get_validated_insights (initial_insights : json) : M json :=
  extracted_data <- lift (py_get initial_insights "extracted_data" (JArr [])) ;;
  if negb (py_truthy extracted_data) then ret initial_insights
  else
    let metric_name := general_metric in
    items <- lift (py_iter extracted_data) ;;
    categories <- lift (category_values items) ;;
    match categories with
    | [] => ret initial_insights
    | _ :: _ =>
        historical_records <- query_filtered E metric_name categories ;;
        match historical_records with
        | [] =>
            store_new_data_in_db extracted_data metric_name ;;;
            ret initial_insights
        | _ :: _ =>
            let historical_data_str := json_dumps E (historical_json historical_records) in
            let validation_prompt :=
              validation_prompt_of (json_dumps E initial_insights) historical_data_str in
            try_except
              (text <- gateway_text "gemini-pro" validation_prompt ;;
               final_insights <- loads text ;;
               store_new_data_in_db extracted_data metric_name ;;;
               ret final_insights)
              (fun e =>
                 print ("Validation failed: " ++ exn_str e) ;;;
                 store_new_data_in_db extracted_data metric_name ;;;
                 ret initial_insights)
        end
    end.

Definition calculate_image_hash (image_content : string) : string :=
  sha256_hexdigest E image_content.

(** First pass: any failure of the call becomes [HTTPException(500)]. *)
Definition analyze_graph_with_gemini (image : Image) : M string :=
  try_except
    (gateway_vision "gemini-pro-vision" analysis_prompt image)
    (fun e => raise (HTTPException 500 ("Gemini API call failed: " ++ exn_str e))).

(** [json.loads] guarded by [except json.JSONDecodeError]. *)
Definition parse_initial (raw_insights_json_str : string) : M json :=
  match json_loads E raw_insights_json_str with
  | inr v => ret v
  | inl msg => raise (HTTPException 500 ("Failed to parse Gemini response: " ++ msg))
  end.

Definition InsightResponse_fields : list (string * field_type) :=
  [("chart_type", TStr); ("summary", TStr); ("trends", TListStr);
   ("anomalies", TListStr); ("recommendations", TListStr);
   ("extracted_data", TListDict)].

Definition validate_field (fields : list (string * json)) (f : string * field_type)
  : result (string * json) :=
  match lookup (fst f) fields with
  | None => Raise (PyExn ValidationError ("field required: " ++ fst f))
  | Some v =>
      match pydantic_validate E (snd f) v with
      | Some v' => Ok (fst f, v')
      | None => Raise (PyExn ValidationError ("invalid value: " ++ fst f))
      end
  end.

(** Building the response model from the unpacked dict
    ([InsightResponse] applied to [**validated_insights]): the argument must be a
    mapping, each of the six fields is required and validated, other
    keys are ignored. *)
Definition InsightResponse (validated_insights : json) : result json :=
  match validated_insights with
  | JObj fields =>
      rbind (map_result (validate_field fields) InsightResponse_fields)
            (fun checked => Ok (JObj checked))
  | _ => Raise (PyExn TypeError "argument after ** must be a mapping")
  end.

(** The upload endpoint, with the validation step it calls as an
    argument. *)
Definition analyze_uploaded_graph_with (validate : json -> M json)
    (content_type : option string) (image_content : string) : M json :=
  match content_type with
  | None => raise (PyExn AttributeError "'NoneType' object has no attribute 'startswith'")
  | Some ct =>
      if negb (prefix "image/" ct) then
        raise (HTTPException 400 "File provided is not an image.")
      else
        let image_hash := calculate_image_hash image_content in
        image <- match image_open E image_content with
                 | inr img => ret img
                 | inl msg => raise (HTTPException 400 ("Invalid image format: " ++ msg))
                 end ;;
        raw_insights_json_str <- analyze_graph_with_gemini image ;;
        initial_insights <- parse_initial raw_insights_json_str ;;
        validated_insights <- validate initial_insights ;;
        lift (InsightResponse validated_insights)
  end.

Definition analyze_uploaded_graph : option string -> string -> M json :=
  analyze_uploaded_graph_with get_validated_insights.

(** [s.split(',')]. *)
Fixpoint split_comma (s : string) : list string :=
  match s with
  | EmptyString => [EmptyString]
  | String c rest =>
      if Ascii.eqb c ","%char then EmptyString :: split_comma rest
      else match split_comma rest with
           | piece :: pieces => String c piece :: pieces
           | [] => [String c EmptyString]
           end
  end.

(** The body of the [try] of the screen-capture endpoint. *)
Definition decode_screen_capture (image_data : string) : result Image :=
  match nth_error (split_comma image_data) 1 with
  | None => Raise (PyExn IndexError "list index out of range")
  | Some payload =>
      match b64decode E payload with
      | inl msg => Raise (PyExn ValueError msg)
      | inr bytes =>
          match image_open E bytes with
          | inl msg => Raise (PyExn ValueError msg)
          | inr img => Ok img
          end
      end
  end.

Definition analyze_screen_capture_with (validate : json -> M json)
    (image_data : string) : M json :=
  image <- try_except (lift (decode_screen_capture image_data))
             (fun e => raise (HTTPException 400 ("Invalid image data: " ++ exn_str e))) ;;
  raw_insights_json_str <- analyze_graph_with_gemini image ;;
  initial_insights <- parse_initial raw_insights_json_str ;;
  validated_insights <- validate initial_insights ;;
  lift (InsightResponse validated_insights).

Definition analyze_screen_capture : string -> M json :=
  analyze_screen_capture_with get_validated_insights.

Definition history_entry (r : row) : json :=
  JObj [("id", JNum (PInt (GraphDataHistory.id r)));
        ("metric_name", JStr (GraphDataHistory.metric_name r));
        ("category", JStr (GraphDataHistory.category r));
        ("value", JNum (PFloat (numeric_to_float (GraphDataHistory.value r))));
        ("extracted_at", JStr (isoformat (GraphDataHistory.extracted_at r)))].

Definition get_historical_data : M json :=
  records <- query_recent 100 ;;
  ret (JArr (map history_entry records)).

Definition root : M json :=
  ret (JObj [("message", JStr "Graph Analysis AI API"); ("version", JStr "1.0.0")]).

(* ----------------------------------------------------------------- *)
(** *** The web layer around an endpoint *)

Record response : Type := { status : Z; body : json }.

(** A returned value is a 200; an [HTTPException] answers with its own
    status code; any other exception is an internal server error. *)
Definition to_response (r : result json) : response :=
  match r with
  | Ok v => {| status := 200; body := v |}
  | Raise (HTTPException code detail) =>
      {| status := code; body := JObj [("detail", JStr detail)] |}
  | Raise (PyExn _ _) => {| status := 500; body := JStr "Internal Server Error" |}
  end.

(** [Depends(get_db)]: a fresh session for the request, closed on every
    exit path, which drops whatever was added and not committed. *)
Definition with_db {A} (endpoint : M A) : M A :=
  fun w =>
    let '(r, w') := endpoint (with_session w []) in
    (r, with_session w' []).

Inductive request : Type :=
| PostAnalyzeUpload (content_type : option string) (image_content : string)
| PostAnalyzeScreencap (image_data : string)
| GetHistory
| GetRoot.

Definition endpoint_of (req : request) : M json :=
  match req with
  | PostAnalyzeUpload ct content => with_db (analyze_uploaded_graph ct content)
  | PostAnalyzeScreencap image_data => with_db (analyze_screen_capture image_data)
  | GetHistory => with_db get_historical_data
  | GetRoot => root
  end.

Definition app (req : request) (w : world) : response * world :=
  let '(r, w') := endpoint_of req w in (to_response r, w').

End Pipeline.

(** The worlds the service can be in: it starts on an empty table, and
    from then on requests are served (whatever the collaborators answer)
    and the clock of the store moves. *)
Inductive reachable : world -> Prop :=
| reach_start : forall now,
    reachable {| table := []; session := []; inactive := false; next_id := 1;
                 db_now := now; trace := [] |}
| reach_request : forall E req w,
    reachable w -> reachable (snd (app E req w))
| reach_clock : forall now w,
    reachable w ->
    reachable {| table := table w; session := session w; inactive := inactive w;
                 next_id := next_id w; db_now := now; trace := trace w |}.

(* ================================================================= *)
(** ** Vocabulary of the specification *)

Definition is_ok {A} (r : result A) : bool :=
  match r with
  | Ok _ => true
  | Raise _ => false
  end.

(** The data point is an object that has key [k]. *)
Definition has_key (k : string) (dp : json) : bool :=
  match dp with
  | JObj fields => match lookup k fields with Some _ => true | None => false end
  | _ => false
  end.

Definition both_keys (dp : json) : bool :=
  has_key "category" dp && has_key "value" dp.

(** A data point as the data model types it: an object whose
    [category], when present, is a string and whose [value], when
    present, is a number. *)
Definition data_point_typed (dp : json) : bool :=
  match dp with
  | JObj fields =>
      match lookup "category" fields with
      | Some (JStr _) | None => true
      | Some _ => false
      end &&
      match lookup "value" fields with
      | Some (JNum _) | None => true
      | Some _ => false
      end
  | _ => false
  end.

(** A text a [String(limit)] column takes as it is: it encodes, holds
    no NUL, and has at most [limit] characters. *)
Definition storable (limit : nat) (s : string) : bool :=
  encodes s && negb (has_nul s) && (py_len s <=? limit)%nat.

(** A data point the persistence helper can handle: an object whose
    [category], when present, is a string the column takes and whose
    [value], when present, is accepted by [float()]. *)
Definition persistable (E : Env) (dp : json) : bool :=
  match dp with
  | JObj fields =>
      match lookup "category" fields with
      | Some (JStr c) => storable 255 c
      | None => true
      | Some _ => false
      end &&
      match lookup "value" fields with
      | Some v => is_ok (py_float E v)
      | None => true
      end
  | _ => false
  end.

(** The strings among the categories of the data points. *)
Definition categories_of (items : list json) : list string :=
  flat_map (fun dp =>
              match dp with
              | JObj fields =>
                  match lookup "category" fields with
                  | Some (JStr c) => [c]
                  | _ => []
                  end
              | _ => []
              end) items.

(** The rows of the store filed under the constant metric name with one
    of the categories of the data points. *)
Definition matching_rows (w : world) (items : list json) : list row :=
  filter (fun r =>
            String.eqb (GraphDataHistory.metric_name r) general_metric &&
            existsb (String.eqb (GraphDataHistory.category r)) (categories_of items))
         (table w).

(** Row [r] is the row written for data point [dp] under metric name
    [m] at time [now]. *)
Definition stored_from (E : Env) (m : string) (now : datetime) (dp : json) (r : row)
  : Prop :=
  exists fields v f,
    dp = JObj fields /\
    lookup "category" fields = Some (JStr (GraphDataHistory.category r)) /\
    lookup "value" fields = Some v /\
    py_float E v = Ok f /\
    GraphDataHistory.value r = float_to_numeric f /\
    GraphDataHistory.metric_name r = m /\
    GraphDataHistory.extracted_at r = now /\
    GraphDataHistory.source_graph_hash r =
      py_take 64 (sha256_hexdigest E (py_str E dp)).

Definition is_gateway_call (ev : event) : bool :=
  match ev with
  | EvGenerate _ _ _ => true
  | _ => false
  end.

(** The world after the persistence helper wrote [rows]: the session
    saw the objects [added], one [add] each, then a single commit. *)
Definition after_store (w : world) (added : list new_record) (rows : list row) : world :=
  {| table := table w ++ rows;
     session := [];
     inactive := false;
     next_id := next_id w + Z.of_nat (List.length rows);
     db_now := db_now w;
     trace := trace w ++ map EvAdd added ++ [EvCommit] |}.

(** The object the helper builds for a data point with both keys. *)
Definition record_for (E : Env) (m : string) (dp : json) : list new_record :=
  match dp with
  | JObj fields =>
      match lookup "category" fields, lookup "value" fields with
      | Some c, Some v =>
          match py_float E v with
          | Ok f => [{| new_metric_name := m; new_category := c; new_value := f;
                        new_source_graph_hash :=
                          py_take 64 (sha256_hexdigest E (py_str E dp)) |}]
          | Raise _ => []
          end
      | _, _ => []
      end
  | _ => []
  end.

(** The helper raises on [items] and the table is as it was. *)
Definition helper_refuses (E : Env) (items : list json) (m : string) (w : world) : Prop :=
  is_ok (fst (store_new_data_in_db E (JArr items) m w)) = false /\
  table (snd (store_new_data_in_db E (JArr items) m w)) = table w.

(** The validator raises on [record] and the table is as it was. *)
Definition validator_refuses (E : Env) (record : json) (w : world) : Prop :=
  is_ok (fst (get_validated_insights E record w)) = false /\
  table (snd (get_validated_insights E record w)) = table w.

(** The prompt of the validation pass for a record and the rows found. *)
Definition validation_prompt (E : Env) (initial_insights : json)
    (historical_records : list row) : string :=
  validation_prompt_of (json_dumps E initial_insights)
                       (json_dumps E (historical_json historical_records)).

(** An object without a [category] key. *)
Definition uncategorized (dp : json) : bool :=
  match dp with
  | JObj fields => match lookup "category" fields with Some _ => false | None => true end
  | _ => false
  end.

(* ----------------------------------------------------------------- *)
(** *** One bucket *)

Definition row_in_bucket (r : row) : Prop :=
  GraphDataHistory.metric_name r = general_metric.

Definition record_in_bucket (p : new_record) : Prop :=
  new_metric_name p = general_metric.

Definition event_in_bucket (ev : event) : Prop :=
  match ev with
  | EvQueryFiltered m _ => m = general_metric
  | EvAdd p => record_in_bucket p
  | _ => True
  end.

(** Every row, every object waiting in the session, every filtered
    query and every add on record carry the constant metric name. *)
Definition single_bucket (w : world) : Prop :=
  Forall row_in_bucket (table w) /\
  Forall record_in_bucket (session w) /\
  Forall event_in_bucket (trace w).

Definition preserves {A} (m : M A) : Prop :=
  forall w, single_bucket w -> single_bucket (snd (m w)).

(* ----------------------------------------------------------------- *)
(** *** Extraction failures *)

(** The extraction pass fails: the Gateway call raises, or its text is
    not JSON. *)
Definition extraction_fails (E : Env) (image : Image) : Prop :=
  (exists msg,
      generate_content_async E "gemini-pro-vision" analysis_prompt image = inl msg) \/
  (exists text msg,
      generate_content_async E "gemini-pro-vision" analysis_prompt image = inr text /\
      json_loads E text = inl msg).

(** The world after a request that did one extraction call and nothing
    else. *)
Definition after_extraction_call (w : world) (image : Image) : world :=
  with_session
    (with_trace w (trace w ++ [EvGenerate "gemini-pro-vision" analysis_prompt (Some image)]))
    [].

Definition server_error (detail : string) : response :=
  {| status := 500; body := JObj [("detail", JStr detail)] |}.

(* ----------------------------------------------------------------- *)
(** *** The listing *)

(** Row [a] is at least as recent as row [b]. *)
Definition recent_first (a b : row) : Prop :=
  dt_leb (GraphDataHistory.extracted_at b) (GraphDataHistory.extracted_at a) = true.

Definition is_digit (c : ascii) : bool :=
  (48 <=? N_of_ascii c)%N && (N_of_ascii c <=? 57)%N.

(** [s] follows [pattern], in which [d] stands for any decimal digit and
    every other character for itself. *)
Fixpoint follows (pattern s : string) : bool :=
  match pattern, s with
  | EmptyString, EmptyString => true
  | String p pattern', String c s' =>
      (if Ascii.eqb p "d" then is_digit c else Ascii.eqb p c) && follows pattern' s'
  | _, _ => false
  end.

(** The extended ISO 8601 form of a date and time, with or without
    microseconds. *)
Definition iso8601 (s : string) : bool :=
  follows "dddd-dd-ddTdd:dd:dd" s || follows "dddd-dd-ddTdd:dd:dd.dddddd" s.

(** Reading [width] decimal digits off the front of [s]. *)
Fixpoint read_digits (width : nat) (s : string) (acc : N) : option (N * string) :=
  match width with
  | O => Some (acc, s)
  | S width' =>
      match s with
      | String c s' =>
          if is_digit c then read_digits width' s' (acc * 10 + (N_of_ascii c - 48))%N
          else None
      | EmptyString => None
      end
  end.

Definition read_char (c : ascii) (s : string) : option string :=
  match s with
  | String c' s' => if Ascii.eqb c c' then Some s' else None
  | EmptyString => None
  end.

Definition and_then {A B} (o : option A) (k : A -> option B) : option B :=
  match o with
  | Some a => k a
  | None => None
  end.

(** The year, month, day, hour, minute, second and microsecond that a
    text in ISO 8601 form denotes. *)
Definition iso8601_fields (s : string) : option (list N) :=
  and_then (read_digits 4 s 0) (fun '(y, s) =>
  and_then (read_char "-" s) (fun s =>
  and_then (read_digits 2 s 0) (fun '(mo, s) =>
  and_then (read_char "-" s) (fun s =>
  and_then (read_digits 2 s 0) (fun '(d, s) =>
  and_then (read_char "T" s) (fun s =>
  and_then (read_digits 2 s 0) (fun '(h, s) =>
  and_then (read_char ":" s) (fun s =>
  and_then (read_digits 2 s 0) (fun '(mi, s) =>
  and_then (read_char ":" s) (fun s =>
  and_then (read_digits 2 s 0) (fun '(sec, s) =>
  match s with
  | EmptyString => Some [y; mo; d; h; mi; sec; 0%N]
  | _ =>
      and_then (read_char "." s) (fun s =>
      and_then (read_digits 6 s 0) (fun '(us, s) =>
      match s with
      | EmptyString => Some [y; mo; d; h; mi; sec; us]
      | _ => None
      end))
  end))))))))))).

(** The number a string of digits denotes, after [acc]. *)
Fixpoint digits_value (s : string) (acc : N) : N :=
  match s with
  | EmptyString => acc
  | String c s' => digits_value s' (acc * 10 + (N_of_ascii c - 48))%N
  end.


Definition all_below (f : N -> bool) (n : N) : bool :=
  N.peano_rect (fun _ => bool) true (fun k acc => f k && acc) n.

Fixpoint all_digits (s : string) : bool :=
  match s with
  | EmptyString => true
  | String c s' => is_digit c && all_digits s'
  end.

Fixpoint ds (k : nat) : string :=
  match k with
  | O => EmptyString
  | S k' => String "d" (ds k')
  end.

(** The integer a float is exactly equal to, when there is one. *)
Definition float_exact_Z (f : spec_float) : option Z :=
  match f with
  | S754_zero _ => Some 0
  | S754_finite s m e =>
      let sign := if s then -1 else 1 in
      if 0 <=? e then Some (sign * Zpos m * 2 ^ e)
      else if Zpos m mod 2 ^ (- e) =? 0 then Some (sign * (Zpos m / 2 ^ (- e)))
      else None
  | _ => None
  end.

(* ================================================================= *)
(** ** Sample data *)

Definition data_point (category : string) (value : Z) : json :=
  JObj [("category", JStr category); ("value", JNum (PInt value))].

(** The extracted data of the prompt's own example. *)
Definition jan_feb : list json := [data_point "Jan" 150; data_point "Feb" 170].

Definition insight_record (extracted_data : list json) : list (string * json) :=
  [("chart_type", JStr "Bar Chart");
   ("summary", JStr "Sales grow month over month.");
   ("trends", JArr [JStr "upward"]);
   ("anomalies", JArr []);
   ("recommendations", JArr [JStr "keep going"]);
   ("extracted_data", JArr extracted_data)].

(** A refinement as the auditor prompt asks for it. *)
Definition refined_record : json :=
  JObj [("chart_type", JStr "Bar Chart");
        ("summary", JStr "Sales grow, in line with history.");
        ("trends", JArr [JStr "upward"]);
        ("anomalies", JArr []);
        ("recommendations", JArr []);
        ("extracted_data", JArr jan_feb)].

(** Valid JSON of another shape: [summary] is missing. *)
Definition malformed_record : json :=
  JObj [("chart_type", JStr "Bar Chart"); ("trends", JArr [])].

Definition strict_field (ty : field_type) (v : json) : option json :=
  match ty, v with
  | TStr, JStr _ => Some v
  | TListStr, JArr items =>
      if forallb (fun x => match x with JStr _ => true | _ => false end) items
      then Some v else None
  | TListDict, JArr items =>
      if forallb (fun x => match x with JObj _ => true | _ => false end) items
      then Some v else None
  | _, _ => None
  end.

(** A fake of the collaborators: the Gateway answers [vision] to the
    extraction call and [audit] to the validation call, whatever the
    prompt; [parse] stands for [json.loads]. *)
Definition fake_env (vision audit : string + string) (parse : string -> string + json)
  : Env :=
  {| json_loads := parse;
     json_dumps := fun _ => "{}";
     py_str := fun _ => "{}";
     float_of_str := fun _ => None;
     sha256_hexdigest := fun _ => "44136fa355b3678a1146ad16f7e8649e94fb4fc21fe77e8310c060f61caaff8a";
     b64decode := fun s => inr s;
     image_open := fun s => inr (PILImage s);
     generate_content_async := fun _ _ _ => vision;
     generate_content := fun _ _ => audit;
     pydantic_validate := strict_field;
     varchar_of := fun _ => inl "can't adapt type";
     in_list_of := fun _ => inl "operator does not exist" |}.

(** [json.loads] on the three texts the samples use. *)
Definition sample_parse (initial : json) (text : string) : string + json :=
  if String.eqb text "initial" then inr initial
  else if String.eqb text "refined" then inr refined_record
  else if String.eqb text "malformed" then inr malformed_record
  else inl "Expecting value: line 1 column 1 (char 0)".

Definition morning : datetime :=
  {| year := 2024; month := 3; day := 1;
     hour := 9; minute := 30; second := 0; microsecond := 250000;
     in_range := eq_refl |}.

Definition noon : datetime :=
  {| year := 2024; month := 3; day := 1;
     hour := 12; minute := 0; second := 0; microsecond := 0;
     in_range := eq_refl |}.

Definition empty_store : world :=
  {| table := []; session := []; inactive := false; next_id := 1; db_now := noon;
     trace := [] |}.

Definition jan_row : row :=
  {| GraphDataHistory.id := 1;
     GraphDataHistory.metric_name := "general_metric";
     GraphDataHistory.category := "Jan";
     GraphDataHistory.value := NumExact 8444249301319680 (-46);
     GraphDataHistory.extracted_at := morning;
     GraphDataHistory.source_graph_hash := "44136fa355b3678a1146ad16f7e8649e94fb4fc21fe77e8310c060f61caaff8a" |}.

Definition store_with_jan : world :=
  {| table := [jan_row]; session := []; inactive := false; next_id := 2; db_now := noon;
     trace := [] |}.

(** A data point whose value is a JSON number outside the range of a
    binary64 float. *)
Definition too_large : list json := [data_point "Jan" (2 ^ 1024)].

(** A category of 256 characters, next to one the store knows. *)
Definition long_text : string := repeat_string "x" 256.
Definition too_long : list json := [data_point "Jan" 150; data_point long_text 170].

(** A category with a NUL character in it. *)
Definition nul_text : string := String "a" (String zero (String "b" EmptyString)).
Definition with_nul : list json := [data_point "Jan" 150; data_point nul_text 170].

(** A category that is the lone surrogate U+D800. *)
Definition surrogate_text : string :=
  String "237" (String "160" (String "128" EmptyString)).
Definition with_surrogate : list json :=
  [data_point "Jan" 150; data_point surrogate_text 170].

(** An object added to a session and not yet flushed. *)
Definition pending_mar : new_record :=
  {| new_metric_name := "general_metric";
     new_category := JStr "Mar";
     new_value := S754_finite false 5277655813324800 (-45);
     new_source_graph_hash := "44136fa355b3678a1146ad16f7e8649e94fb4fc21fe77e8310c060f61caaff8a" |}.





(* ================================================================= *)
(** ** What a computation does to the world *)

(** The rows that were there are still there, in place: the table only
    grows at its end. *)
Definition append_only (w w' : world) : Prop :=
  exists rows, table w' = (table w ++ rows)%list.

Definition grows {A} (m : M A) : Prop :=
  forall w, append_only w (snd (m w)).

(** [m] leaves the table alone. *)
Definition quiet {A} (m : M A) : Prop :=
  forall w, table (snd (m w)) = table w.

(** When [m] raises, the table is as it was. *)
Definition atomic {A} (m : M A) : Prop :=
  forall w e, fst (m w) = Raise e -> table (snd (m w)) = table w.

(** Every value [m] returns satisfies [P]. *)
Definition returns {A} (P : A -> Prop) (m : M A) : Prop :=
  forall w a, fst (m w) = Ok a -> P a.

(** Every exception [m] raises satisfies [P]. *)
Definition raises {A} (P : exn -> Prop) (m : M A) : Prop :=
  forall w e, fst (m w) = Raise e -> P e.

Definition gateway_calls (evs : list event) : nat :=
  List.length (filter is_gateway_call evs).

(** [m] adds events to the trace, at most [n] Gateway calls among them. *)
Definition calls_at_most {A} (n : nat) (m : M A) : Prop :=
  forall w, exists evs,
    trace (snd (m w)) = (trace w ++ evs)%list /\ (gateway_calls evs <= n)%nat.

(** An exception other than [HTTPException]. *)
Definition plain (e : exn) : Prop :=
  match e with
  | PyExn _ _ => True
  | HTTPException _ _ => False
  end.

(** An exception the web layer answers with status 400 or 500. *)
Definition client_or_server_error (e : exn) : Prop :=
  match e with
  | PyExn _ _ => True
  | HTTPException code _ => code = 400 \/ code = 500
  end.

Definition is_analyze (req : request) : bool :=
  match req with
  | PostAnalyzeUpload _ _ | PostAnalyzeScreencap _ => true
  | GetHistory | GetRoot => false
  end.

(** The value is the record given to the validator, or what
    [json.loads] made of a text the text model answered. *)
Definition initial_or_parsed (E : Env) (initial v : json) : Prop :=
  v = initial \/
  exists prompt text,
    generate_content E "gemini-pro" prompt = inr text /\ json_loads E text = inr v.

Definition bad_request (detail : string) : response :=
  {| status := 400; body := JObj [("detail", JStr detail)] |}.

Definition is_list (v : json) : bool :=
  match v with
  | JArr _ => true
  | _ => false
  end.

Definition is_object (v : json) : bool :=
  match v with
  | JObj _ => true
  | _ => false
  end.

(** An object whose [category], when present, is a string. *)
Definition category_typed (dp : json) : bool :=
  match dp with
  | JObj fields =>
      match lookup "category" fields with
      | Some (JStr _) | None => true
      | Some _ => false
      end
  | _ => false
  end.

(** A data point with both keys whose value [float()] rejects. *)
Definition unconvertible (E : Env) (dp : json) : bool :=
  match dp with
  | JObj fields =>
      match lookup "category" fields, lookup "value" fields with
      | Some _, Some v => negb (is_ok (py_float E v))
      | _, _ => false
      end
  | _ => false
  end.

Definition has_comma (s : string) : bool :=
  existsb (fun c => Ascii.eqb c ","%char) (list_ascii_of_string s).

(* ================================================================= *)
(** ** The connection script ([test_gemini.py]) *)

(** What a call of the vision model gives the script: the call raises,
    or it returns a response whose [text] raises when read, or whose
    [text] is a string. *)
Inductive reply : Type :=
| CallFails (msg : string)
| TextFails (msg : string)
| Text (text : string).

(** The parts of the script that are not in the repository:
    [genai.configure] ([Some]: the message of the exception it raises),
    the image [Image.new] makes, the image the drawing calls leave, and
    the answer of the vision model to the chart prompt. *)
Record TestKit : Type := {
  genai_configure : string -> option string;
  red_square : Image;
  bar_chart : Image;
  chart_reply : string -> string -> Image -> reply
}.

(** [if not api_key]: unset, or set to the empty string. *)
Definition key_missing (api_key : option string) : bool :=
  match api_key with
  | None => true
  | Some k => String.eqb k EmptyString
  end.

Definition configure (K : TestKit) (api_key : option string) : M unit :=
  match api_key with
  | None => ret tt
  | Some k =>
      match genai_configure K k with
      | None => ret tt
      | Some msg => raise (PyExn ValueError msg)
      end
  end.

Definition test_gemini_connection (E : Env) (K : TestKit) (api_key : option string)
  : M bool :=
  if key_missing api_key then
    print "❌ GEMINI_API_KEY not found in environment variables" ;;;
    print "Please set your Gemini API key in the .env file" ;;;
    ret false
  else
    try_except
      (configure K api_key ;;;
       print "Testing text-only model..." ;;;
       text <- gateway_text E "gemini-pro"
                 "Hello, can you respond with 'API connection successful'?" ;;
       print ("✅ Text model response: " ++ text) ;;;
       print (LF ++ "Testing vision model...") ;;;
       vision_text <- gateway_vision E "gemini-pro-vision" "What color is this image?"
                        (red_square K) ;;
       print ("✅ Vision model response: " ++ vision_text) ;;;
       ret true)
      (fun e =>
         print ("❌ Error testing Gemini API: " ++ exn_str e) ;;;
         ret false).

Fixpoint indented_lines8 (ls : list string) : string :=
  match ls with
  | [] => LF ++ "        "
  | l :: rest => LF ++ "        " ++ l ++ indented_lines8 rest
  end.

(** The prompt of [test_graph_analysis]. *)
Definition chart_test_prompt : string :=
  indented_lines8 [
    "You are an expert data analyst. Analyze the provided chart image.";
    "Respond in a valid JSON format with the following keys:";
    "- " ++ quoted "chart_type" ++ ": (e.g., " ++ quoted "Line Chart" ++ ", "
         ++ quoted "Bar Chart" ++ ", " ++ quoted "Pie Chart" ++ ")";
    "- " ++ quoted "summary" ++ ": A brief, one-sentence summary of the chart's main point.";
    "- " ++ quoted "trends" ++ ": A list of key trends or patterns observed.";
    "- " ++ quoted "anomalies" ++ ": A list of any outliers or unexpected data points.";
    "- " ++ quoted "recommendations" ++ ": A list of 2-3 actionable business recommendations.";
    "- " ++ quoted "extracted_data"
         ++ ": An array of JSON objects representing the data points."
  ].

(** [text[:200] + "..." if len(text) > 200 else text]. *)
Definition preview (text : string) : string :=
  if (200 <? py_len text)%nat then py_take 200 text ++ "..." else text.

Definition test_graph_analysis (K : TestKit) (api_key : option string) : M bool :=
  if key_missing api_key then
    print "❌ GEMINI_API_KEY not found" ;;;
    ret false
  else
    try_except
      (configure K api_key ;;;
       emit (EvGenerate "gemini-pro-vision" chart_test_prompt (Some (bar_chart K))) ;;;
       match chart_reply K "gemini-pro-vision" chart_test_prompt (bar_chart K) with
       | CallFails msg => raise (PyExn GatewayFailure msg)
       | TextFails msg =>
           print "✅ Graph analysis test completed" ;;;
           raise (PyExn ValueError msg)
       | Text text =>
           print "✅ Graph analysis test completed" ;;;
           print ("Response: " ++ preview text) ;;;
           ret true
       end)
      (fun e =>
         print ("❌ Error in graph analysis test: " ++ exn_str e) ;;;
         ret false).

(** The [__main__] block of the script. *)
Definition run_script (E : Env) (K : TestKit) (api_key : option string) : M unit :=
  print "🧪 Testing Gemini API Integration" ;;;
  print (repeat_string "=" 40) ;;;
  connection_ok <- test_gemini_connection E K api_key ;;
  if connection_ok : bool then
    print (LF ++ repeat_string "=" 40) ;;;
    print "🧪 Testing Graph Analysis Functionality" ;;;
    analysis_ok <- test_graph_analysis K api_key ;;
    if analysis_ok : bool then
      print (LF ++ "🎉 All tests passed! The Gemini integration is working correctly.")
    else
      print (LF ++ "⚠️ Graph analysis test failed, but basic connection works.")
  else
    print (LF ++ "❌ Basic connection test failed. Please check your API key.").

(** The key is set, [genai.configure] accepts it, and both models
    answer the two questions of the connection test with text. *)
Definition connection_works (E : Env) (K : TestKit) (api_key : option string) : bool :=
  match api_key with
  | None => false
  | Some k =>
      negb (String.eqb k EmptyString) &&
      match genai_configure K k with None => true | Some _ => false end &&
      match generate_content E "gemini-pro"
              "Hello, can you respond with 'API connection successful'?" with
      | inr _ => true
      | inl _ => false
      end &&
      match generate_content_async E "gemini-pro-vision" "What color is this image?"
              (red_square K) with
      | inr _ => true
      | inl _ => false
      end
  end.

Definition sample_kit (chart : reply) : TestKit :=
  {| genai_configure := fun _ => None;
     red_square := PILImage "red";
     bar_chart := PILImage "bars";
     chart_reply := fun _ _ _ => chart |}.

(* ================================================================= *)
(** ** Laws of the request monad *)

Lemma bind_lift_ok {A B} (a : A) (k : A -> M B) : bind (lift (Ok a)) k = k a.
Proof. reflexivity. Qed.

Lemma bind_ret {A B} (a : A) (k : A -> M B) : bind (ret a) k = k a.
Proof. reflexivity. Qed.

Lemma bind_run_ok {A B} (m : M A) (k : A -> M B) (w w' : world) (a : A) :
  m w = (Ok a, w') -> bind m k w = k a w'.
Proof. unfold bind. now intros ->. Qed.

Lemma bind_run_raise {A B} (m : M A) (k : A -> M B) (w w' : world) (e : exn) :
  m w = (Raise e, w') -> bind m k w = (Raise e, w').
Proof. unfold bind. now intros ->. Qed.

(* ================================================================= *)
(** ** The model on the samples *)

Example float_of_150 :
  float_of_int 150 = Ok (S754_finite false 5277655813324800 (-45)) /\
  float_exact_Z (S754_finite false 5277655813324800 (-45)) = Some 150.
Proof. split; vm_compute; reflexivity. Qed.

Example float_of_largest_int :
  is_ok (float_of_int (2 ^ 1024 - 2 ^ 970 - 1)) = true /\
  float_of_int (2 ^ 1024) =
    Raise (PyExn OverflowError "int too large to convert to float").
Proof. split; vm_compute; reflexivity. Qed.

Example contains_on_str_list_dict :
  py_contains "category" (JStr "subcategory") = Ok true /\
  py_contains "category" (JArr [JStr "value"]) = Ok false /\
  py_contains "category" (data_point "Jan" 150) = Ok true /\
  is_ok (py_contains "category" (JNum (PInt 3))) = false.
Proof. repeat split. Qed.

Example split_data_url :
  split_comma "data:image/png;base64,iVBORw0KGgo=" =
    ["data:image/png;base64"; "iVBORw0KGgo="].
Proof. reflexivity. Qed.

(** The scenario of the prompt's example on a store without history:
    the record comes back untouched and the table has two new rows. *)
Example jan_feb_on_empty_store :
  let E := fake_env (inr "initial") (inr "refined")
             (sample_parse (JObj (insight_record jan_feb))) in
  let out := app E (PostAnalyzeUpload (Some "image/png") "PNG") empty_store in
  fst out = {| status := 200; body := JObj (insight_record jan_feb) |} /\
  map GraphDataHistory.category (table (snd out)) = ["Jan"; "Feb"] /\
  map GraphDataHistory.id (table (snd out)) = [1; 2].
Proof. repeat split; vm_compute; reflexivity. Qed.

(** The same upload twice: no deduplication, four rows. *)
Example jan_feb_twice :
  let E := fake_env (inr "initial") (inr "refined")
             (sample_parse (JObj (insight_record jan_feb))) in
  let once := snd (app E (PostAnalyzeUpload (Some "image/png") "PNG") empty_store) in
  let twice := snd (app E (PostAnalyzeUpload (Some "image/png") "PNG") once) in
  map GraphDataHistory.category (table twice) = ["Jan"; "Feb"; "Jan"; "Feb"].
Proof. vm_compute. reflexivity. Qed.

Example listing_of_store_with_jan :
  fst (get_historical_data store_with_jan) =
    Ok (JArr [JObj [("id", JNum (PInt 1));
                    ("metric_name", JStr "general_metric");
                    ("category", JStr "Jan");
                    ("value", JNum (PFloat (S754_finite false 8444249301319680 (-46))));
                    ("extracted_at", JStr "2024-03-01T09:30:00.250000")]]).
Proof. vm_compute. reflexivity. Qed.

(* ================================================================= *)
(** ** The store on the samples *)

(** Length and slices count characters, not bytes. *)
Example characters_not_bytes :
  py_len "é" = 1%nat /\ String.length "é" = 2%nat /\
  py_take 1 "éa" = "é" /\ py_drop 1 "éa" = "a" /\
  py_chars "aéb" = ["a"; "é"; "b"] /\
  preview (repeat_string "é" 150) = repeat_string "é" 150.
Proof. repeat split; vm_compute; reflexivity. Qed.

(** A [String(255)] column takes 255 characters, whatever their bytes,
    cuts the spaces that exceed the limit and refuses other text that
    does; the driver refuses a NUL and a lone surrogate. *)
Example string_column :
  to_varchar 255 (repeat_string "é" 255) = Ok (repeat_string "é" 255) /\
  is_ok (to_varchar 255 long_text) = false /\
  to_varchar 255 (repeat_string "x" 255 ++ "  ") = Ok (repeat_string "x" 255) /\
  is_ok (adapt_str nul_text) = false /\
  is_ok (adapt_str surrogate_text) = false /\
  adapt_str "Jan" = Ok "Jan".
Proof. repeat split; vm_compute; reflexivity. Qed.

(** A [Numeric] column reads back the float it was given, but for the
    sign of zero. *)
Example numeric_column :
  numeric_to_float (float_to_numeric (S754_zero true)) = S754_zero false /\
  numeric_to_float (float_to_numeric (S754_finite true 5277655813324800 (-45))) =
    S754_finite true 5277655813324800 (-45) /\
  numeric_to_float (float_to_numeric S754_nan) = S754_nan.
Proof. repeat split; vm_compute; reflexivity. Qed.

(** An [int] given as a category is cast to its decimal text, and
    [None] violates [nullable=False]. *)
Example int_and_null_category :
  let E := fake_env (inr "initial") (inr "refined") (sample_parse JNull) in
  map GraphDataHistory.category
    (table (snd (store_new_data_in_db E
                   (JArr [JObj [("category", JNum (PInt 7)); ("value", JNum (PInt 1))]])
                   "general_metric" empty_store))) = ["7"] /\
  helper_refuses E [JObj [("category", JNull); ("value", JNum (PInt 1))]]
    "general_metric" empty_store.
Proof. repeat split; vm_compute; reflexivity. Qed.

(** [NULL] in the list of [in_] equals nothing and hides nothing. *)
Example null_in_the_list :
  fst (query_filtered (fake_env (inr "initial") (inr "refined") (sample_parse JNull))
         "general_metric" [JNull; JStr "Jan"] store_with_jan) = Ok [jan_row] /\
  fst (query_filtered (fake_env (inr "initial") (inr "refined") (sample_parse JNull))
         "general_metric" [JNull] store_with_jan) = Ok [].
Proof. repeat split; vm_compute; reflexivity. Qed.

(** A commit the server refuses at the second row: no row is written,
    the serial has moved past both rows, and the session is left
    inactive, so that the store of the [except] branch is refused
    without reaching the server. *)
Example refused_commit :
  let E := fake_env (inr "initial") (inr "refined") (sample_parse JNull) in
  let after := snd (store_new_data_in_db E (JArr too_long) "general_metric" empty_store) in
  table after = [] /\ next_id after = 3 /\ inactive after = true /\
  fst (store_new_data_in_db E (JArr jan_feb) "general_metric" after) =
    Raise pending_rollback /\
  next_id (snd (store_new_data_in_db E (JArr jan_feb) "general_metric" after)) = 3 /\
  fst (get_validated_insights E (JObj (insight_record too_long)) store_with_jan) =
    Raise pending_rollback.
Proof. repeat split; vm_compute; reflexivity. Qed.

(** A file part that declares no content type: [None] has no
    [startswith]. *)
Example upload_without_content_type :
  app (fake_env (inr "initial") (inr "refined") (sample_parse JNull))
      (PostAnalyzeUpload None "%PDF-1.7") store_with_jan =
    ({| status := 500; body := JStr "Internal Server Error" |},
     with_session store_with_jan []).
Proof. reflexivity. Qed.

(* ================================================================= *)
(** ** Strings and the columns that hold them *)

Lemma py_len_app (s1 s2 : string) : py_len (s1 ++ s2) = (py_len s1 + py_len s2)%nat.
Proof. induction s1 as [|c s1 IH]; simpl; [reflexivity | rewrite IH; lia]. Qed.

Lemma py_len_continuation_prefix (s : string) : py_len (continuation_prefix s) = O.
Proof.
  induction s as [|c s IH]; simpl; [reflexivity|].
  destruct (is_continuation c) eqn:Hc; simpl; [now rewrite Hc | reflexivity].
Qed.

(** A slice of [n] characters has at most [n] characters. *)
Lemma py_len_take (n : nat) (s : string) : (py_len (py_take n s) <= n)%nat.
Proof.
  revert s. induction n as [|n IH]; intros s; [now destruct s|].
  destruct s as [|c s]; [apply Nat.le_0_l|].
  change (py_take (S n) (String c s))
    with (String c (continuation_prefix s ++ py_take n (skip_continuation s))).
  cbn [py_len].
  rewrite py_len_app, py_len_continuation_prefix. specialize (IH (skip_continuation s)).
  destruct (is_continuation c); simpl; lia.
Qed.

Lemma adapt_str_inv (s s' : string) : adapt_str s = Ok s' -> s' = s.
Proof.
  unfold adapt_str. destruct (negb (encodes s)); [discriminate|].
  destruct (has_nul s); [discriminate|]. now intros [= <-].
Qed.

Lemma adapt_str_storable (limit : nat) (s : string) :
  storable limit s = true -> adapt_str s = Ok s.
Proof.
  unfold storable, adapt_str. intros H.
  apply andb_prop in H as [H _]. apply andb_prop in H as [He Hn].
  rewrite He. apply negb_true_iff in Hn. now rewrite Hn.
Qed.

Lemma to_varchar_storable (limit : nat) (s : string) :
  storable limit s = true -> to_varchar limit s = Ok s.
Proof.
  unfold storable, to_varchar. intros H.
  apply andb_prop in H as [_ Hl]. now rewrite Hl.
Qed.

Lemma to_varchar_take (n : nat) (s : string) :
  to_varchar n (py_take n s) = Ok (py_take n s).
Proof.
  unfold to_varchar. pose proof (py_len_take n s) as H.
  apply Nat.leb_le in H. now rewrite H.
Qed.

Lemma map_result_Forall2 {A B} (f : A -> result B) (l : list A) (l' : list B) :
  map_result f l = Ok l' -> Forall2 (fun x y => f x = Ok y) l l'.
Proof.
  revert l'. induction l as [|x l IH]; simpl; intros l' H.
  - injection H as <-. constructor.
  - destruct (f x) as [y|e] eqn:Hx; simpl in H; [|discriminate].
    destruct (map_result f l) as [ys|e]; simpl in H; [|discriminate].
    injection H as <-. constructor; [exact Hx | now apply IH].
Qed.

Lemma insert_rows_Forall2 (now : datetime) (ps : list insert_params) :
  forall first_id rows next,
    insert_rows first_id now ps = (Ok rows, next) ->
    Forall2 (fun p r => exists new_id, insert_row new_id now p = Ok r) ps rows /\
    next = first_id + Z.of_nat (List.length rows).
Proof.
  induction ps as [|p ps IH]; simpl; intros first_id rows next H.
  - injection H as <- <-. split; [constructor | simpl; lia].
  - destruct (insert_row first_id now p) as [r|e] eqn:Hr; [|discriminate].
    destruct (insert_rows (first_id + 1) now ps) as [[rest|e] n] eqn:Hrest;
      [|discriminate].
    injection H as <- <-. destruct (IH _ _ _ Hrest) as [Hall Hn]. split.
    + constructor; [now exists first_id | exact Hall].
    + rewrite Hn. cbn [List.length]. lia.
Qed.

(** A flush that goes through, object by object. *)
Lemma flush_cons_ok (E : Env) (first_id : Z) (now : datetime) (p : new_record)
    (rest : list new_record) (q : insert_params) (r : row) (rows : list row) (next : Z) :
  adapt_record E p = Ok q ->
  insert_row first_id now q = Ok r ->
  flush E (first_id + 1) now rest = (Ok rows, next) ->
  flush E first_id now (p :: rest) = (Ok (r :: rows), next).
Proof.
  unfold flush. simpl. intros -> Hr Hrest. simpl.
  destruct (map_result (adapt_record E) rest) as [ps|e]; simpl in *; [|discriminate].
  now rewrite Hr, Hrest.
Qed.

(* ================================================================= *)
(** ** The persistence helper *)

Section Persistence.

Variable E : Env.

Lemma store_data_point_persistable (m : string) (dp : json) (w : world) :
  persistable E dp = true ->
  store_data_point E m dp w =
    (Ok tt, {| table := table w; session := session w ++ record_for E m dp;
               inactive := inactive w;
               next_id := next_id w; db_now := db_now w;
               trace := trace w ++ map EvAdd (record_for E m dp) |}).
Proof.
  destruct w as [tb ss ia ni nw tr].
  destruct dp as [ | | | | | fields]; simpl; try discriminate.
  unfold store_data_point, bind, lift, ret, record_for; simpl.
  destruct (lookup "category" fields) as [c|] eqn:Hc; simpl.
  - destruct (lookup "value" fields) as [v|] eqn:Hv; simpl.
    + destruct c; try discriminate. simpl.
      destruct (py_float E v) as [f|e]; simpl;
        [intros _ | rewrite andb_false_r; discriminate].
      reflexivity.
    + intros _. now rewrite !app_nil_r.
  - intros _. now rewrite !app_nil_r.
Qed.

Lemma for_each_persistable (m : string) (items : list json) :
  forallb (persistable E) items = true ->
  forall w,
    for_each (store_data_point E m) items w =
      (Ok tt, {| table := table w; session := session w ++ flat_map (record_for E m) items;
                 inactive := inactive w;
                 next_id := next_id w; db_now := db_now w;
                 trace := trace w ++ map EvAdd (flat_map (record_for E m) items) |}).
Proof.
  induction items as [|dp items IH]; simpl; intros H w.
  - unfold ret. destruct w; simpl. now rewrite !app_nil_r.
  - apply andb_prop in H as [Hdp Hrest].
    unfold bind. rewrite (store_data_point_persistable m dp w Hdp).
    rewrite (IH Hrest). simpl.
    now rewrite map_app, <- !app_assoc.
Qed.

Lemma flush_persistable (m : string) (now : datetime) (items : list json) :
  storable 255 m = true ->
  forallb (persistable E) items = true ->
  forall first_id,
  exists rows,
    flush E first_id now (flat_map (record_for E m) items) =
      (Ok rows, first_id + Z.of_nat (List.length rows)) /\
    Forall2 (stored_from E m now) (filter both_keys items) rows /\
    List.length rows = List.length (flat_map (record_for E m) items).
Proof.
  intros Hm.
  induction items as [|dp items IH]; simpl; intros H first_id.
  - exists []. repeat split; [|constructor].
    unfold flush. simpl. now rewrite Z.add_0_r.
  - apply andb_prop in H as [Hdp Hrest].
    destruct dp as [ | | | | | fields]; simpl in Hdp; try discriminate.
    unfold both_keys, record_for; simpl.
    destruct (lookup "category" fields) as [c|] eqn:Hc; simpl.
    + destruct (lookup "value" fields) as [v|] eqn:Hv; simpl.
      * destruct c as [ | | | s | | ]; try discriminate.
        apply andb_prop in Hdp as [Hs Hf].
        destruct (py_float E v) as [f|e] eqn:Hfloat; simpl in Hf; try discriminate.
        simpl.
        destruct (IH Hrest (first_id + 1)) as (rows & Hflush & Hrows & Hlen).
        fold (record_for E m) in *.
        eexists. split; [|split].
        -- eapply flush_cons_ok.
           ++ unfold adapt_record, adapt_category.
              cbn [new_metric_name new_category].
              rewrite (adapt_str_storable _ _ Hm), (adapt_str_storable _ _ Hs). reflexivity.
           ++ unfold insert_row.
              cbn [param_metric_name param_category param_source_graph_hash new_value
                   new_source_graph_hash].
              rewrite (to_varchar_storable _ _ Hm), (to_varchar_storable _ _ Hs),
                to_varchar_take. reflexivity.
           ++ rewrite Hflush. f_equal. cbn [List.length]. lia.
        -- constructor; [|exact Hrows].
           exists fields, v, f. simpl. repeat split; assumption.
        -- simpl. now rewrite Hlen.
      * apply (IH Hrest).
    + apply (IH Hrest).
Qed.

(** On persistable data points the helper returns, and leaves the world
    [after_store] for rows that are, in order, the rows of the data
    points with both keys. *)
Lemma store_new_data_in_db_persistable (m : string) (items : list json) (w : world) :
  storable 255 m = true ->
  forallb (persistable E) items = true ->
  session w = [] ->
  inactive w = false ->
  exists added rows,
    store_new_data_in_db E (JArr items) m w = (Ok tt, after_store w added rows) /\
    Forall2 (stored_from E m (db_now w)) (filter both_keys items) rows /\
    List.length added = List.length rows.
Proof.
  intros Hm H Hs Hi.
  destruct (flush_persistable m (db_now w) items Hm H (next_id w))
    as (rows & Hflush & Hrows & Hlen).
  exists (flat_map (record_for E m) items), rows.
  split; [|split; [exact Hrows | now rewrite Hlen]].
  unfold store_new_data_in_db, bind, lift; simpl.
  rewrite (for_each_persistable m items H w).
  unfold session_commit; simpl. rewrite Hs, Hi; simpl.
  rewrite Hflush. unfold after_store. now rewrite <- app_assoc.
Qed.

End Persistence.

(* ================================================================= *)
(** ** The Insight Validator *)

Section Validator.

Variable E : Env.

Lemma category_values_persistable (items : list json) :
  forallb (persistable E) items = true ->
  category_values items = Ok (map JStr (categories_of items)).
Proof.
  induction items as [|dp items IH]; simpl; intros H; [reflexivity|].
  apply andb_prop in H as [Hdp Hrest].
  rewrite (IH Hrest).
  destruct dp as [ | | | | | fields]; simpl in Hdp; try discriminate.
  simpl. destruct (lookup "category" fields) as [c|]; simpl; [|reflexivity].
  destruct c; simpl in Hdp; try discriminate. reflexivity.
Qed.

Lemma categories_of_storable (items : list json) :
  forallb (persistable E) items = true ->
  Forall (fun c => storable 255 c = true) (categories_of items).
Proof.
  induction items as [|dp items IH]; simpl; intros H; [constructor|].
  apply andb_prop in H as [Hdp Hrest].
  destruct dp as [ | | | | | fields]; simpl in Hdp; try discriminate.
  destruct (lookup "category" fields) as [c|]; simpl; [|now apply IH].
  destruct c; simpl in Hdp; try discriminate.
  apply andb_prop in Hdp as [Hs _]. constructor; [exact Hs | now apply IH].
Qed.

Lemma adapt_in_list_strings (cs : list string) :
  Forall (fun c => storable 255 c = true) cs ->
  adapt_in_list E (map JStr cs) = Ok (map Some cs).
Proof.
  unfold adapt_in_list.
  replace (forallb str_or_null (map JStr cs)) with true
    by (symmetry; apply forallb_forall; intros x Hx;
        apply in_map_iff in Hx as (c & <- & _); reflexivity).
  induction 1 as [|c cs Hc _ IH]; simpl; [reflexivity|].
  now rewrite (adapt_str_storable _ _ Hc), IH.
Qed.

Lemma in_texts_strings (c : string) (cs : list string) :
  in_texts c (map Some cs) = existsb (String.eqb c) cs.
Proof.
  unfold in_texts. induction cs as [|x cs IH]; simpl; [reflexivity | now rewrite IH].
Qed.

Lemma query_filtered_strings (items : list json) (w : world) :
  forallb (persistable E) items = true ->
  inactive w = false ->
  query_filtered E general_metric (map JStr (categories_of items)) w =
    (Ok (matching_rows w items),
     with_trace w (trace w ++
       [EvQueryFiltered general_metric (map JStr (categories_of items))])).
Proof.
  intros Hp Hi.
  unfold query_filtered, bind, emit, check_active, lift. simpl. rewrite Hi.
  rewrite (adapt_in_list_strings _ (categories_of_storable items Hp)).
  change (adapt_str general_metric) with (@Ok string general_metric). cbv iota.
  unfold matching_rows. cbn [table with_trace].
  rewrite (filter_ext _ (fun r =>
             String.eqb (GraphDataHistory.metric_name r) general_metric &&
             existsb (String.eqb (GraphDataHistory.category r)) (categories_of items)));
    [reflexivity|].
  intros r. now rewrite in_texts_strings.
Qed.

Lemma categories_of_nonempty (items : list json) :
  forallb (persistable E) items = true ->
  existsb (has_key "category") items = true ->
  categories_of items <> [].
Proof.
  induction items as [|dp items IH]; simpl; intros H Hex; [discriminate|].
  apply andb_prop in H as [Hdp Hrest].
  destruct dp as [ | | | | | fields]; simpl in Hdp; try discriminate.
  simpl in Hex. destruct (lookup "category" fields) as [c|]; simpl in *.
  - destruct c; simpl in Hdp; discriminate.
  - now apply IH.
Qed.

Lemma categorized_nonempty (items : list json) :
  existsb (has_key "category") items = true -> py_truthy (JArr items) = true.
Proof. destruct items; simpl; [discriminate | reflexivity]. Qed.

(** Up to the lookup, a record with persistable, categorized data points
    takes the validator to the query of the store. *)
Lemma validator_to_lookup (fields : list (string * json)) (items : list json) (w : world) :
  lookup "extracted_data" fields = Some (JArr items) ->
  forallb (persistable E) items = true ->
  existsb (has_key "category") items = true ->
  inactive w = false ->
  get_validated_insights E (JObj fields) w =
    let w1 := with_trace w (trace w ++
                [EvQueryFiltered general_metric (map JStr (categories_of items))]) in
    match matching_rows w items with
    | [] =>
        (store_new_data_in_db E (JArr items) general_metric ;;;
         ret (JObj fields)) w1
    | r :: rs =>
        try_except
          (text <- gateway_text E "gemini-pro"
                     (validation_prompt_of (json_dumps E (JObj fields))
                        (json_dumps E (historical_json (r :: rs)))) ;;
           final_insights <- loads E text ;;
           store_new_data_in_db E (JArr items) general_metric ;;;
           ret final_insights)
          (fun e =>
             print ("Validation failed: " ++ exn_str e) ;;;
             store_new_data_in_db E (JArr items) general_metric ;;;
             ret (JObj fields)) w1
    end.
Proof.
  intros Hx Hp Hc Hi.
  unfold get_validated_insights.
  simpl py_get. rewrite Hx, bind_lift_ok.
  rewrite (categorized_nonempty items Hc).
  cbn [negb py_iter]. cbv iota.
  rewrite bind_lift_ok, (category_values_persistable items Hp), bind_lift_ok.
  pose proof (categories_of_nonempty items Hp Hc) as Hne.
  destruct (map JStr (categories_of items)) as [|c cs] eqn:Hcs.
  - destruct (categories_of items); [contradiction | discriminate].
  - rewrite <- Hcs.
    rewrite (bind_run_ok _ _ _ _ _ (query_filtered_strings items w Hp Hi)).
    destruct (matching_rows w items); reflexivity.
Qed.

End Validator.

(* ================================================================= *)
(** ** Properties of the validator and of the persistence helper *)

Lemma category_values_uncategorized (items : list json) :
  forallb uncategorized items = true -> category_values items = Ok [].
Proof.
  induction items as [|dp items IH]; simpl; intros H; [reflexivity|].
  apply andb_prop in H as [Hdp Hrest].
  destruct dp as [ | | | | | fields]; simpl in Hdp; try discriminate.
  simpl. destruct (lookup "category" fields); [discriminate|]. now apply IH.
Qed.

(** C3. For every Insight Record whose extracted data is empty, and for
    every Insight Record whose data points all lack a category, the
    validator returns the record it was given and leaves the world as it
    was: no query, no add, no commit, no row. *)
Theorem validator_short_circuit (E : Env) (fields : list (string * json))
    (items : list json) (w : world) :
  lookup "extracted_data" fields = Some (JArr items) ->
  items = [] \/ forallb uncategorized items = true ->
  get_validated_insights E (JObj fields) w = (Ok (JObj fields), w).
Proof.
  intros Hx Hitems.
  unfold get_validated_insights. simpl py_get. rewrite Hx, bind_lift_ok.
  destruct items as [|dp items]; [reflexivity|].
  destruct Hitems as [Hnil | Hunc]; [discriminate|].
  cbn [py_truthy negb py_iter]. cbv iota.
  now rewrite bind_lift_ok, (category_values_uncategorized _ Hunc), bind_lift_ok.
Qed.

Lemma validator_short_circuit_witness :
  get_validated_insights
    (fake_env (inr "initial") (inr "refined") (sample_parse JNull))
    (JObj (insight_record [JObj [("value", JNum (PInt 150))]])) store_with_jan
  = (Ok (JObj (insight_record [JObj [("value", JNum (PInt 150))]])), store_with_jan).
Proof.
  apply (validator_short_circuit _ _ [JObj [("value", JNum (PInt 150))]]).
  - reflexivity.
  - right. reflexivity.
Defined.

Lemma general_metric_storable : storable 255 general_metric = true.
Proof. reflexivity. Qed.

(** C5, amended. For every sequence of data points whose categories the
    [String(255)] column takes (a text that encodes, of at most 255
    characters, without NUL) and whose values [float()] accepts, and
    every metric name the column takes, the persistence helper, called
    on a session with nothing pending and no failed flush behind it,
    adds exactly one object per data point that has both keys (in
    order), skips the others without error, and commits once, after the
    last add; the rows written are the rows of those data points. *)
Theorem store_new_data_in_db_rows (E : Env) (items : list json) (m : string) (w : world) :
  forallb (persistable E) items = true ->
  storable 255 m = true ->
  exists added rows,
    store_new_data_in_db E (JArr items) m (with_session w []) =
      (Ok tt, after_store (with_session w []) added rows) /\
    Forall2 (stored_from E m (db_now w)) (filter both_keys items) rows /\
    List.length added = List.length rows.
Proof.
  intros H Hm.
  exact (store_new_data_in_db_persistable E m items (with_session w []) Hm H
           eq_refl eq_refl).
Qed.

Lemma store_new_data_in_db_rows_witness :
  exists added rows,
    store_new_data_in_db (fake_env (inr "initial") (inr "refined") (sample_parse JNull))
      (JArr (JObj [("category", JStr "Mar")] :: jan_feb)) "general_metric"
      (with_session store_with_jan []) =
      (Ok tt, after_store (with_session store_with_jan []) added rows) /\
    Forall2 (stored_from (fake_env (inr "initial") (inr "refined") (sample_parse JNull))
               "general_metric" noon) jan_feb rows /\
    List.length added = List.length rows.
Proof.
  apply (store_new_data_in_db_rows
           (fake_env (inr "initial") (inr "refined") (sample_parse JNull))
           (JObj [("category", JStr "Mar")] :: jan_feb) "general_metric" store_with_jan);
    reflexivity.
Defined.

(** C5 as stated fails, on data points that all have both keys, a
    string category and a numeric value: for a value outside the range
    of a float the helper raises [OverflowError] out of [float()], adds
    nothing and never commits; for a category of 256 characters, a
    category with a NUL and a category that is a lone surrogate the
    commit fails and no row is written, not even for the data point
    next to it; and so it is for a metric name of 256 characters or
    with a NUL. On a session that holds an object already, the commit
    of the helper writes that object as well, three rows for two data
    points; on a session whose flush failed before, the commit is
    refused. *)
Lemma store_new_data_in_db_refused :
  (forallb data_point_typed too_large = true /\
   filter both_keys too_large = too_large /\
   store_new_data_in_db (fake_env (inr "initial") (inr "refined") (sample_parse JNull))
     (JArr too_large) "general_metric" empty_store =
     (Raise (PyExn OverflowError "int too large to convert to float"), empty_store)) /\
  (forallb data_point_typed too_long = true /\
   filter both_keys too_long = too_long /\
   helper_refuses (fake_env (inr "initial") (inr "refined") (sample_parse JNull))
     too_long "general_metric" empty_store) /\
  (forallb data_point_typed with_nul = true /\
   filter both_keys with_nul = with_nul /\
   helper_refuses (fake_env (inr "initial") (inr "refined") (sample_parse JNull))
     with_nul "general_metric" empty_store) /\
  (forallb data_point_typed with_surrogate = true /\
   filter both_keys with_surrogate = with_surrogate /\
   helper_refuses (fake_env (inr "initial") (inr "refined") (sample_parse JNull))
     with_surrogate "general_metric" empty_store) /\
  helper_refuses (fake_env (inr "initial") (inr "refined") (sample_parse JNull))
    jan_feb long_text empty_store /\
  helper_refuses (fake_env (inr "initial") (inr "refined") (sample_parse JNull))
    jan_feb nul_text empty_store /\
  (filter both_keys jan_feb = jan_feb /\
   fst (store_new_data_in_db (fake_env (inr "initial") (inr "refined") (sample_parse JNull))
          (JArr jan_feb) "general_metric" (with_session empty_store [pending_mar])) = Ok tt /\
   map GraphDataHistory.category
     (table (snd (store_new_data_in_db
                    (fake_env (inr "initial") (inr "refined") (sample_parse JNull))
                    (JArr jan_feb) "general_metric"
                    (with_session empty_store [pending_mar])))) = ["Mar"; "Jan"; "Feb"]) /\
  (inactive (snd (store_new_data_in_db
                    (fake_env (inr "initial") (inr "refined") (sample_parse JNull))
                    (JArr too_long) "general_metric" empty_store)) = true /\
   helper_refuses (fake_env (inr "initial") (inr "refined") (sample_parse JNull))
     jan_feb "general_metric"
     (snd (store_new_data_in_db
             (fake_env (inr "initial") (inr "refined") (sample_parse JNull))
             (JArr too_long) "general_metric" empty_store))).
Proof. repeat split; vm_compute; reflexivity. Qed.

Lemma gateway_text_inr (E : Env) (model prompt text : string) (w : world) :
  generate_content E model prompt = inr text ->
  gateway_text E model prompt w =
    (Ok text, with_trace w (trace w ++ [EvGenerate model prompt None])).
Proof. intros H. unfold gateway_text, bind, emit. simpl. now rewrite H. Qed.

Lemma gateway_text_inl (E : Env) (model prompt msg : string) (w : world) :
  generate_content E model prompt = inl msg ->
  gateway_text E model prompt w =
    (Raise (PyExn GatewayFailure msg),
     with_trace w (trace w ++ [EvGenerate model prompt None])).
Proof. intros H. unfold gateway_text, bind, emit. simpl. now rewrite H. Qed.

Lemma filter_gateway_adds (added : list new_record) :
  filter is_gateway_call (map EvAdd added) = [].
Proof. induction added; simpl; auto. Qed.

(** C4, amended. For every Insight Record with at least one categorized
    data point, whose categories the [String(255)] column takes (a text
    that encodes, of at most 255 characters, without NUL) and whose
    values [float()] accepts, when the store holds no row under the
    constant metric name with one of the record's categories, the
    validator returns the record it was given, calls the Gateway not at
    all, and writes exactly one row per data point that has both a
    category and a value. *)
Theorem validator_without_history (E : Env) (fields : list (string * json))
    (items : list json) (w : world) :
  lookup "extracted_data" fields = Some (JArr items) ->
  forallb (persistable E) items = true ->
  existsb (has_key "category") items = true ->
  matching_rows w items = [] ->
  exists w' rows,
    get_validated_insights E (JObj fields) (with_session w []) = (Ok (JObj fields), w') /\
    table w' = (table w ++ rows)%list /\
    Forall2 (stored_from E general_metric (db_now w)) (filter both_keys items) rows /\
    filter is_gateway_call (trace w') = filter is_gateway_call (trace w).
Proof.
  intros Hx Hp Hc Hm.
  rewrite (validator_to_lookup E fields items (with_session w []) Hx Hp Hc eq_refl).
  change (matching_rows (with_session w []) items) with (matching_rows w items).
  rewrite Hm. cbv zeta.
  match goal with |- context [bind _ _ ?w1] => set (w1' := w1) end.
  destruct (store_new_data_in_db_persistable E general_metric items w1'
              general_metric_storable Hp eq_refl eq_refl)
    as (added & rows & Hstore & Hrows & Hlen).
  exists (after_store w1' added rows), rows.
  split; [|split; [reflexivity | split; [exact Hrows|]]].
  - now rewrite (bind_run_ok _ _ _ _ _ Hstore).
  - simpl. rewrite !filter_app, filter_gateway_adds. simpl. now rewrite !app_nil_r.
Qed.

Lemma validator_without_history_witness :
  exists w' rows,
    get_validated_insights
      (fake_env (inr "initial") (inr "refined") (sample_parse JNull))
      (JObj (insight_record jan_feb)) (with_session empty_store []) =
      (Ok (JObj (insight_record jan_feb)), w') /\
    table w' = (table empty_store ++ rows)%list /\
    Forall2 (stored_from (fake_env (inr "initial") (inr "refined") (sample_parse JNull))
               general_metric noon) jan_feb rows /\
    filter is_gateway_call (trace w') = filter is_gateway_call (trace empty_store).
Proof.
  apply (validator_without_history
           (fake_env (inr "initial") (inr "refined") (sample_parse JNull))
           (insight_record jan_feb) jan_feb empty_store); reflexivity.
Defined.

(** C4 as stated fails, on Insight Records with categorized data points
    (string categories, numeric values) and no history: for a value
    outside the range of a float the validator raises [OverflowError],
    and for a category of 256 characters, a category with a NUL and a
    category that is a lone surrogate it raises as well; no row is
    written in any of these runs. *)
Lemma validator_without_history_refused :
  (forallb data_point_typed too_large = true /\
   existsb (has_key "category") too_large = true /\
   matching_rows empty_store too_large = [] /\
   get_validated_insights
     (fake_env (inr "initial") (inr "refined") (sample_parse JNull))
     (JObj (insight_record too_large)) empty_store =
     (Raise (PyExn OverflowError "int too large to convert to float"),
      with_trace empty_store [EvQueryFiltered "general_metric" [JStr "Jan"]])) /\
  (forallb data_point_typed too_long = true /\
   matching_rows empty_store too_long = [] /\
   validator_refuses (fake_env (inr "initial") (inr "refined") (sample_parse JNull))
     (JObj (insight_record too_long)) empty_store) /\
  (forallb data_point_typed with_nul = true /\
   matching_rows empty_store with_nul = [] /\
   validator_refuses (fake_env (inr "initial") (inr "refined") (sample_parse JNull))
     (JObj (insight_record with_nul)) empty_store) /\
  (forallb data_point_typed with_surrogate = true /\
   matching_rows empty_store with_surrogate = [] /\
   validator_refuses (fake_env (inr "initial") (inr "refined") (sample_parse JNull))
     (JObj (insight_record with_surrogate)) empty_store).
Proof. repeat split; vm_compute; reflexivity. Qed.

(** The second pass after a successful audit. *)
Lemma second_pass_refines (E : Env) (initial final : json) (items : list json)
    (prompt text : string) (w1 : world) :
  forallb (persistable E) items = true ->
  session w1 = [] ->
  inactive w1 = false ->
  generate_content E "gemini-pro" prompt = inr text ->
  json_loads E text = inr final ->
  exists added rows,
    try_except
      (text <- gateway_text E "gemini-pro" prompt ;;
       final_insights <- loads E text ;;
       store_new_data_in_db E (JArr items) general_metric ;;;
       ret final_insights)
      (fun e =>
         print ("Validation failed: " ++ exn_str e) ;;;
         store_new_data_in_db E (JArr items) general_metric ;;;
         ret initial) w1 =
      (Ok final,
       after_store (with_trace w1 (trace w1 ++ [EvGenerate "gemini-pro" prompt None]))
                   added rows) /\
    Forall2 (stored_from E general_metric (db_now w1)) (filter both_keys items) rows.
Proof.
  intros Hp Hs Hi Hg Hl.
  set (w2 := with_trace w1 (trace w1 ++ [EvGenerate "gemini-pro" prompt None])).
  destruct (store_new_data_in_db_persistable E general_metric items w2
              general_metric_storable Hp Hs Hi)
    as (added & rows & Hstore & Hrows & _).
  exists added, rows. split; [|exact Hrows].
  unfold try_except.
  rewrite (bind_run_ok _ _ _ _ _ (gateway_text_inr E _ _ _ w1 Hg)).
  unfold loads. rewrite Hl, bind_ret.
  fold w2. now rewrite (bind_run_ok _ _ _ _ _ Hstore).
Qed.

(** The second pass when the call or the parse fails. *)
Lemma second_pass_degrades (E : Env) (initial : json) (items : list json)
    (prompt : string) (w1 : world) :
  forallb (persistable E) items = true ->
  session w1 = [] ->
  inactive w1 = false ->
  (exists msg, generate_content E "gemini-pro" prompt = inl msg) \/
  (exists text msg, generate_content E "gemini-pro" prompt = inr text /\
                    json_loads E text = inl msg) ->
  exists line added rows,
    try_except
      (text <- gateway_text E "gemini-pro" prompt ;;
       final_insights <- loads E text ;;
       store_new_data_in_db E (JArr items) general_metric ;;;
       ret final_insights)
      (fun e =>
         print ("Validation failed: " ++ exn_str e) ;;;
         store_new_data_in_db E (JArr items) general_metric ;;;
         ret initial) w1 =
      (Ok initial,
       after_store (with_trace w1 (trace w1 ++ [EvGenerate "gemini-pro" prompt None;
                                                EvPrint line]))
                   added rows) /\
    Forall2 (stored_from E general_metric (db_now w1)) (filter both_keys items) rows.
Proof.
  intros Hp Hs Hi Hfail.
  assert (exists msg c,
    (text <- gateway_text E "gemini-pro" prompt ;;
     final_insights <- loads E text ;;
     store_new_data_in_db E (JArr items) general_metric ;;;
     ret final_insights) w1 =
    (Raise (PyExn c msg),
     with_trace w1 (trace w1 ++ [EvGenerate "gemini-pro" prompt None]))) as (msg & c & Hbody).
  { destruct Hfail as [[msg Hg] | (text & msg & Hg & Hl)].
    - exists msg, GatewayFailure.
      now rewrite (bind_run_raise _ _ _ _ _ (gateway_text_inl E _ _ _ w1 Hg)).
    - exists msg, JSONDecodeError.
      rewrite (bind_run_ok _ _ _ _ _ (gateway_text_inr E _ _ _ w1 Hg)).
      unfold loads. now rewrite Hl. }
  set (w3 := with_trace w1 (trace w1 ++ [EvGenerate "gemini-pro" prompt None;
                                         EvPrint ("Validation failed: " ++ msg)])).
  destruct (store_new_data_in_db_persistable E general_metric items w3
              general_metric_storable Hp Hs Hi)
    as (added & rows & Hstore & Hrows & _).
  exists ("Validation failed: " ++ msg), added, rows. split; [|exact Hrows].
  unfold try_except. rewrite Hbody.
  unfold print, emit. unfold bind at 1. cbn [with_trace trace exn_str].
  rewrite <- app_assoc. cbn [app].
  match goal with |- bind _ _ ?w = _ => change w with w3 end.
  now rewrite (bind_run_ok _ _ _ _ _ Hstore).
Qed.

(** C1, amended. For every Insight Record with at least one categorized
    data point, whose categories the [String(255)] column takes (a text
    that encodes, of at most 255 characters, without NUL) and whose
    values [float()] accepts, when the store holds rows under the
    constant metric name with some of the record's categories and the
    second Gateway call answers text that parses as JSON, the validator
    returns the parsed refinement, and the rows of the original data
    points (one per data point with both keys) are in the table when it
    returns. *)
Theorem validator_refines (E : Env) (fields : list (string * json))
    (items : list json) (w : world) (text : string) (final : json) :
  lookup "extracted_data" fields = Some (JArr items) ->
  forallb (persistable E) items = true ->
  existsb (has_key "category") items = true ->
  matching_rows w items <> [] ->
  generate_content E "gemini-pro"
    (validation_prompt E (JObj fields) (matching_rows w items)) = inr text ->
  json_loads E text = inr final ->
  exists w' rows,
    get_validated_insights E (JObj fields) (with_session w []) = (Ok final, w') /\
    table w' = (table w ++ rows)%list /\
    Forall2 (stored_from E general_metric (db_now w)) (filter both_keys items) rows.
Proof.
  intros Hx Hp Hc Hm Hg Hl.
  rewrite (validator_to_lookup E fields items (with_session w []) Hx Hp Hc eq_refl).
  change (matching_rows (with_session w []) items) with (matching_rows w items).
  destruct (matching_rows w items) as [|r rs] eqn:Hrows; [contradiction|].
  cbv zeta.
  match goal with |- context [try_except _ _ ?w1] => set (w1' := w1) end.
  destruct (second_pass_refines E (JObj fields) final items _ text w1' Hp eq_refl eq_refl
              Hg Hl)
    as (added & rows & Hrun & Hstored).
  eexists. exists rows. split; [exact Hrun|]. split; [reflexivity | exact Hstored].
Qed.

Lemma validator_refines_witness :
  exists w' rows,
    get_validated_insights
      (fake_env (inr "initial") (inr "refined") (sample_parse JNull))
      (JObj (insight_record jan_feb)) (with_session store_with_jan []) =
      (Ok refined_record, w') /\
    table w' = (table store_with_jan ++ rows)%list /\
    Forall2 (stored_from (fake_env (inr "initial") (inr "refined") (sample_parse JNull))
               general_metric noon) jan_feb rows.
Proof.
  apply (validator_refines
           (fake_env (inr "initial") (inr "refined") (sample_parse JNull))
           (insight_record jan_feb) jan_feb store_with_jan "refined" refined_record);
    try reflexivity.
  discriminate.
Defined.

(** C1 as stated fails, on Insight Records with categorized data points
    (string categories, numeric values), matching history and a second
    call that answers valid JSON: for a value outside the range of a
    float the validator raises [OverflowError] instead of returning the
    refinement, and for a category of 256 characters, a category with a
    NUL and a category that is a lone surrogate it raises as well; the
    table is as before in each of these runs. *)
Lemma validator_refines_refused :
  (forallb data_point_typed too_large = true /\
   existsb (has_key "category") too_large = true /\
   matching_rows store_with_jan too_large = [jan_row] /\
   fst (get_validated_insights
          (fake_env (inr "initial") (inr "refined") (sample_parse JNull))
          (JObj (insight_record too_large)) store_with_jan) =
     Raise (PyExn OverflowError "int too large to convert to float") /\
   table (snd (get_validated_insights
                 (fake_env (inr "initial") (inr "refined") (sample_parse JNull))
                 (JObj (insight_record too_large)) store_with_jan)) = [jan_row]) /\
  (forallb data_point_typed too_long = true /\
   matching_rows store_with_jan too_long = [jan_row] /\
   validator_refuses (fake_env (inr "initial") (inr "refined") (sample_parse JNull))
     (JObj (insight_record too_long)) store_with_jan) /\
  (forallb data_point_typed with_nul = true /\
   matching_rows store_with_jan with_nul = [jan_row] /\
   validator_refuses (fake_env (inr "initial") (inr "refined") (sample_parse JNull))
     (JObj (insight_record with_nul)) store_with_jan) /\
  (forallb data_point_typed with_surrogate = true /\
   matching_rows store_with_jan with_surrogate = [jan_row] /\
   validator_refuses (fake_env (inr "initial") (inr "refined") (sample_parse JNull))
     (JObj (insight_record with_surrogate)) store_with_jan).
Proof. repeat split; vm_compute; reflexivity. Qed.

(** C2, amended. For every Insight Record with at least one categorized
    data point, whose categories the [String(255)] column takes (a text
    that encodes, of at most 255 characters, without NUL) and whose
    values [float()] accepts, and with matching rows in the store, if
    the second Gateway call raises or its text is not valid JSON, the
    validator returns the record it was given (a normal return: nothing
    is raised to the caller), the failure is printed, and the rows of
    the data points are written as on the success path. *)
Theorem validator_degrades (E : Env) (fields : list (string * json))
    (items : list json) (w : world) :
  lookup "extracted_data" fields = Some (JArr items) ->
  forallb (persistable E) items = true ->
  existsb (has_key "category") items = true ->
  matching_rows w items <> [] ->
  (exists msg,
      generate_content E "gemini-pro"
        (validation_prompt E (JObj fields) (matching_rows w items)) = inl msg) \/
  (exists text msg,
      generate_content E "gemini-pro"
        (validation_prompt E (JObj fields) (matching_rows w items)) = inr text /\
      json_loads E text = inl msg) ->
  exists w' rows line,
    get_validated_insights E (JObj fields) (with_session w []) = (Ok (JObj fields), w') /\
    table w' = (table w ++ rows)%list /\
    Forall2 (stored_from E general_metric (db_now w)) (filter both_keys items) rows /\
    In (EvPrint line) (trace w').
Proof.
  intros Hx Hp Hc Hm Hfail.
  rewrite (validator_to_lookup E fields items (with_session w []) Hx Hp Hc eq_refl).
  change (matching_rows (with_session w []) items) with (matching_rows w items).
  destruct (matching_rows w items) as [|r rs] eqn:Hrows; [contradiction|].
  cbv zeta.
  match goal with |- context [try_except _ _ ?w1] => set (w1' := w1) end.
  destruct (second_pass_degrades E (JObj fields) items _ w1' Hp eq_refl eq_refl Hfail)
    as (line & added & rows & Hrun & Hstored).
  eexists. exists rows, line. split; [exact Hrun|].
  split; [reflexivity | split; [exact Hstored|]].
  simpl. rewrite !in_app_iff. left. right. simpl. auto.
Qed.

Lemma validator_degrades_witness :
  exists w' rows line,
    get_validated_insights
      (fake_env (inr "initial") (inr "not json") (sample_parse JNull))
      (JObj (insight_record jan_feb)) (with_session store_with_jan []) =
      (Ok (JObj (insight_record jan_feb)), w') /\
    table w' = (table store_with_jan ++ rows)%list /\
    Forall2 (stored_from (fake_env (inr "initial") (inr "not json") (sample_parse JNull))
               general_metric noon) jan_feb rows /\
    In (EvPrint line) (trace w').
Proof.
  apply (validator_degrades
           (fake_env (inr "initial") (inr "not json") (sample_parse JNull))
           (insight_record jan_feb) jan_feb store_with_jan); try reflexivity.
  - discriminate.
  - right. exists "not json", "Expecting value: line 1 column 1 (char 0)".
    split; reflexivity.
Defined.

(** C2 as stated fails, on Insight Records with categorized data points
    (string categories, numeric values), matching history and a second
    call that raises: for a value outside the range of a float the
    validator itself raises [OverflowError] (the caller sees the error,
    not the original record), and for a category of 256 characters, a
    category with a NUL and a category that is a lone surrogate it
    raises as well; the table is as before in each of these runs. *)
Lemma validator_degrades_refused :
  (forallb data_point_typed too_large = true /\
   existsb (has_key "category") too_large = true /\
   matching_rows store_with_jan too_large = [jan_row] /\
   fst (get_validated_insights
          (fake_env (inr "initial") (inl "quota exceeded") (sample_parse JNull))
          (JObj (insight_record too_large)) store_with_jan) =
     Raise (PyExn OverflowError "int too large to convert to float") /\
   table (snd (get_validated_insights
                 (fake_env (inr "initial") (inl "quota exceeded") (sample_parse JNull))
                 (JObj (insight_record too_large)) store_with_jan)) = [jan_row]) /\
  (forallb data_point_typed too_long = true /\
   matching_rows store_with_jan too_long = [jan_row] /\
   validator_refuses (fake_env (inr "initial") (inl "quota exceeded") (sample_parse JNull))
     (JObj (insight_record too_long)) store_with_jan) /\
  (forallb data_point_typed with_nul = true /\
   matching_rows store_with_jan with_nul = [jan_row] /\
   validator_refuses (fake_env (inr "initial") (inl "quota exceeded") (sample_parse JNull))
     (JObj (insight_record with_nul)) store_with_jan) /\
  (forallb data_point_typed with_surrogate = true /\
   matching_rows store_with_jan with_surrogate = [jan_row] /\
   validator_refuses (fake_env (inr "initial") (inl "quota exceeded") (sample_parse JNull))
     (JObj (insight_record with_surrogate)) store_with_jan).
Proof. repeat split; vm_compute; reflexivity. Qed.

(* ================================================================= *)
(** ** One bucket: the invariant of the store *)

Section Bucket.

Variable E : Env.

Lemma preserves_ret {A} (a : A) : preserves (ret a).
Proof. intros w H. exact H. Qed.

Lemma preserves_raise {A} (e : exn) : preserves (@raise A e).
Proof. intros w H. exact H. Qed.

Lemma preserves_lift {A} (r : result A) : preserves (lift r).
Proof. intros w H. exact H. Qed.

Lemma preserves_bind {A B} (m : M A) (k : A -> M B) :
  preserves m -> (forall a, preserves (k a)) -> preserves (bind m k).
Proof.
  intros Hm Hk w H. unfold bind.
  specialize (Hm w H). destruct (m w) as [[a|e] w']; simpl in *.
  - now apply Hk.
  - exact Hm.
Qed.

Lemma preserves_try_except {A} (body : M A) (handler : exn -> M A) :
  preserves body -> (forall e, preserves (handler e)) ->
  preserves (try_except body handler).
Proof.
  intros Hb Hh w H. unfold try_except.
  specialize (Hb w H). destruct (body w) as [[a|e] w']; simpl in *.
  - exact Hb.
  - now apply Hh.
Qed.

Lemma preserves_for_each {A} (body : A -> M unit) (l : list A) :
  (forall x, preserves (body x)) -> preserves (for_each body l).
Proof.
  intros Hbody. induction l as [|x l IH]; simpl.
  - apply preserves_ret.
  - apply preserves_bind; [apply Hbody | intros _; exact IH].
Qed.

Lemma preserves_emit (ev : event) : event_in_bucket ev -> preserves (emit ev).
Proof.
  intros Hev w (Ht & Hs & Htr). repeat split; simpl; auto.
  apply Forall_app. split; [exact Htr | now constructor].
Qed.

Lemma preserves_session_add (r : new_record) :
  record_in_bucket r -> preserves (session_add r).
Proof.
  intros Hr w (Ht & Hs & Htr). repeat split; simpl; auto.
  - apply Forall_app. split; [exact Hs | now constructor].
  - apply Forall_app. split; [exact Htr | now constructor].
Qed.

Lemma insert_row_in_bucket (new_id : Z) (now : datetime) (p : new_record)
    (q : insert_params) (r : row) :
  record_in_bucket p ->
  adapt_record E p = Ok q ->
  insert_row new_id now q = Ok r ->
  row_in_bucket r.
Proof.
  unfold record_in_bucket, row_in_bucket, adapt_record, insert_row.
  intros Hp Hq Hr. rewrite Hp in Hq.
  change (adapt_str general_metric) with (@Ok string general_metric) in Hq.
  cbn [rbind] in Hq.
  destruct (adapt_category E (new_category p)) as [c|e]; [|discriminate].
  injection Hq as <-. cbn [param_metric_name param_category] in Hr.
  change (to_varchar 255 general_metric) with (@Ok string general_metric) in Hr.
  cbn [rbind] in Hr.
  destruct (match c with Some c' => to_varchar 255 c' | None => _ end) as [c'|e];
    [|discriminate].
  cbn [rbind] in Hr.
  destruct (to_varchar 64 _) as [h|e]; [|discriminate].
  now injection Hr as <-.
Qed.

Lemma flush_in_bucket (now : datetime) (pending : list new_record)
    (first_id next : Z) (rows : list row) :
  Forall record_in_bucket pending ->
  flush E first_id now pending = (Ok rows, next) ->
  Forall row_in_bucket rows.
Proof.
  unfold flush. intros Hall Hflush.
  destruct (map_result (adapt_record E) pending) as [ps|e] eqn:Hps; [|discriminate].
  apply map_result_Forall2 in Hps.
  apply insert_rows_Forall2 in Hflush as [Hrows _].
  clear first_id next. revert rows Hrows.
  induction Hps as [|p q pending ps Hq _ IH]; intros rows Hrows;
    inversion Hrows as [|? r ? rest [new_id Hr] Hrest]; subst; [constructor|].
  inversion Hall as [|? ? Hp Hothers]; subst.
  constructor; [exact (insert_row_in_bucket new_id now p q r Hp Hq Hr) | now apply IH].
Qed.

Lemma preserves_check_active : preserves check_active.
Proof. intros w H. unfold check_active. now destruct (inactive w). Qed.

Lemma preserves_session_commit : preserves (session_commit E).
Proof.
  intros w (Ht & Hs & Htr). unfold session_commit.
  destruct (inactive w).
  { repeat split; simpl; auto.
    apply Forall_app. split; [exact Htr | now repeat constructor]. }
  destruct (flush E (next_id w) (db_now w) (session w)) as [[rows|e] next] eqn:Hflush;
    simpl.
  - repeat split; simpl.
    + apply Forall_app. split; [exact Ht | exact (flush_in_bucket _ _ _ _ _ Hs Hflush)].
    + constructor.
    + apply Forall_app. split; [exact Htr | now repeat constructor].
  - repeat split; simpl; auto.
    apply Forall_app. split; [exact Htr | now repeat constructor].
Qed.

Lemma preserves_query_filtered (categories : list json) :
  preserves (query_filtered E general_metric categories).
Proof.
  unfold query_filtered.
  apply preserves_bind; [now apply preserves_emit | intros _].
  apply preserves_bind; [apply preserves_check_active | intros _].
  apply preserves_bind; [apply preserves_lift | intros m'].
  apply preserves_bind; [apply preserves_lift | intros cats].
  intros w H. exact H.
Qed.

Lemma preserves_query_recent (n : nat) : preserves (query_recent n).
Proof.
  unfold query_recent.
  apply preserves_bind; [now apply preserves_emit | intros _].
  apply preserves_bind; [apply preserves_check_active | intros _].
  intros w H. exact H.
Qed.

Lemma preserves_store_data_point (dp : json) :
  preserves (store_data_point E general_metric dp).
Proof.
  unfold store_data_point.
  apply preserves_bind; [apply preserves_lift | intros has_category].
  apply preserves_bind.
  { destruct has_category; [apply preserves_lift | apply preserves_ret]. }
  intros [|]; [|apply preserves_ret].
  repeat (apply preserves_bind; [apply preserves_lift | intro]).
  now apply preserves_session_add.
Qed.

Lemma preserves_store_new_data_in_db (extracted_data : json) :
  preserves (store_new_data_in_db E extracted_data general_metric).
Proof.
  unfold store_new_data_in_db.
  apply preserves_bind; [apply preserves_lift | intros items].
  apply preserves_bind; [|intros _; apply preserves_session_commit].
  apply preserves_for_each. apply preserves_store_data_point.
Qed.

Lemma preserves_gateway_text (model prompt : string) :
  preserves (gateway_text E model prompt).
Proof.
  unfold gateway_text.
  apply preserves_bind; [now apply preserves_emit | intros _].
  destruct (generate_content E model prompt); [apply preserves_raise | apply preserves_ret].
Qed.

Lemma preserves_get_validated_insights (initial_insights : json) :
  preserves (get_validated_insights E initial_insights).
Proof.
  unfold get_validated_insights.
  apply preserves_bind; [apply preserves_lift | intros extracted_data].
  destruct (negb (py_truthy extracted_data)); [apply preserves_ret|].
  apply preserves_bind; [apply preserves_lift | intros items].
  apply preserves_bind; [apply preserves_lift | intros categories].
  destruct categories as [|c cs]; [apply preserves_ret|].
  apply preserves_bind; [apply preserves_query_filtered | intros records].
  destruct records as [|r rs].
  - apply preserves_bind; [apply preserves_store_new_data_in_db | intros _].
    apply preserves_ret.
  - apply preserves_try_except.
    + apply preserves_bind; [apply preserves_gateway_text | intros text].
      apply preserves_bind.
      { unfold loads. destruct (json_loads E text);
          [apply preserves_raise | apply preserves_ret]. }
      intros final.
      apply preserves_bind; [apply preserves_store_new_data_in_db | intros _].
      apply preserves_ret.
    + intros e.
      apply preserves_bind; [now apply preserves_emit | intros _].
      apply preserves_bind; [apply preserves_store_new_data_in_db | intros _].
      apply preserves_ret.
Qed.

Lemma preserves_analysis (image : Image) (k : json -> M json) :
  (forall v, preserves (k v)) ->
  preserves (raw <- analyze_graph_with_gemini E image ;;
             initial <- parse_initial E raw ;;
             k initial).
Proof.
  intros Hk.
  apply preserves_bind.
  { unfold analyze_graph_with_gemini. apply preserves_try_except.
    - unfold gateway_vision.
      apply preserves_bind; [now apply preserves_emit | intros _].
      destruct (generate_content_async E _ _ image);
        [apply preserves_raise | apply preserves_ret].
    - intros e. apply preserves_raise. }
  intros raw. apply preserves_bind; [|exact Hk].
  unfold parse_initial. destruct (json_loads E raw);
    [apply preserves_raise | apply preserves_ret].
Qed.

Lemma preserves_validate_and_answer (initial : json) :
  preserves (validated <- get_validated_insights E initial ;;
             lift (InsightResponse E validated)).
Proof.
  apply preserves_bind; [apply preserves_get_validated_insights | intros v].
  apply preserves_lift.
Qed.

Lemma preserves_analyze_uploaded_graph (ct : option string) (content : string) :
  preserves (analyze_uploaded_graph E ct content).
Proof.
  unfold analyze_uploaded_graph, analyze_uploaded_graph_with.
  destruct ct as [ct|]; [|apply preserves_raise].
  destruct (negb (prefix "image/" ct)); [apply preserves_raise|].
  cbv zeta. apply preserves_bind.
  { destruct (image_open E content); [apply preserves_raise | apply preserves_ret]. }
  intros image. apply preserves_analysis. apply preserves_validate_and_answer.
Qed.

Lemma preserves_analyze_screen_capture (image_data : string) :
  preserves (analyze_screen_capture E image_data).
Proof.
  unfold analyze_screen_capture, analyze_screen_capture_with.
  apply preserves_bind.
  { apply preserves_try_except; [apply preserves_lift | intros e; apply preserves_raise]. }
  intros image. apply preserves_analysis. apply preserves_validate_and_answer.
Qed.

Lemma preserves_with_db {A} (endpoint : M A) :
  preserves endpoint -> preserves (with_db endpoint).
Proof.
  intros He w (Ht & Hs & Htr). unfold with_db.
  assert (single_bucket (with_session w [])) as H0.
  { repeat split; simpl; auto. }
  specialize (He _ H0). destruct (endpoint (with_session w [])) as [r w']. simpl in *.
  destruct He as (Ht' & _ & Htr'). repeat split; simpl; auto.
Qed.

Lemma preserves_endpoint_of (req : request) : preserves (endpoint_of E req).
Proof.
  destruct req; simpl.
  - apply preserves_with_db, preserves_analyze_uploaded_graph.
  - apply preserves_with_db, preserves_analyze_screen_capture.
  - apply preserves_with_db. unfold get_historical_data.
    apply preserves_bind; [apply preserves_query_recent | intros; apply preserves_ret].
  - apply preserves_ret.
Qed.

Lemma app_single_bucket (req : request) (w : world) :
  single_bucket w -> single_bucket (snd (app E req w)).
Proof.
  intros H. unfold app.
  pose proof (preserves_endpoint_of req w H) as H'.
  destruct (endpoint_of E req w) as [r w']. exact H'.
Qed.

End Bucket.

Lemma reachable_single_bucket (w : world) : reachable w -> single_bucket w.
Proof.
  induction 1 as [now | E req w _ IH | now w _ IH].
  - repeat split; constructor.
  - now apply app_single_bucket.
  - exact IH.
Qed.

(** C6. In every world the service can reach from an empty table, every
    row of the store carries the one constant metric name, whatever
    chart it came from, and every lookup of the validator filtered on
    that same constant. *)
Theorem one_metric_bucket (w : world) :
  reachable w ->
  Forall (fun r => GraphDataHistory.metric_name r = "general_metric") (table w) /\
  (forall m categories,
      In (EvQueryFiltered m categories) (trace w) -> m = "general_metric").
Proof.
  intros Hreach. destruct (reachable_single_bucket w Hreach) as (Ht & _ & Htr).
  split; [exact Ht|].
  intros m categories Hin.
  rewrite Forall_forall in Htr. exact (Htr _ Hin).
Qed.

Lemma one_metric_bucket_witness :
  Forall (fun r => GraphDataHistory.metric_name r = "general_metric")
    (table (snd (app (fake_env (inr "initial") (inr "refined")
                        (sample_parse (JObj (insight_record jan_feb))))
                     (PostAnalyzeUpload (Some "image/png") "PNG") empty_store))) /\
  (forall m categories,
      In (EvQueryFiltered m categories)
         (trace (snd (app (fake_env (inr "initial") (inr "refined")
                             (sample_parse (JObj (insight_record jan_feb))))
                          (PostAnalyzeUpload (Some "image/png") "PNG") empty_store))) ->
      m = "general_metric").
Proof.
  apply one_metric_bucket. apply reach_request. apply (reach_start noon).
Defined.

(* ================================================================= *)
(** ** The analyze endpoints *)

Section Endpoints.

Variable E : Env.

Lemma gateway_vision_run (image : Image) (w : world) :
  gateway_vision E "gemini-pro-vision" analysis_prompt image w =
    (match generate_content_async E "gemini-pro-vision" analysis_prompt image with
     | inr text => Ok text
     | inl msg => Raise (PyExn GatewayFailure msg)
     end,
     with_trace w (trace w ++ [EvGenerate "gemini-pro-vision" analysis_prompt (Some image)])).
Proof.
  unfold gateway_vision, bind, emit. simpl.
  now destruct (generate_content_async E _ _ image).
Qed.

(** When extraction fails, what follows the parse is never run. *)
Lemma extraction_failure (image : Image) :
  extraction_fails E image ->
  exists detail, forall (k : json -> M json) (w : world),
    (raw <- analyze_graph_with_gemini E image ;;
     initial <- parse_initial E raw ;;
     k initial) w =
    (Raise (HTTPException 500 detail),
     with_trace w (trace w ++ [EvGenerate "gemini-pro-vision" analysis_prompt (Some image)])).
Proof.
  intros [[msg Hg] | (text & msg & Hg & Hl)].
  - exists ("Gemini API call failed: " ++ msg). intros k w.
    unfold bind at 1, analyze_graph_with_gemini, try_except.
    rewrite gateway_vision_run, Hg. reflexivity.
  - exists ("Failed to parse Gemini response: " ++ msg). intros k w.
    unfold bind at 1, analyze_graph_with_gemini, try_except.
    rewrite gateway_vision_run, Hg.
    unfold bind, parse_initial. now rewrite Hl.
Qed.

End Endpoints.

(** C7. When the extraction pass fails (the Gateway call raises, or its
    text does not parse as JSON), each analyze endpoint answers with
    status 500; the request made exactly one Gateway call and did
    nothing else; and the outcome is the same whatever the validation
    step is, so the validator is not run. *)
Theorem extraction_failure_is_fatal (E : Env) (image : Image) (w : world) :
  extraction_fails E image ->
  exists detail,
    (forall ct content,
        prefix "image/" ct = true ->
        image_open E content = inr image ->
        (forall validate,
            with_db (analyze_uploaded_graph_with E validate (Some ct) content) w =
              (Raise (HTTPException 500 detail), after_extraction_call w image)) /\
        app E (PostAnalyzeUpload (Some ct) content) w =
          (server_error detail, after_extraction_call w image)) /\
    (forall image_data,
        decode_screen_capture E image_data = Ok image ->
        (forall validate,
            with_db (analyze_screen_capture_with E validate image_data) w =
              (Raise (HTTPException 500 detail), after_extraction_call w image)) /\
        app E (PostAnalyzeScreencap image_data) w =
          (server_error detail, after_extraction_call w image)).
Proof.
  intros Hfail.
  destruct (extraction_failure E image Hfail) as [detail Hrun].
  exists detail. split.
  - intros ct content Hct Himg.
    assert (forall validate,
      with_db (analyze_uploaded_graph_with E validate (Some ct) content) w =
        (Raise (HTTPException 500 detail), after_extraction_call w image)) as Hany.
    { intros validate. unfold with_db, analyze_uploaded_graph_with.
      rewrite Hct. cbn [negb]. cbv zeta. rewrite Himg, bind_ret, Hrun. reflexivity. }
    split; [exact Hany|].
    unfold app, endpoint_of, analyze_uploaded_graph. now rewrite Hany.
  - intros image_data Hdec.
    assert (forall validate,
      with_db (analyze_screen_capture_with E validate image_data) w =
        (Raise (HTTPException 500 detail), after_extraction_call w image)) as Hany.
    { intros validate. unfold with_db, analyze_screen_capture_with.
      rewrite Hdec.
      change (try_except (lift (Ok image)) _) with (@ret Image image).
      rewrite bind_ret, Hrun. reflexivity. }
    split; [exact Hany|].
    unfold app, endpoint_of, analyze_screen_capture. now rewrite Hany.
Qed.

Lemma extraction_failure_is_fatal_witness :
  exists detail,
    (forall ct content,
        prefix "image/" ct = true ->
        image_open (fake_env (inl "quota exceeded") (inr "refined") (sample_parse JNull))
          content = inr (PILImage "PNG") ->
        (forall validate,
            with_db (analyze_uploaded_graph_with
                       (fake_env (inl "quota exceeded") (inr "refined") (sample_parse JNull))
                       validate (Some ct) content) store_with_jan =
              (Raise (HTTPException 500 detail),
               after_extraction_call store_with_jan (PILImage "PNG"))) /\
        app (fake_env (inl "quota exceeded") (inr "refined") (sample_parse JNull))
            (PostAnalyzeUpload (Some ct) content) store_with_jan =
          (server_error detail, after_extraction_call store_with_jan (PILImage "PNG"))) /\
    (forall image_data,
        decode_screen_capture
          (fake_env (inl "quota exceeded") (inr "refined") (sample_parse JNull))
          image_data = Ok (PILImage "PNG") ->
        (forall validate,
            with_db (analyze_screen_capture_with
                       (fake_env (inl "quota exceeded") (inr "refined") (sample_parse JNull))
                       validate image_data) store_with_jan =
              (Raise (HTTPException 500 detail),
               after_extraction_call store_with_jan (PILImage "PNG"))) /\
        app (fake_env (inl "quota exceeded") (inr "refined") (sample_parse JNull))
            (PostAnalyzeScreencap image_data) store_with_jan =
          (server_error detail, after_extraction_call store_with_jan (PILImage "PNG"))).
Proof.
  apply (extraction_failure_is_fatal
           (fake_env (inl "quota exceeded") (inr "refined") (sample_parse JNull))
           (PILImage "PNG") store_with_jan).
  left. exists "quota exceeded". reflexivity.
Defined.

Lemma map_result_raise {A B} (f : A -> result B) (l : list A) (e : exn) :
  map_result f l = Raise e -> exists x, In x l /\ f x = Raise e.
Proof.
  induction l as [|x l IH]; simpl; [discriminate|].
  destruct (f x) as [y|e'] eqn:Hx; simpl.
  - destruct (map_result f l) as [ys|e'']; simpl; [discriminate|].
    intros H. injection H as ->. destruct (IH eq_refl) as (x' & Hin & Hx').
    exists x'. auto.
  - intros H. injection H as ->. exists x. auto.
Qed.

(** Building the response model only ever raises a plain Python
    exception, which the web layer answers with status 500. *)
Lemma InsightResponse_raises (E : Env) (v : json) (e : exn) :
  InsightResponse E v = Raise e -> exists c msg, e = PyExn c msg.
Proof.
  destruct v; unfold InsightResponse; try (intros H; injection H as <-; eauto).
  destruct (map_result (validate_field E fields) InsightResponse_fields) as [ok|e'] eqn:Hm;
    unfold rbind; [discriminate|].
  intros H. injection H as ->.
  destruct (map_result_raise _ _ _ Hm) as (f & _ & Hf).
  unfold validate_field in Hf.
  destruct (lookup (fst f) fields) as [x|].
  - destruct (pydantic_validate E (snd f) x); [discriminate|].
    injection Hf as <-. eauto.
  - injection Hf as <-. eauto.
Qed.

(** A refinement that lacks one of the six fields does not build. *)
Lemma InsightResponse_requires_fields (E : Env) (fields : list (string * json))
    (name : string) (ty : field_type) :
  In (name, ty) InsightResponse_fields ->
  lookup name fields = None ->
  exists e, InsightResponse E (JObj fields) = Raise e.
Proof.
  intros Hin Hmiss. unfold InsightResponse.
  destruct (map_result (validate_field E fields) InsightResponse_fields) as [ok|e] eqn:Hm;
    unfold rbind; [|eauto].
  exfalso. revert ok Hm Hin. generalize InsightResponse_fields.
  induction l as [|f l IH]; simpl; intros ok Hm Hin; [contradiction|].
  destruct (validate_field E fields f) as [y|e] eqn:Hf; simpl in Hm; [|discriminate].
  destruct (map_result (validate_field E fields) l) as [ys|e] eqn:Hl; simpl in Hm;
    [|discriminate].
  destruct Hin as [-> | Hin]; [|exact (IH ys eq_refl Hin)].
  unfold validate_field in Hf. simpl in Hf. rewrite Hmiss in Hf. discriminate.
Qed.

(** C8, amended. When the data points of the record have categories the
    [String(255)] column takes (a text that encodes, of at most 255
    characters, without NUL) and values [float()] accepts, and the
    second Gateway call answers valid JSON from which the response
    model cannot be built (a missing field, say), the validator returns
    that object, not the initial record, and the upload endpoint
    answers with status 500. *)
Theorem malformed_refinement_is_fatal (E : Env) (ct content raw text : string)
    (image : Image) (fields : list (string * json)) (items : list json)
    (final : json) (e : exn) (w : world) :
  prefix "image/" ct = true ->
  image_open E content = inr image ->
  generate_content_async E "gemini-pro-vision" analysis_prompt image = inr raw ->
  json_loads E raw = inr (JObj fields) ->
  lookup "extracted_data" fields = Some (JArr items) ->
  forallb (persistable E) items = true ->
  existsb (has_key "category") items = true ->
  matching_rows w items <> [] ->
  generate_content E "gemini-pro"
    (validation_prompt E (JObj fields) (matching_rows w items)) = inr text ->
  json_loads E text = inr final ->
  InsightResponse E final = Raise e ->
  (exists w',
      get_validated_insights E (JObj fields) (after_extraction_call w image) =
        (Ok final, w')) /\
  status (fst (app E (PostAnalyzeUpload (Some ct) content) w)) = 500.
Proof.
  intros Hct Himg Hvision Hraw Hx Hp Hc Hm Hg Hl Hbuild.
  set (w0 := with_trace w
               (trace w ++ [EvGenerate "gemini-pro-vision" analysis_prompt (Some image)])).
  assert (exists w',
    get_validated_insights E (JObj fields) (with_session w0 []) = (Ok final, w'))
    as [w' Hrun].
  { rewrite (validator_to_lookup E fields items (with_session w0 []) Hx Hp Hc eq_refl).
    change (matching_rows (with_session w0 []) items) with (matching_rows w items).
    destruct (matching_rows w items) as [|r rs] eqn:Hrows; [contradiction|].
    cbv zeta.
    match goal with |- context [try_except _ _ ?w1] => set (w1' := w1) end.
    destruct (second_pass_refines E (JObj fields) final items _ text w1' Hp eq_refl
                eq_refl Hg Hl)
      as (added & rows & Hsecond & _).
    eexists. exact Hsecond. }
  split; [exists w'; exact Hrun|].
  destruct (InsightResponse_raises E final e Hbuild) as (c & msg & ->).
  unfold app, endpoint_of, with_db, analyze_uploaded_graph, analyze_uploaded_graph_with.
  rewrite Hct. cbn [negb]. cbv zeta. rewrite Himg, bind_ret.
  unfold bind at 1, analyze_graph_with_gemini, try_except.
  rewrite gateway_vision_run, Hvision.
  unfold bind at 1, parse_initial. rewrite Hraw. unfold ret at 1.
  unfold bind at 1.
  match goal with |- context [get_validated_insights E _ ?w1] =>
    change w1 with (with_session w0 []) end.
  rewrite Hrun. unfold lift. rewrite Hbuild. reflexivity.
Qed.

Lemma malformed_refinement_is_fatal_witness :
  (exists w',
      get_validated_insights
        (fake_env (inr "initial") (inr "malformed")
           (sample_parse (JObj (insight_record jan_feb))))
        (JObj (insight_record jan_feb))
        (after_extraction_call store_with_jan (PILImage "PNG")) =
        (Ok malformed_record, w')) /\
  status (fst (app (fake_env (inr "initial") (inr "malformed")
                      (sample_parse (JObj (insight_record jan_feb))))
                   (PostAnalyzeUpload (Some "image/png") "PNG") store_with_jan)) = 500.
Proof.
  apply (malformed_refinement_is_fatal
           (fake_env (inr "initial") (inr "malformed")
              (sample_parse (JObj (insight_record jan_feb))))
           "image/png" "PNG" "initial" "malformed" (PILImage "PNG")
           (insight_record jan_feb) jan_feb malformed_record
           (PyExn ValidationError "field required: summary") store_with_jan);
    try reflexivity.
  discriminate.
Defined.

(** C8 as stated fails: the second call answers valid JSON of the wrong
    shape, yet the validator does not return that object. For a value
    outside the range of a float it raises [OverflowError] out of the
    persistence helper, and for a category of 256 characters, a
    category with a NUL and a category that is a lone surrogate it
    raises as well. *)
Lemma malformed_refinement_refused :
  (forallb data_point_typed too_large = true /\
   matching_rows store_with_jan too_large = [jan_row] /\
   json_loads (fake_env (inr "initial") (inr "malformed")
                 (sample_parse (JObj (insight_record too_large)))) "malformed"
     = inr malformed_record /\
   is_ok (InsightResponse
            (fake_env (inr "initial") (inr "malformed")
               (sample_parse (JObj (insight_record too_large))))
            malformed_record) = false /\
   fst (get_validated_insights
          (fake_env (inr "initial") (inr "malformed")
             (sample_parse (JObj (insight_record too_large))))
          (JObj (insight_record too_large))
          (after_extraction_call store_with_jan (PILImage "PNG"))) =
     Raise (PyExn OverflowError "int too large to convert to float")) /\
  (forallb data_point_typed too_long = true /\
   matching_rows store_with_jan too_long = [jan_row] /\
   validator_refuses
     (fake_env (inr "initial") (inr "malformed")
        (sample_parse (JObj (insight_record too_long))))
     (JObj (insight_record too_long))
     (after_extraction_call store_with_jan (PILImage "PNG"))) /\
  (forallb data_point_typed with_nul = true /\
   matching_rows store_with_jan with_nul = [jan_row] /\
   validator_refuses
     (fake_env (inr "initial") (inr "malformed")
        (sample_parse (JObj (insight_record with_nul))))
     (JObj (insight_record with_nul))
     (after_extraction_call store_with_jan (PILImage "PNG"))) /\
  (forallb data_point_typed with_surrogate = true /\
   matching_rows store_with_jan with_surrogate = [jan_row] /\
   validator_refuses
     (fake_env (inr "initial") (inr "malformed")
        (sample_parse (JObj (insight_record with_surrogate))))
     (JObj (insight_record with_surrogate))
     (after_extraction_call store_with_jan (PILImage "PNG"))).
Proof. repeat split; vm_compute; reflexivity. Qed.

(* ================================================================= *)
(** ** The history listing *)

Lemma lex_compare_antisym (a b : list N) :
  lex_compare b a = CompOpp (lex_compare a b).
Proof.
  revert b. induction a as [|x a IH]; intros [|y b]; simpl; try reflexivity.
  rewrite (N.compare_antisym x y).
  destruct (N.compare x y); simpl; auto.
Qed.

Lemma lex_compare_le_trans (a b c : list N) :
  lex_compare a b <> Gt -> lex_compare b c <> Gt -> lex_compare a c <> Gt.
Proof.
  revert b c. induction a as [|x a IH]; intros [|y b] [|z c]; simpl;
    try congruence.
  destruct (N.compare_spec x y), (N.compare_spec y z), (N.compare_spec x z);
    subst; try lia; try congruence; eauto.
Qed.

Lemma dt_leb_total (a b : datetime) : dt_leb a b = false -> dt_leb b a = true.
Proof.
  unfold dt_leb. rewrite (lex_compare_antisym (dt_key a) (dt_key b)).
  destruct (lex_compare (dt_key a) (dt_key b)); simpl; congruence.
Qed.

Lemma dt_leb_trans (a b c : datetime) :
  dt_leb a b = true -> dt_leb b c = true -> dt_leb a c = true.
Proof.
  unfold dt_leb. intros Hab Hbc.
  pose proof (lex_compare_le_trans (dt_key a) (dt_key b) (dt_key c)) as H.
  destruct (lex_compare (dt_key a) (dt_key b)); try discriminate;
  destruct (lex_compare (dt_key b) (dt_key c)); try discriminate;
  destruct (lex_compare (dt_key a) (dt_key c)); try reflexivity;
  exfalso; apply H; congruence.
Qed.

Lemma recent_first_trans (a b c : row) :
  recent_first a b -> recent_first b c -> recent_first a c.
Proof. unfold recent_first. intros Hab Hbc. exact (dt_leb_trans _ _ _ Hbc Hab). Qed.

Lemma insert_desc_perm (r : row) (l : list row) :
  Permutation (r :: l) (insert_desc r l).
Proof.
  induction l as [|x l IH]; simpl; [reflexivity|].
  destruct (dt_leb _ _); [reflexivity|].
  rewrite perm_swap. now constructor.
Qed.

Lemma order_by_perm (l : list row) :
  Permutation l (order_by_extracted_at_desc l).
Proof.
  induction l as [|r l IH]; simpl; [reflexivity|].
  rewrite <- insert_desc_perm. now constructor.
Qed.

Lemma insert_desc_sorted (r : row) (l : list row) :
  StronglySorted recent_first l -> StronglySorted recent_first (insert_desc r l).
Proof.
  induction 1 as [|x l Hsorted IH Hall]; simpl.
  - repeat constructor.
  - destruct (dt_leb (GraphDataHistory.extracted_at x) (GraphDataHistory.extracted_at r))
      eqn:Hcmp.
    + constructor; [now constructor|].
      constructor; [exact Hcmp|].
      eapply Forall_impl; [|exact Hall].
      intros y Hy. exact (recent_first_trans r x y Hcmp Hy).
    + constructor; [exact IH|].
      apply (Permutation_Forall (insert_desc_perm r l)).
      constructor; [|exact Hall].
      exact (dt_leb_total _ _ Hcmp).
Qed.

Lemma order_by_sorted (l : list row) :
  StronglySorted recent_first (order_by_extracted_at_desc l).
Proof.
  induction l as [|r l IH]; simpl; [constructor | now apply insert_desc_sorted].
Qed.

Lemma sorted_app (l1 l2 : list row) :
  StronglySorted recent_first (l1 ++ l2)%list ->
  StronglySorted recent_first l1 /\
  (forall a b, In a l1 -> In b l2 -> recent_first a b).
Proof.
  induction l1 as [|x l1 IH]; simpl; intros H.
  - split; [constructor | contradiction].
  - inversion H as [|? ? Hs Hall]; subst.
    destruct (IH Hs) as [Hs1 Hcross].
    apply Forall_app in Hall as [Hall1 Hall2].
    split; [now constructor|].
    intros a b [<- | Ha] Hb.
    + rewrite Forall_forall in Hall2. now apply Hall2.
    + now apply Hcross.
Qed.

Lemma all_below_spec (f : N -> bool) (n : N) :
  all_below f n = true -> forall k, (k < n)%N -> f k = true.
Proof.
  unfold all_below. induction n as [|n IH] using N.peano_ind; intros H k Hk.
  - lia.
  - rewrite N.peano_rect_succ in H. apply andb_prop in H as [Hn Hrest].
    destruct (N.eq_dec k n) as [->|Hne]; [exact Hn|].
    apply IH; [exact Hrest | lia].
Qed.

Lemma digits_length_2 (n : N) : (n <= 99)%N -> (String.length (digits n) <= 2)%nat.
Proof.
  intros Hn. apply Nat.leb_le.
  apply (all_below_spec (fun k => (String.length (digits k) <=? 2)%nat) 100);
    [vm_compute; reflexivity | lia].
Qed.

Lemma digits_length_4 (n : N) : (n <= 9999)%N -> (String.length (digits n) <= 4)%nat.
Proof.
  intros Hn. apply Nat.leb_le.
  apply (all_below_spec (fun k => (String.length (digits k) <=? 4)%nat) 10000);
    [vm_compute; reflexivity | lia].
Qed.

Lemma digits_length_6 (n : N) : (n <= 999999)%N -> (String.length (digits n) <= 6)%nat.
Proof.
  intros Hn. apply Nat.leb_le.
  apply (all_below_spec (fun k => (String.length (digits k) <=? 6)%nat) 1000000);
    [vm_compute; reflexivity | lia].
Qed.

Lemma all_digits_uint (u : Decimal.uint) :
  all_digits (NilEmpty.string_of_uint u) = true.
Proof. induction u; simpl; auto. Qed.

Lemma all_digits_digits (n : N) : all_digits (digits n) = true.
Proof.
  unfold digits, NilZero.string_of_uint.
  destruct (N.to_uint n) eqn:Hu; try reflexivity; rewrite <- Hu; apply all_digits_uint.
Qed.

Lemma all_digits_app (s1 s2 : string) :
  all_digits s1 = true -> all_digits s2 = true -> all_digits (s1 ++ s2) = true.
Proof.
  induction s1 as [|c s1 IH]; simpl; intros H1 H2; [exact H2|].
  apply andb_prop in H1 as [Hc H1]. now rewrite Hc, IH.
Qed.

Lemma all_digits_zeros (k : nat) : all_digits (zeros k) = true.
Proof. induction k; simpl; auto. Qed.

Lemma length_app_string (s1 s2 : string) :
  String.length (s1 ++ s2) = (String.length s1 + String.length s2)%nat.
Proof. induction s1 as [|c s1 IH]; simpl; [reflexivity | now rewrite IH]. Qed.

Lemma length_zeros (k : nat) : String.length (zeros k) = k.
Proof. induction k; simpl; auto. Qed.

Lemma follows_digits (s : string) :
  all_digits s = true -> follows (ds (String.length s)) s = true.
Proof.
  induction s as [|c s IH]; simpl; intros H; [reflexivity|].
  apply andb_prop in H as [Hc H]. now rewrite Hc, IH.
Qed.

Lemma follows_app (p1 p2 s1 s2 : string) :
  follows p1 s1 = true -> follows p2 s2 = true -> follows (p1 ++ p2) (s1 ++ s2) = true.
Proof.
  revert s1. induction p1 as [|p p1 IH]; intros [|c s1]; simpl; try discriminate; auto.
  intros H1 H2. apply andb_prop in H1 as [Hc H1]. now rewrite Hc, IH.
Qed.

Lemma zfill_follows (width : nat) (n : N) :
  (String.length (digits n) <= width)%nat -> follows (ds width) (zfill width n) = true.
Proof.
  intros Hlen.
  replace width with (String.length (zfill width n)) at 1.
  - apply follows_digits. unfold zfill.
    apply all_digits_app; [apply all_digits_zeros | apply all_digits_digits].
  - unfold zfill. rewrite length_app_string, length_zeros. lia.
Qed.

(** [isoformat] yields the ISO 8601 form. *)
Lemma isoformat_iso8601 (d : datetime) : iso8601 (isoformat d) = true.
Proof.
  pose proof (in_range d) as Hrange. unfold fields_in_range in Hrange.
  rewrite !andb_true_iff, !N.leb_le in Hrange.
  destruct Hrange as (((((((((_ & Hy) & _) & Hm) & _) & Hd) & Hh) & Hmi) & Hs) & Hus).
  pose proof (zfill_follows 4 _ (digits_length_4 _ Hy)) as Fy.
  assert (follows (ds 2) (zfill 2 (month d)) = true) as Fm
    by (apply zfill_follows, digits_length_2; lia).
  assert (follows (ds 2) (zfill 2 (day d)) = true) as Fd
    by (apply zfill_follows, digits_length_2; lia).
  assert (follows (ds 2) (zfill 2 (hour d)) = true) as Fh
    by (apply zfill_follows, digits_length_2; lia).
  assert (follows (ds 2) (zfill 2 (minute d)) = true) as Fmi
    by (apply zfill_follows, digits_length_2; lia).
  assert (follows (ds 2) (zfill 2 (second d)) = true) as Fs
    by (apply zfill_follows, digits_length_2; lia).
  pose proof (zfill_follows 6 _ (digits_length_6 _ Hus)) as Fus.
  unfold iso8601, isoformat. apply orb_true_iff.
  destruct (N.eqb (microsecond d) 0).
  - left.
    change "dddd-dd-ddTdd:dd:dd"
      with (ds 4 ++ "-" ++ ds 2 ++ "-" ++ ds 2 ++ "T" ++
            ds 2 ++ ":" ++ ds 2 ++ ":" ++ ds 2 ++ EmptyString).
    repeat (apply follows_app; [assumption || reflexivity|]). reflexivity.
  - right.
    change "dddd-dd-ddTdd:dd:dd.dddddd"
      with (ds 4 ++ "-" ++ ds 2 ++ "-" ++ ds 2 ++ "T" ++
            ds 2 ++ ":" ++ ds 2 ++ ":" ++ ds 2 ++ "." ++ ds 6).
    repeat (apply follows_app; [assumption || reflexivity|]). assumption.
Qed.

Lemma firstn_length_le {A} (n : nat) (l : list A) : (List.length (firstn n l) <= n)%nat.
Proof. rewrite length_firstn. lia. Qed.

Lemma read_digits_app (s rest : string) (acc : N) :
  all_digits s = true ->
  read_digits (String.length s) (s ++ rest) acc = Some (digits_value s acc, rest).
Proof.
  revert acc. induction s as [|c s IH]; simpl; intros acc H; [reflexivity|].
  apply andb_prop in H as [Hc H]. rewrite Hc. now apply IH.
Qed.

Lemma read_char_app (c : ascii) (rest : string) :
  read_char c (String c EmptyString ++ rest) = Some rest.
Proof. simpl. now rewrite Ascii.eqb_refl. Qed.

Lemma string_app_nil_r (s : string) : s ++ EmptyString = s.
Proof. induction s as [|c s IH]; simpl; [reflexivity | now rewrite IH]. Qed.

(** Reading back what [zfill] wrote, once checked for every number
    below [bound]. *)
Lemma zfill_reads (width : nat) (bound : N) :
  all_below (fun k => (String.length (zfill width k) =? width)%nat &&
                      (digits_value (zfill width k) 0 =? k)%N) bound = true ->
  forall n rest,
    (n < bound)%N -> read_digits width (zfill width n ++ rest) 0 = Some (n, rest).
Proof.
  intros Hall n rest Hn.
  pose proof (all_below_spec _ _ Hall n Hn) as H. cbv beta in H.
  apply andb_prop in H as [Hlen Hval].
  apply Nat.eqb_eq in Hlen. apply N.eqb_eq in Hval.
  replace (read_digits width) with (read_digits (String.length (zfill width n)))
    by now rewrite Hlen.
  rewrite read_digits_app; [now rewrite Hval|].
  unfold zfill. apply all_digits_app; [apply all_digits_zeros | apply all_digits_digits].
Qed.

Lemma zfill_reads_2 (n : N) (rest : string) :
  (n <= 99)%N -> read_digits 2 (zfill 2 n ++ rest) 0 = Some (n, rest).
Proof.
  intros Hn. apply (zfill_reads 2 100); [vm_compute; reflexivity | lia].
Qed.

Lemma zfill_reads_4 (n : N) (rest : string) :
  (n <= 9999)%N -> read_digits 4 (zfill 4 n ++ rest) 0 = Some (n, rest).
Proof.
  intros Hn. apply (zfill_reads 4 10000); [vm_compute; reflexivity | lia].
Qed.

Lemma zfill_reads_6 (n : N) (rest : string) :
  (n <= 999999)%N -> read_digits 6 (zfill 6 n ++ rest) 0 = Some (n, rest).
Proof.
  intros Hn. apply (zfill_reads 6 1000000); [vm_compute; reflexivity | lia].
Qed.

(** The text [isoformat] writes denotes the fields of the timestamp. *)
Lemma isoformat_fields (d : datetime) : iso8601_fields (isoformat d) = Some (dt_key d).
Proof.
  pose proof (in_range d) as Hrange. unfold fields_in_range in Hrange.
  rewrite !andb_true_iff, !N.leb_le in Hrange.
  destruct Hrange as (((((((((_ & Hy) & _) & Hm) & _) & Hd) & Hh) & Hmi) & Hs) & Hus).
  unfold iso8601_fields, isoformat, dt_key.
  rewrite zfill_reads_4 by exact Hy. cbv beta iota delta [and_then].
  rewrite read_char_app. cbv beta iota.
  rewrite zfill_reads_2 by lia. cbv beta iota.
  rewrite read_char_app. cbv beta iota.
  rewrite zfill_reads_2 by lia. cbv beta iota.
  rewrite read_char_app. cbv beta iota.
  rewrite zfill_reads_2 by lia. cbv beta iota.
  rewrite read_char_app. cbv beta iota.
  rewrite zfill_reads_2 by lia. cbv beta iota.
  rewrite read_char_app. cbv beta iota.
  rewrite zfill_reads_2 by lia. cbv beta iota.
  destruct (N.eqb_spec (microsecond d) 0) as [Hzero | Hnonzero].
  - now rewrite Hzero.
  - change ("." ++ zfill 6 (microsecond d))
      with (String "." (zfill 6 (microsecond d))). cbv iota.
    change (read_char "." (String "." (zfill 6 (microsecond d))))
      with (Some (zfill 6 (microsecond d))). cbv beta iota.
    rewrite <- (string_app_nil_r (zfill 6 (microsecond d))).
    rewrite zfill_reads_6 by exact Hus. reflexivity.
Qed.

(** C9. The history endpoint, on the session its request is given,
    returns at most 100 rows of the table, the most recent ones by
    extraction timestamp, most recent first, each as an object with
    exactly the fields [id], [metric_name], [category], [value] (the
    float the column reads as) and [extracted_at], a text in ISO 8601
    form that denotes the year, month, day, hour, minute, second and
    microsecond of the row's timestamp. *)
Theorem history_listing (w : world) :
  exists records older,
    get_historical_data (with_session w []) =
      (Ok (JArr (map (fun r =>
                        JObj [("id", JNum (PInt (GraphDataHistory.id r)));
                              ("metric_name", JStr (GraphDataHistory.metric_name r));
                              ("category", JStr (GraphDataHistory.category r));
                              ("value",
                               JNum (PFloat (numeric_to_float (GraphDataHistory.value r))));
                              ("extracted_at",
                               JStr (isoformat (GraphDataHistory.extracted_at r)))])
                     records)),
       with_trace (with_session w []) (trace w ++ [EvQueryRecent])) /\
    (List.length records <= 100)%nat /\
    (List.length records = Nat.min 100 (List.length (table w)))%nat /\
    Permutation (records ++ older)%list (table w) /\
    StronglySorted recent_first records /\
    (forall r x, In r records -> In x older -> recent_first r x) /\
    Forall (fun r =>
              iso8601 (isoformat (GraphDataHistory.extracted_at r)) = true /\
              iso8601_fields (isoformat (GraphDataHistory.extracted_at r)) =
                Some (dt_key (GraphDataHistory.extracted_at r))) records.
Proof.
  set (sorted := order_by_extracted_at_desc (table w)).
  exists (firstn 100 sorted), (skipn 100 sorted).
  pose proof (order_by_perm (table w)) as Hperm. fold sorted in Hperm.
  pose proof (order_by_sorted (table w)) as Hsorted. fold sorted in Hsorted.
  rewrite <- (firstn_skipn 100 sorted) in Hsorted.
  destruct (sorted_app _ _ Hsorted) as [Hfirst Hcross].
  split; [reflexivity|].
  split; [apply firstn_length_le|].
  split; [rewrite length_firstn; now rewrite (Permutation_length Hperm)|].
  split; [rewrite firstn_skipn; now symmetry|].
  split; [exact Hfirst|].
  split; [exact Hcross|].
  rewrite Forall_forall. intros r _.
  split; [apply isoformat_iso8601 | apply isoformat_fields].
Qed.





(* ================================================================= *)
(** ** Rules for the effects of a computation *)

Lemma bind_lift {A B} (r : result A) (k : A -> M B) (w : world) :
  bind (lift r) k w = match r with Ok a => k a w | Raise e => (Raise e, w) end.
Proof. now destruct r. Qed.

Lemma quiet_ret {A} (a : A) : quiet (ret a).
Proof. intros w. reflexivity. Qed.

Lemma quiet_raise {A} (e : exn) : quiet (@raise A e).
Proof. intros w. reflexivity. Qed.

Lemma quiet_lift {A} (r : result A) : quiet (lift r).
Proof. intros w. reflexivity. Qed.

Lemma quiet_emit (ev : event) : quiet (emit ev).
Proof. intros w. reflexivity. Qed.

Lemma quiet_session_add (r : new_record) : quiet (session_add r).
Proof. intros w. reflexivity. Qed.

Lemma quiet_bind {A B} (m : M A) (k : A -> M B) :
  quiet m -> (forall a, quiet (k a)) -> quiet (bind m k).
Proof.
  intros Hm Hk w. unfold bind. specialize (Hm w).
  destruct (m w) as [[a|e] w']; simpl in *; [|exact Hm].
  now rewrite Hk.
Qed.

Lemma quiet_try_except {A} (body : M A) (handler : exn -> M A) :
  quiet body -> (forall e, quiet (handler e)) -> quiet (try_except body handler).
Proof.
  intros Hb Hh w. unfold try_except. specialize (Hb w).
  destruct (body w) as [[a|e] w']; simpl in *; [exact Hb|].
  now rewrite Hh.
Qed.

Lemma quiet_for_each {A} (body : A -> M unit) (l : list A) :
  (forall x, quiet (body x)) -> quiet (for_each body l).
Proof.
  intros Hbody. induction l as [|x l IH]; simpl.
  - apply quiet_ret.
  - apply quiet_bind; [apply Hbody | intros _; exact IH].
Qed.

Lemma quiet_check_active : quiet check_active.
Proof. intros w. unfold check_active. now destruct (inactive w). Qed.

Lemma quiet_query_filtered (E : Env) (m : string) (categories : list json) :
  quiet (query_filtered E m categories).
Proof.
  unfold query_filtered.
  apply quiet_bind; [apply quiet_emit | intros _].
  apply quiet_bind; [apply quiet_check_active | intros _].
  apply quiet_bind; [apply quiet_lift | intros m'].
  apply quiet_bind; [apply quiet_lift | intros texts].
  intros w. reflexivity.
Qed.

Lemma quiet_query_recent (n : nat) : quiet (query_recent n).
Proof.
  unfold query_recent.
  apply quiet_bind; [apply quiet_emit | intros _].
  apply quiet_bind; [apply quiet_check_active | intros _].
  intros w. reflexivity.
Qed.

Lemma quiet_store_data_point (E : Env) (m : string) (dp : json) :
  quiet (store_data_point E m dp).
Proof.
  unfold store_data_point.
  apply quiet_bind; [apply quiet_lift | intros has_category].
  apply quiet_bind.
  { destruct has_category; [apply quiet_lift | apply quiet_ret]. }
  intros [|]; [|apply quiet_ret].
  repeat (apply quiet_bind; [apply quiet_lift | intro]).
  apply quiet_session_add.
Qed.

Lemma quiet_gateway_text (E : Env) (model prompt : string) :
  quiet (gateway_text E model prompt).
Proof.
  unfold gateway_text.
  apply quiet_bind; [apply quiet_emit | intros _].
  destruct (generate_content E model prompt); [apply quiet_raise | apply quiet_ret].
Qed.

Lemma quiet_gateway_vision (E : Env) (model prompt : string) (image : Image) :
  quiet (gateway_vision E model prompt image).
Proof.
  unfold gateway_vision.
  apply quiet_bind; [apply quiet_emit | intros _].
  destruct (generate_content_async E model prompt image);
    [apply quiet_raise | apply quiet_ret].
Qed.

Lemma quiet_loads (E : Env) (text : string) : quiet (loads E text).
Proof.
  unfold loads. destruct (json_loads E text); [apply quiet_raise | apply quiet_ret].
Qed.

Lemma quiet_atomic {A} (m : M A) : quiet m -> atomic m.
Proof. intros H w e _. apply H. Qed.

Lemma atomic_bind_quiet {A B} (m : M A) (k : A -> M B) :
  quiet m -> (forall a, atomic (k a)) -> atomic (bind m k).
Proof.
  intros Hm Hk w e. unfold bind. specialize (Hm w).
  destruct (m w) as [[a|e'] w']; simpl in *; [|intros _; exact Hm].
  intros Hr. now rewrite (Hk a w' e Hr).
Qed.

Lemma atomic_then_ret {A B} (m : M A) (b : B) :
  atomic m -> atomic (m ;;; ret b).
Proof.
  intros Hm w e. unfold bind, ret. specialize (Hm w).
  destruct (m w) as [[a|e'] w']; simpl in *; [discriminate|].
  intros _. now apply (Hm e').
Qed.

Lemma atomic_try_except {A} (body : M A) (handler : exn -> M A) :
  atomic body -> (forall e, atomic (handler e)) -> atomic (try_except body handler).
Proof.
  intros Hb Hh w e. unfold try_except. specialize (Hb w).
  destruct (body w) as [[a|e'] w']; simpl in *; [discriminate|].
  intros Hr. rewrite (Hh e' w' e Hr). now apply (Hb e').
Qed.

Lemma atomic_session_commit (E : Env) : atomic (session_commit E).
Proof.
  intros w e. unfold session_commit.
  destruct (inactive w); [reflexivity|].
  destruct (flush E (next_id w) (db_now w) (session w)) as [[rows|e'] next]; simpl;
    [discriminate | reflexivity].
Qed.

Lemma atomic_store_new_data_in_db (E : Env) (extracted_data : json) (m : string) :
  atomic (store_new_data_in_db E extracted_data m).
Proof.
  unfold store_new_data_in_db.
  apply atomic_bind_quiet; [apply quiet_lift | intros items].
  apply atomic_bind_quiet; [|intros _; apply atomic_session_commit].
  apply quiet_for_each. apply quiet_store_data_point.
Qed.

Lemma grows_quiet {A} (m : M A) : quiet m -> grows m.
Proof. intros H w. exists []. now rewrite H, app_nil_r. Qed.

Lemma append_only_trans (w1 w2 w3 : world) :
  append_only w1 w2 -> append_only w2 w3 -> append_only w1 w3.
Proof.
  intros [r1 H1] [r2 H2]. exists (r1 ++ r2)%list. now rewrite H2, H1, app_assoc.
Qed.

Lemma grows_bind {A B} (m : M A) (k : A -> M B) :
  grows m -> (forall a, grows (k a)) -> grows (bind m k).
Proof.
  intros Hm Hk w. unfold bind. specialize (Hm w).
  destruct (m w) as [[a|e] w']; simpl in *; [|exact Hm].
  exact (append_only_trans _ _ _ Hm (Hk a w')).
Qed.

Lemma grows_try_except {A} (body : M A) (handler : exn -> M A) :
  grows body -> (forall e, grows (handler e)) -> grows (try_except body handler).
Proof.
  intros Hb Hh w. unfold try_except. specialize (Hb w).
  destruct (body w) as [[a|e] w']; simpl in *; [exact Hb|].
  exact (append_only_trans _ _ _ Hb (Hh e w')).
Qed.

Lemma grows_session_commit (E : Env) : grows (session_commit E).
Proof.
  intros w. unfold session_commit.
  destruct (inactive w); [exists []; simpl; now rewrite app_nil_r|].
  destruct (flush E (next_id w) (db_now w) (session w)) as [[rows|e] next]; simpl.
  - now exists rows.
  - exists []. simpl. now rewrite app_nil_r.
Qed.

Lemma grows_store_new_data_in_db (E : Env) (extracted_data : json) (m : string) :
  grows (store_new_data_in_db E extracted_data m).
Proof.
  unfold store_new_data_in_db.
  apply grows_bind; [apply grows_quiet, quiet_lift | intros items].
  apply grows_bind; [|intros _; apply grows_session_commit].
  apply grows_quiet, quiet_for_each. apply quiet_store_data_point.
Qed.

Lemma atomic_get_validated_insights (E : Env) (initial_insights : json) :
  atomic (get_validated_insights E initial_insights).
Proof.
  unfold get_validated_insights.
  apply atomic_bind_quiet; [apply quiet_lift | intros extracted_data].
  destruct (negb (py_truthy extracted_data)); [apply quiet_atomic, quiet_ret|].
  apply atomic_bind_quiet; [apply quiet_lift | intros items].
  apply atomic_bind_quiet; [apply quiet_lift | intros categories].
  destruct categories as [|c cs]; [apply quiet_atomic, quiet_ret|].
  apply atomic_bind_quiet; [apply quiet_query_filtered | intros records].
  destruct records as [|r rs].
  - apply atomic_then_ret, atomic_store_new_data_in_db.
  - apply atomic_try_except.
    + apply atomic_bind_quiet; [apply quiet_gateway_text | intros text].
      apply atomic_bind_quiet; [apply quiet_loads | intros final].
      apply atomic_then_ret, atomic_store_new_data_in_db.
    + intros e.
      apply atomic_bind_quiet; [apply quiet_emit | intros _].
      apply atomic_then_ret, atomic_store_new_data_in_db.
Qed.

Lemma grows_get_validated_insights (E : Env) (initial_insights : json) :
  grows (get_validated_insights E initial_insights).
Proof.
  unfold get_validated_insights.
  apply grows_bind; [apply grows_quiet, quiet_lift | intros extracted_data].
  destruct (negb (py_truthy extracted_data)); [apply grows_quiet, quiet_ret|].
  apply grows_bind; [apply grows_quiet, quiet_lift | intros items].
  apply grows_bind; [apply grows_quiet, quiet_lift | intros categories].
  destruct categories as [|c cs]; [apply grows_quiet, quiet_ret|].
  apply grows_bind; [apply grows_quiet, quiet_query_filtered | intros records].
  destruct records as [|r rs].
  - apply grows_bind; [apply grows_store_new_data_in_db | intros _].
    apply grows_quiet, quiet_ret.
  - apply grows_try_except.
    + apply grows_bind; [apply grows_quiet, quiet_gateway_text | intros text].
      apply grows_bind; [apply grows_quiet, quiet_loads | intros final].
      apply grows_bind; [apply grows_store_new_data_in_db | intros _].
      apply grows_quiet, quiet_ret.
    + intros e.
      apply grows_bind; [apply grows_quiet, quiet_emit | intros _].
      apply grows_bind; [apply grows_store_new_data_in_db | intros _].
      apply grows_quiet, quiet_ret.
Qed.

Lemma quiet_analyze_graph_with_gemini (E : Env) (image : Image) :
  quiet (analyze_graph_with_gemini E image).
Proof.
  unfold analyze_graph_with_gemini.
  apply quiet_try_except; [apply quiet_gateway_vision | intros e; apply quiet_raise].
Qed.

Lemma quiet_parse_initial (E : Env) (raw : string) : quiet (parse_initial E raw).
Proof.
  unfold parse_initial. destruct (json_loads E raw); [apply quiet_raise | apply quiet_ret].
Qed.

Lemma grows_analysis (E : Env) (image : Image) :
  grows (raw <- analyze_graph_with_gemini E image ;;
         initial <- parse_initial E raw ;;
         validated <- get_validated_insights E initial ;;
         lift (InsightResponse E validated)).
Proof.
  apply grows_bind; [apply grows_quiet, quiet_analyze_graph_with_gemini | intros raw].
  apply grows_bind; [apply grows_quiet, quiet_parse_initial | intros initial].
  apply grows_bind; [apply grows_get_validated_insights | intros v].
  apply grows_quiet, quiet_lift.
Qed.

Lemma grows_with_db {A} (endpoint : M A) : grows endpoint -> grows (with_db endpoint).
Proof.
  intros He w. unfold with_db. specialize (He (with_session w [])).
  destruct (endpoint (with_session w [])) as [r w']. exact He.
Qed.

Lemma grows_endpoint_of (E : Env) (req : request) : grows (endpoint_of E req).
Proof.
  destruct req as [ct content | image_data | | ]; simpl.
  - apply grows_with_db.
    unfold analyze_uploaded_graph, analyze_uploaded_graph_with.
    destruct ct as [ct|]; [|apply grows_quiet, quiet_raise].
    destruct (negb (prefix "image/" ct)); [apply grows_quiet, quiet_raise|].
    cbv zeta. apply grows_bind; [|intros image; apply grows_analysis].
    destruct (image_open E content);
      [apply grows_quiet, quiet_raise | apply grows_quiet, quiet_ret].
  - apply grows_with_db.
    unfold analyze_screen_capture, analyze_screen_capture_with.
    apply grows_bind; [|intros image; apply grows_analysis].
    apply grows_quiet, quiet_try_except; [apply quiet_lift | intros e; apply quiet_raise].
  - apply grows_with_db. unfold get_historical_data.
    apply grows_quiet, quiet_bind; [apply quiet_query_recent | intros; apply quiet_ret].
  - apply grows_quiet, quiet_ret.
Qed.

(* ================================================================= *)
(** ** More on the persistence helper and the validator *)

(** X1. Whatever it is given, the persistence helper writes all or
    nothing: when it raises (a value [float()] rejects, a data point
    that is not an object, a category the column refuses), the table
    is exactly as it was, also when earlier data points were already
    added to the session. *)
Theorem store_new_data_in_db_all_or_nothing (E : Env) (extracted_data : json)
    (m : string) (w : world) (e : exn) :
  fst (store_new_data_in_db E extracted_data m w) = Raise e ->
  table (snd (store_new_data_in_db E extracted_data m w)) = table w.
Proof. apply atomic_store_new_data_in_db. Qed.

Lemma store_new_data_in_db_all_or_nothing_witness :
  table (snd (store_new_data_in_db
                (fake_env (inr "initial") (inr "refined") (sample_parse JNull))
                (JArr (jan_feb ++ too_large)) "general_metric" store_with_jan))
  = table store_with_jan.
Proof.
  apply (store_new_data_in_db_all_or_nothing
           (fake_env (inr "initial") (inr "refined") (sample_parse JNull))
           (JArr (jan_feb ++ too_large)) "general_metric" store_with_jan
           (PyExn OverflowError "int too large to convert to float")).
  vm_compute. reflexivity.
Defined.

(** X2. A validator that raises has written nothing: for every input
    and every behaviour of the collaborators, if
    [get_validated_insights] raises, the table is as it was before the
    call. *)
Theorem validator_raises_without_writing (E : Env) (initial_insights : json)
    (w : world) (e : exn) :
  fst (get_validated_insights E initial_insights w) = Raise e ->
  table (snd (get_validated_insights E initial_insights w)) = table w.
Proof. apply atomic_get_validated_insights. Qed.

Lemma validator_raises_without_writing_witness :
  table (snd (get_validated_insights
                (fake_env (inr "initial") (inl "quota exceeded") (sample_parse JNull))
                (JObj (insight_record (jan_feb ++ too_large))) store_with_jan))
  = table store_with_jan.
Proof.
  apply (validator_raises_without_writing
           (fake_env (inr "initial") (inl "quota exceeded") (sample_parse JNull))
           (JObj (insight_record (jan_feb ++ too_large))) store_with_jan
           (PyExn OverflowError "int too large to convert to float")).
  vm_compute. reflexivity.
Defined.

(** X3. No request updates or deletes a row: after any request, under
    any behaviour of the collaborators, the table is the table before
    the request followed by the rows the request wrote. *)
Theorem requests_only_append (E : Env) (req : request) (w : world) :
  exists rows, table (snd (app E req w)) = (table w ++ rows)%list.
Proof.
  unfold app. pose proof (grows_endpoint_of E req w) as H.
  destruct (endpoint_of E req w) as [r w']. exact H.
Qed.

(* ================================================================= *)
(** ** Rules for results, exceptions and Gateway calls *)

Lemma returns_ret {A} (P : A -> Prop) (a : A) : P a -> returns P (ret a).
Proof. intros Ha w a' H. injection H as <-. exact Ha. Qed.

Lemma returns_raise {A} (P : A -> Prop) (e : exn) : returns P (raise e).
Proof. intros w a H. discriminate. Qed.

Lemma returns_lift {A} (P : A -> Prop) (r : result A) :
  (forall a, r = Ok a -> P a) -> returns P (lift r).
Proof. intros Hr w a H. now apply Hr. Qed.

Lemma returns_bind {A B} (P : B -> Prop) (m : M A) (k : A -> M B) :
  (forall a, returns P (k a)) -> returns P (bind m k).
Proof.
  intros Hk w b. unfold bind.
  destruct (m w) as [[a|e] w']; simpl; [apply Hk | discriminate].
Qed.

Lemma returns_try_except {A} (P : A -> Prop) (body : M A) (handler : exn -> M A) :
  returns P body -> (forall e, returns P (handler e)) ->
  returns P (try_except body handler).
Proof.
  intros Hb Hh w a. unfold try_except. specialize (Hb w).
  destruct (body w) as [[a'|e] w']; simpl in *; [apply Hb | apply Hh].
Qed.

Lemma raises_ret {A} (P : exn -> Prop) (a : A) : raises P (ret a).
Proof. intros w e H. discriminate. Qed.

Lemma raises_raise {A} (P : exn -> Prop) (e : exn) : P e -> raises P (@raise A e).
Proof. intros He w e' H. injection H as <-. exact He. Qed.

Lemma raises_lift {A} (P : exn -> Prop) (r : result A) :
  (forall e, r = Raise e -> P e) -> raises P (lift r).
Proof. intros Hr w e H. now apply Hr. Qed.

Lemma raises_emit (P : exn -> Prop) (ev : event) : raises P (emit ev).
Proof. intros w e H. discriminate. Qed.

Lemma raises_bind {A B} (P : exn -> Prop) (m : M A) (k : A -> M B) :
  raises P m -> (forall a, raises P (k a)) -> raises P (bind m k).
Proof.
  intros Hm Hk w e. unfold bind. specialize (Hm w).
  destruct (m w) as [[a|e'] w']; simpl in *; [apply Hk|].
  intros H. injection H as <-. now apply Hm.
Qed.

Lemma raises_try_except {A} (P : exn -> Prop) (body : M A) (handler : exn -> M A) :
  (forall e, raises P (handler e)) -> raises P (try_except body handler).
Proof.
  intros Hh w e. unfold try_except.
  destruct (body w) as [[a|e'] w']; simpl; [discriminate | apply Hh].
Qed.

Lemma raises_for_each {A} (P : exn -> Prop) (body : A -> M unit) (l : list A) :
  (forall x, raises P (body x)) -> raises P (for_each body l).
Proof.
  intros Hbody. induction l as [|x l IH]; simpl.
  - apply raises_ret.
  - apply raises_bind; [apply Hbody | intros _; exact IH].
Qed.

Lemma raises_weaken {A} (P Q : exn -> Prop) (m : M A) :
  (forall e, P e -> Q e) -> raises P m -> raises Q m.
Proof. intros HPQ Hm w e H. apply HPQ. exact (Hm w e H). Qed.

Lemma plain_map_result {A B} (f : A -> result B) (l : list A) (e : exn) :
  (forall x e', f x = Raise e' -> plain e') -> map_result f l = Raise e -> plain e.
Proof.
  intros Hf H. destruct (map_result_raise f l e H) as (x & _ & Hx). exact (Hf x e Hx).
Qed.

Lemma plain_py_contains (k : string) (v : json) (e : exn) :
  py_contains k v = Raise e -> plain e.
Proof. destruct v; simpl; intros H; try discriminate; injection H as <-; exact I. Qed.

Lemma plain_py_get (v : json) (k : string) (d : json) (e : exn) :
  py_get v k d = Raise e -> plain e.
Proof. destruct v; simpl; intros H; try discriminate; injection H as <-; exact I. Qed.

Lemma plain_py_getitem (v : json) (k : string) (e : exn) :
  py_getitem v k = Raise e -> plain e.
Proof.
  destruct v; simpl; intros H; try (injection H as <-; exact I).
  destruct (lookup k fields); [discriminate | injection H as <-; exact I].
Qed.

Lemma plain_py_iter (v : json) (e : exn) : py_iter v = Raise e -> plain e.
Proof. destruct v; simpl; intros H; try discriminate; injection H as <-; exact I. Qed.

Lemma plain_py_float (E : Env) (v : json) (e : exn) : py_float E v = Raise e -> plain e.
Proof.
  destruct v as [ | b | [z|f] | s | items | fields]; simpl; intros H;
    try discriminate; try (injection H as <-; exact I).
  - unfold float_of_int in H.
    destruct (binary_normalize 53 1024 z 0 false); try discriminate.
    injection H as <-. exact I.
  - destruct (float_of_str E s); [discriminate | injection H as <-; exact I].
Qed.

Lemma plain_adapt_str (s : string) (e : exn) : adapt_str s = Raise e -> plain e.
Proof.
  unfold adapt_str. destruct (negb (encodes s)); [intros [= <-]; exact I|].
  destruct (has_nul s); [intros [= <-]; exact I | discriminate].
Qed.

Lemma plain_to_varchar (limit : nat) (s : string) (e : exn) :
  to_varchar limit s = Raise e -> plain e.
Proof.
  unfold to_varchar. destruct (py_len s <=? limit)%nat; [discriminate|].
  destruct (all_spaces (py_drop limit s)); [discriminate | intros [= <-]; exact I].
Qed.

Lemma plain_adapt_category (E : Env) (v : json) (e : exn) :
  adapt_category E v = Raise e -> plain e.
Proof.
  destruct v as [ | b | [z|f] | s | items | fields]; simpl; try discriminate;
    try (destruct (varchar_of E _); [intros [= <-]; exact I | discriminate]).
  destruct (adapt_str s) as [s'|e'] eqn:Hs; simpl; [discriminate|].
  intros [= <-]. exact (plain_adapt_str _ _ Hs).
Qed.

Lemma plain_adapt_record (E : Env) (p : new_record) (e : exn) :
  adapt_record E p = Raise e -> plain e.
Proof.
  unfold adapt_record.
  destruct (adapt_str (new_metric_name p)) as [m|e'] eqn:Hm; simpl;
    [|intros [= <-]; exact (plain_adapt_str _ _ Hm)].
  destruct (adapt_category E (new_category p)) as [c|e'] eqn:Hc; simpl; [discriminate|].
  intros [= <-]. exact (plain_adapt_category _ _ _ Hc).
Qed.

Lemma plain_insert_row (new_id : Z) (now : datetime) (p : insert_params) (e : exn) :
  insert_row new_id now p = Raise e -> plain e.
Proof.
  unfold insert_row.
  destruct (to_varchar 255 (param_metric_name p)) as [m|e'] eqn:Hm; simpl;
    [|intros [= <-]; exact (plain_to_varchar _ _ _ Hm)].
  destruct (param_category p) as [c|].
  - destruct (to_varchar 255 c) as [c'|e'] eqn:Hc; simpl;
      [|intros [= <-]; exact (plain_to_varchar _ _ _ Hc)].
    destruct (to_varchar 64 (param_source_graph_hash p)) as [h|e'] eqn:Hh; simpl;
      [discriminate | intros [= <-]; exact (plain_to_varchar _ _ _ Hh)].
  - simpl. intros [= <-]. exact I.
Qed.

Lemma plain_insert_rows (now : datetime) (ps : list insert_params) (e : exn) :
  forall first_id next, insert_rows first_id now ps = (Raise e, next) -> plain e.
Proof.
  induction ps as [|p ps IH]; simpl; intros first_id next; [discriminate|].
  destruct (insert_row first_id now p) as [r|e'] eqn:Hr.
  - destruct (insert_rows (first_id + 1) now ps) as [[rows|e'] n] eqn:Hrest;
      [discriminate|].
    intros [= <- _]. exact (IH _ _ Hrest).
  - intros [= <- _]. exact (plain_insert_row _ _ _ _ Hr).
Qed.

Lemma plain_category_values (items : list json) (e : exn) :
  category_values items = Raise e -> plain e.
Proof.
  induction items as [|item items IH]; simpl; [discriminate|].
  destruct (py_contains "category" item) as [[|]|e'] eqn:Hc; simpl.
  - destruct (py_get item "category" (JStr EmptyString)) as [c|e'] eqn:Hg; simpl.
    + destruct (category_values items); simpl; [discriminate|].
      intros H. injection H as <-. now apply IH.
    + intros H. injection H as <-. exact (plain_py_get _ _ _ _ Hg).
  - exact IH.
  - intros H. injection H as <-. exact (plain_py_contains _ _ _ Hc).
Qed.

Lemma plain_flush (E : Env) (pending : list new_record) (e : exn)
    (first_id next : Z) (now : datetime) :
  flush E first_id now pending = (Raise e, next) -> plain e.
Proof.
  unfold flush.
  destruct (map_result (adapt_record E) pending) as [ps|e'] eqn:Hps.
  - apply plain_insert_rows.
  - intros [= <- _]. exact (plain_map_result _ _ _ (plain_adapt_record E) Hps).
Qed.

Lemma raises_check_active : raises plain check_active.
Proof.
  intros w e. unfold check_active.
  destruct (inactive w); simpl; [intros [= <-]; exact I | discriminate].
Qed.

Lemma raises_session_commit (E : Env) : raises plain (session_commit E).
Proof.
  intros w e. unfold session_commit.
  destruct (inactive w); simpl; [intros [= <-]; exact I|].
  destruct (flush E (next_id w) (db_now w) (session w)) as [[rows|e'] next] eqn:Hf; simpl;
    [discriminate|].
  intros [= <-]. exact (plain_flush _ _ _ _ _ _ Hf).
Qed.

Lemma plain_adapt_in_list (E : Env) (categories : list json) (e : exn) :
  adapt_in_list E categories = Raise e -> plain e.
Proof.
  unfold adapt_in_list. destruct (forallb str_or_null categories).
  - apply plain_map_result. intros v e'.
    destruct v; simpl; try discriminate.
    destruct (adapt_str s) as [s'|e0] eqn:Hs; simpl; [discriminate|].
    intros [= <-]. exact (plain_adapt_str _ _ Hs).
  - destruct (in_list_of E categories); [intros [= <-]; exact I | discriminate].
Qed.

Lemma raises_query_filtered (E : Env) (m : string) (categories : list json) :
  raises plain (query_filtered E m categories).
Proof.
  unfold query_filtered.
  apply raises_bind; [apply raises_emit | intros _].
  apply raises_bind; [apply raises_check_active | intros _].
  apply raises_bind; [apply raises_lift, plain_adapt_str | intros m'].
  apply raises_bind; [apply raises_lift, plain_adapt_in_list | intros texts].
  intros w e H. discriminate.
Qed.

Lemma raises_plain_store_new_data_in_db (E : Env) (extracted_data : json) (m : string) :
  raises plain (store_new_data_in_db E extracted_data m).
Proof.
  unfold store_new_data_in_db.
  apply raises_bind; [apply raises_lift, plain_py_iter | intros items].
  apply raises_bind.
  - apply raises_for_each. intros dp. unfold store_data_point.
    apply raises_bind; [apply raises_lift, plain_py_contains | intros has_category].
    apply raises_bind.
    { destruct has_category; [apply raises_lift, plain_py_contains | apply raises_ret]. }
    intros [|]; [|apply raises_ret].
    apply raises_bind; [apply raises_lift, plain_py_getitem | intros c].
    apply raises_bind; [apply raises_lift, plain_py_getitem | intros v].
    apply raises_bind; [apply raises_lift, plain_py_float | intros f].
    intros w e H. discriminate.
  - intros _. apply raises_session_commit.
Qed.

Lemma raises_plain_get_validated_insights (E : Env) (initial_insights : json) :
  raises plain (get_validated_insights E initial_insights).
Proof.
  unfold get_validated_insights.
  apply raises_bind; [apply raises_lift, plain_py_get | intros extracted_data].
  destruct (negb (py_truthy extracted_data)); [apply raises_ret|].
  apply raises_bind; [apply raises_lift, plain_py_iter | intros items].
  apply raises_bind; [apply raises_lift, plain_category_values | intros categories].
  destruct categories as [|c cs]; [apply raises_ret|].
  apply raises_bind; [apply raises_query_filtered|].
  intros records. destruct records as [|r rs].
  - apply raises_bind; [apply raises_plain_store_new_data_in_db | intros _].
    apply raises_ret.
  - apply raises_try_except. intros e.
    apply raises_bind; [apply raises_emit | intros _].
    apply raises_bind; [apply raises_plain_store_new_data_in_db | intros _].
    apply raises_ret.
Qed.

Lemma raises_with_db {A} (P : exn -> Prop) (endpoint : M A) :
  raises P endpoint -> raises P (with_db endpoint).
Proof.
  intros He w e. unfold with_db. specialize (He (with_session w [])).
  destruct (endpoint (with_session w [])) as [r w']. exact (He e).
Qed.

Lemma returns_with_db {A} (P : A -> Prop) (endpoint : M A) :
  returns P endpoint -> returns P (with_db endpoint).
Proof.
  intros He w a. unfold with_db. specialize (He (with_session w [])).
  destruct (endpoint (with_session w [])) as [r w']. exact (He a).
Qed.

Lemma raises_analysis (E : Env) (image : Image) :
  raises client_or_server_error
    (raw <- analyze_graph_with_gemini E image ;;
     initial <- parse_initial E raw ;;
     validated <- get_validated_insights E initial ;;
     lift (InsightResponse E validated)).
Proof.
  apply raises_bind.
  { unfold analyze_graph_with_gemini. apply raises_try_except. intros e.
    apply raises_raise. now right. }
  intros raw. apply raises_bind.
  { unfold parse_initial. destruct (json_loads E raw);
      [apply raises_raise; now right | apply raises_ret]. }
  intros initial. apply raises_bind.
  { apply (raises_weaken plain); [|apply raises_plain_get_validated_insights].
    intros [c msg | code detail]; simpl; tauto. }
  intros validated. apply raises_lift. intros e H.
  destruct (InsightResponse_raises E validated e H) as (c & msg & ->). exact I.
Qed.

Lemma raises_endpoint_of (E : Env) (req : request) :
  is_analyze req = true -> raises client_or_server_error (endpoint_of E req).
Proof.
  destruct req as [ct content | image_data | | ]; simpl; try discriminate; intros _.
  - apply raises_with_db.
    unfold analyze_uploaded_graph, analyze_uploaded_graph_with.
    destruct ct as [ct|]; [|now apply raises_raise].
    destruct (negb (prefix "image/" ct)); [apply raises_raise; now left|].
    cbv zeta. apply raises_bind; [|intros image; apply raises_analysis].
    destruct (image_open E content); [apply raises_raise; now left | apply raises_ret].
  - apply raises_with_db.
    unfold analyze_screen_capture, analyze_screen_capture_with.
    apply raises_bind; [|intros image; apply raises_analysis].
    apply raises_try_except. intros e. apply raises_raise. now left.
Qed.

(* ================================================================= *)
(** ** What the API answers *)

(** X4. The status codes of an analysis: a request that reached an
    analyze endpoint (an upload with its file part, a screen capture
    whose [image_data] is a string) is answered with status 200, 400 or
    500 and nothing else, under any behaviour of the collaborators. *)
Theorem api_status_codes (E : Env) (req : request) (w : world) :
  is_analyze req = true ->
  status (fst (app E req w)) = 200 \/
  status (fst (app E req w)) = 400 \/
  status (fst (app E req w)) = 500.
Proof.
  intros Hreq.
  unfold app. pose proof (raises_endpoint_of E req Hreq w) as H.
  destruct (endpoint_of E req w) as [[v|e] w']; simpl in *; [auto|].
  specialize (H e eq_refl).
  destruct e as [c msg | code detail]; simpl in *; [auto|].
  destruct H as [-> | ->]; auto.
Qed.

Lemma api_status_codes_witness :
  status (fst (app (fake_env (inr "initial") (inr "malformed")
                      (sample_parse (JObj (insight_record jan_feb))))
                   (PostAnalyzeUpload (Some "image/png") "PNG") store_with_jan)) = 200 \/
  status (fst (app (fake_env (inr "initial") (inr "malformed")
                      (sample_parse (JObj (insight_record jan_feb))))
                   (PostAnalyzeUpload (Some "image/png") "PNG") store_with_jan)) = 400 \/
  status (fst (app (fake_env (inr "initial") (inr "malformed")
                      (sample_parse (JObj (insight_record jan_feb))))
                   (PostAnalyzeUpload (Some "image/png") "PNG") store_with_jan)) = 500.
Proof.
  apply (api_status_codes
           (fake_env (inr "initial") (inr "malformed")
              (sample_parse (JObj (insight_record jan_feb))))
           (PostAnalyzeUpload (Some "image/png") "PNG") store_with_jan).
  reflexivity.
Defined.

Lemma map_result_names (E : Env) (fields : list (string * json))
    (l : list (string * field_type)) (checked : list (string * json)) :
  map_result (validate_field E fields) l = Ok checked -> map fst checked = map fst l.
Proof.
  revert checked. induction l as [|f l IH]; simpl; intros checked H.
  - injection H as <-. reflexivity.
  - unfold validate_field at 1 in H.
    destruct (lookup (fst f) fields) as [x|]; [|discriminate].
    destruct (pydantic_validate E (snd f) x) as [x'|]; [|discriminate].
    simpl in H.
    destruct (map_result (validate_field E fields) l) as [rest|e]; [|discriminate].
    simpl in H. injection H as <-. simpl. now rewrite (IH rest eq_refl).
Qed.

Lemma returns_analysis (E : Env) (P : json -> Prop) (image : Image) :
  (forall validated body, InsightResponse E validated = Ok body -> P body) ->
  returns P
    (raw <- analyze_graph_with_gemini E image ;;
     initial <- parse_initial E raw ;;
     validated <- get_validated_insights E initial ;;
     lift (InsightResponse E validated)).
Proof.
  intros HP. repeat (apply returns_bind; intro).
  apply returns_lift. intros body. apply HP.
Qed.

(** X5. A successful analysis always has the shape of the response
    model: when an analyze endpoint answers 200, the body is an object
    with exactly the six fields [chart_type], [summary], [trends],
    [anomalies], [recommendations] and [extracted_data], in this order;
    any other key of the validator's result is dropped. *)
Theorem analyze_success_shape (E : Env) (req : request) (w : world) :
  is_analyze req = true ->
  status (fst (app E req w)) = 200 ->
  exists fields,
    body (fst (app E req w)) = JObj fields /\
    map fst fields =
      ["chart_type"; "summary"; "trends"; "anomalies"; "recommendations";
       "extracted_data"].
Proof.
  intros Hreq Hstatus.
  set (P := fun b : json =>
    exists fields, b = JObj fields /\
      map fst fields = ["chart_type"; "summary"; "trends"; "anomalies";
                        "recommendations"; "extracted_data"]).
  assert (forall validated b, InsightResponse E validated = Ok b -> P b) as Hshape.
  { intros validated b H. destruct validated; try discriminate.
    unfold InsightResponse in H.
    destruct (map_result (validate_field E fields) InsightResponse_fields)
      as [checked|e] eqn:Hm; [|discriminate].
    injection H as <-. exists checked. split; [reflexivity|].
    exact (map_result_names E fields _ checked Hm). }
  assert (returns P (endpoint_of E req)) as Hret.
  { destruct req as [ct content | image_data | | ]; try discriminate; simpl.
    - apply returns_with_db.
      unfold analyze_uploaded_graph, analyze_uploaded_graph_with.
      destruct ct as [ct|]; [|apply returns_raise].
      destruct (negb (prefix "image/" ct)); [apply returns_raise|].
      cbv zeta. apply returns_bind. intros image. now apply returns_analysis.
    - apply returns_with_db.
      unfold analyze_screen_capture, analyze_screen_capture_with.
      apply returns_bind. intros image. now apply returns_analysis. }
  unfold app in *. pose proof (raises_endpoint_of E req Hreq w) as Hraise.
  specialize (Hret w).
  destruct (endpoint_of E req w) as [[v|e] w']; simpl in *.
  - now apply Hret.
  - pose proof (Hraise e eq_refl) as He.
    destruct e as [c msg | code detail]; simpl in *; [discriminate|].
    destruct He as [-> | ->]; discriminate.
Qed.

Lemma analyze_success_shape_witness :
  exists fields,
    body (fst (app (fake_env (inr "initial") (inr "refined")
                      (sample_parse (JObj (("note", JStr "extra") :: insight_record jan_feb))))
                   (PostAnalyzeUpload (Some "image/png") "PNG") empty_store))
      = JObj fields /\
    map fst fields =
      ["chart_type"; "summary"; "trends"; "anomalies"; "recommendations";
       "extracted_data"].
Proof.
  apply (analyze_success_shape
           (fake_env (inr "initial") (inr "refined")
              (sample_parse (JObj (("note", JStr "extra") :: insight_record jan_feb))))
           (PostAnalyzeUpload (Some "image/png") "PNG") empty_store);
    vm_compute; reflexivity.
Defined.

Lemma returns_bind_assoc {A B C} (P : C -> Prop) (m : M A) (f : A -> M B)
    (g : B -> M C) :
  returns P (bind m (fun x => bind (f x) g)) -> returns P (bind (bind m f) g).
Proof.
  intros H w c. specialize (H w c). unfold bind in *.
  destruct (m w) as [[a|e] w']; simpl in *; exact H.
Qed.

(** X6. The validator invents nothing: whenever it returns, the value
    is the record it was given, or what [json.loads] made of the text
    the second Gateway call answered. *)
Theorem validator_returns_initial_or_parsed (E : Env) (initial_insights v : json)
    (w : world) :
  fst (get_validated_insights E initial_insights w) = Ok v ->
  v = initial_insights \/
  exists prompt text,
    generate_content E "gemini-pro" prompt = inr text /\ json_loads E text = inr v.
Proof.
  revert w v.
  change (returns (initial_or_parsed E initial_insights)
            (get_validated_insights E initial_insights)).
  unfold get_validated_insights.
  apply returns_bind. intros extracted_data.
  destruct (negb (py_truthy extracted_data)); [apply returns_ret; now left|].
  apply returns_bind. intros items.
  apply returns_bind. intros categories.
  destruct categories as [|c cs]; [apply returns_ret; now left|].
  apply returns_bind. intros records.
  destruct records as [|r rs].
  - apply returns_bind. intros _. apply returns_ret. now left.
  - apply returns_try_except.
    + unfold gateway_text. apply returns_bind_assoc. apply returns_bind. intros _.
      match goal with |- context [generate_content E _ ?p] => set (prompt := p) end.
      destruct (generate_content E "gemini-pro" prompt) as [msg|text] eqn:Hg.
      * intros w v H. unfold bind, raise in H. simpl in H. discriminate.
      * rewrite bind_ret. unfold loads.
        destruct (json_loads E text) as [msg|final] eqn:Hl.
        -- intros w v H. unfold bind, raise in H. simpl in H. discriminate.
        -- rewrite bind_ret. apply returns_bind. intros _.
           apply returns_ret. right. now exists prompt, text.
    + intros e. apply returns_bind. intros _.
      apply returns_bind. intros _. apply returns_ret. now left.
Qed.

Lemma validator_returns_initial_or_parsed_witness :
  refined_record = JObj (insight_record jan_feb) \/
  exists prompt text,
    generate_content (fake_env (inr "initial") (inr "refined") (sample_parse JNull))
      "gemini-pro" prompt = inr text /\
    json_loads (fake_env (inr "initial") (inr "refined") (sample_parse JNull)) text
      = inr refined_record.
Proof.
  apply (validator_returns_initial_or_parsed
           (fake_env (inr "initial") (inr "refined") (sample_parse JNull))
           (JObj (insight_record jan_feb)) refined_record store_with_jan).
  vm_compute. reflexivity.
Defined.

(* ================================================================= *)
(** ** Counting Gateway calls *)

Lemma gateway_calls_app (evs1 evs2 : list event) :
  gateway_calls (evs1 ++ evs2) = (gateway_calls evs1 + gateway_calls evs2)%nat.
Proof. unfold gateway_calls. now rewrite filter_app, length_app. Qed.

Lemma calls_still {A} (m : M A) :
  (forall w, trace (snd (m w)) = trace w) -> calls_at_most 0 m.
Proof. intros H w. exists []. rewrite H, app_nil_r. split; [reflexivity | apply le_n]. Qed.

Lemma calls_ret {A} (a : A) : calls_at_most 0 (ret a).
Proof. now apply calls_still. Qed.

Lemma calls_raise {A} (e : exn) : calls_at_most 0 (@raise A e).
Proof. now apply calls_still. Qed.

Lemma calls_lift {A} (r : result A) : calls_at_most 0 (lift r).
Proof. now apply calls_still. Qed.

Lemma calls_emit (ev : event) :
  calls_at_most (if is_gateway_call ev then 1 else 0) (emit ev).
Proof.
  intros w. exists [ev]. split; [reflexivity|].
  unfold gateway_calls. simpl. destruct (is_gateway_call ev); simpl; lia.
Qed.

Lemma calls_weaken {A} (n n' : nat) (m : M A) :
  (n <= n')%nat -> calls_at_most n m -> calls_at_most n' m.
Proof.
  intros Hle Hm w. destruct (Hm w) as (evs & Ht & Hc). exists evs. split; [exact Ht | lia].
Qed.

Lemma calls_bind {A B} (n1 n2 : nat) (m : M A) (k : A -> M B) :
  calls_at_most n1 m -> (forall a, calls_at_most n2 (k a)) ->
  calls_at_most (n1 + n2) (bind m k).
Proof.
  intros Hm Hk w. unfold bind. destruct (Hm w) as (evs1 & Ht1 & Hc1).
  destruct (m w) as [[a|e] w']; simpl in *.
  - destruct (Hk a w') as (evs2 & Ht2 & Hc2).
    exists (evs1 ++ evs2)%list. rewrite Ht2, Ht1, app_assoc, gateway_calls_app.
    split; [reflexivity | lia].
  - exists evs1. split; [exact Ht1 | lia].
Qed.

Lemma calls_try_except {A} (n1 n2 : nat) (body : M A) (handler : exn -> M A) :
  calls_at_most n1 body -> (forall e, calls_at_most n2 (handler e)) ->
  calls_at_most (n1 + n2) (try_except body handler).
Proof.
  intros Hb Hh w. unfold try_except. destruct (Hb w) as (evs1 & Ht1 & Hc1).
  destruct (body w) as [[a|e] w']; simpl in *.
  - exists evs1. split; [exact Ht1 | lia].
  - destruct (Hh e w') as (evs2 & Ht2 & Hc2).
    exists (evs1 ++ evs2)%list. rewrite Ht2, Ht1, app_assoc, gateway_calls_app.
    split; [reflexivity | lia].
Qed.

Lemma calls_for_each {A} (body : A -> M unit) (l : list A) :
  (forall x, calls_at_most 0 (body x)) -> calls_at_most 0 (for_each body l).
Proof.
  intros Hbody. induction l as [|x l IH]; simpl.
  - apply calls_ret.
  - apply (calls_bind 0 0); [apply Hbody | intros _; exact IH].
Qed.

Lemma calls_session_add (r : new_record) : calls_at_most 0 (session_add r).
Proof.
  intros w. exists [EvAdd r]. split; [reflexivity | apply le_n].
Qed.

Lemma calls_session_commit (E : Env) : calls_at_most 0 (session_commit E).
Proof.
  intros w. exists [EvCommit]. unfold session_commit.
  destruct (inactive w); [split; [reflexivity | apply le_n]|].
  destruct (flush E (next_id w) (db_now w) (session w)) as [[rows|e] next]; split;
    try reflexivity; apply le_n.
Qed.

Lemma calls_check_active : calls_at_most 0 check_active.
Proof. apply calls_still. intros w. unfold check_active. now destruct (inactive w). Qed.

Lemma calls_store_new_data_in_db (E : Env) (extracted_data : json) (m : string) :
  calls_at_most 0 (store_new_data_in_db E extracted_data m).
Proof.
  unfold store_new_data_in_db.
  apply (calls_bind 0 0); [apply calls_lift | intros items].
  apply (calls_bind 0 0); [|intros _; apply calls_session_commit].
  apply calls_for_each. intros dp. unfold store_data_point.
  apply (calls_bind 0 0); [apply calls_lift | intros has_category].
  apply (calls_bind 0 0).
  { destruct has_category; [apply calls_lift | apply calls_ret]. }
  intros [|]; [|apply calls_ret].
  repeat (apply (calls_bind 0 0); [apply calls_lift | intro]).
  apply calls_session_add.
Qed.

Lemma calls_query_filtered (E : Env) (m : string) (categories : list json) :
  calls_at_most 0 (query_filtered E m categories).
Proof.
  unfold query_filtered.
  apply (calls_bind 0 0); [apply (calls_emit (EvQueryFiltered m categories)) | intros _].
  apply (calls_bind 0 0); [apply calls_check_active | intros _].
  apply (calls_bind 0 0); [apply calls_lift | intros m'].
  apply (calls_bind 0 0); [apply calls_lift | intros texts].
  now apply calls_still.
Qed.

Lemma calls_gateway_text (E : Env) (model prompt : string) :
  calls_at_most 1 (gateway_text E model prompt).
Proof.
  unfold gateway_text.
  apply (calls_bind 1 0); [apply (calls_emit (EvGenerate model prompt None)) | intros _].
  destruct (generate_content E model prompt); [apply calls_raise | apply calls_ret].
Qed.

Lemma calls_get_validated_insights (E : Env) (initial_insights : json) :
  calls_at_most 1 (get_validated_insights E initial_insights).
Proof.
  unfold get_validated_insights.
  apply (calls_bind 0 1); [apply calls_lift | intros extracted_data].
  destruct (negb (py_truthy extracted_data));
    [apply (calls_weaken 0); [lia | apply calls_ret]|].
  apply (calls_bind 0 1); [apply calls_lift | intros items].
  apply (calls_bind 0 1); [apply calls_lift | intros categories].
  destruct categories as [|c cs]; [apply (calls_weaken 0); [lia | apply calls_ret]|].
  apply (calls_bind 0 1); [apply calls_query_filtered | intros records].
  destruct records as [|r rs].
  - apply (calls_weaken 0); [lia|].
    apply (calls_bind 0 0); [apply calls_store_new_data_in_db | intros _; apply calls_ret].
  - apply (calls_try_except 1 0).
    + apply (calls_bind 1 0); [apply calls_gateway_text | intros text].
      apply (calls_bind 0 0).
      { unfold loads. destruct (json_loads E text); [apply calls_raise | apply calls_ret]. }
      intros final.
      apply (calls_bind 0 0); [apply calls_store_new_data_in_db | intros _; apply calls_ret].
    + intros e.
      apply (calls_bind 0 0); [apply (calls_emit (EvPrint _)) | intros _].
      apply (calls_bind 0 0); [apply calls_store_new_data_in_db | intros _; apply calls_ret].
Qed.

Lemma calls_analysis (E : Env) (image : Image) :
  calls_at_most 2
    (raw <- analyze_graph_with_gemini E image ;;
     initial <- parse_initial E raw ;;
     validated <- get_validated_insights E initial ;;
     lift (InsightResponse E validated)).
Proof.
  apply (calls_bind 1 1).
  { unfold analyze_graph_with_gemini. apply (calls_try_except 1 0).
    - unfold gateway_vision.
      apply (calls_bind 1 0); [apply (calls_emit (EvGenerate _ _ _)) | intros _].
      destruct (generate_content_async E _ _ image); [apply calls_raise | apply calls_ret].
    - intros e. apply calls_raise. }
  intros raw. apply (calls_bind 0 1).
  { unfold parse_initial. destruct (json_loads E raw); [apply calls_raise | apply calls_ret]. }
  intros initial. apply (calls_bind 1 0); [apply calls_get_validated_insights | intros v].
  apply calls_lift.
Qed.

Lemma calls_with_db {A} (n : nat) (endpoint : M A) :
  calls_at_most n endpoint -> calls_at_most n (with_db endpoint).
Proof.
  intros He w. unfold with_db. specialize (He (with_session w [])).
  destruct (endpoint (with_session w [])) as [r w']. exact He.
Qed.

(** X7. No retry, no fan-out: for every input and every behaviour of
    the collaborators, one run of the validator adds events to the
    trace and calls the Gateway at most once. *)
Theorem validator_calls_gateway_at_most_once (E : Env) (initial_insights : json)
    (w : world) :
  exists evs,
    trace (snd (get_validated_insights E initial_insights w)) = (trace w ++ evs)%list /\
    (gateway_calls evs <= 1)%nat.
Proof. apply calls_get_validated_insights. Qed.

(** X8. Whatever the Gateway answers, a request to an analyze endpoint
    calls it at most twice (the extraction, then at most one
    validation), and the history listing and the root endpoint never
    call it. *)
Theorem request_gateway_budget (E : Env) (req : request) (w : world) :
  exists evs,
    trace (snd (app E req w)) = (trace w ++ evs)%list /\
    (gateway_calls evs <= 2)%nat /\
    (is_analyze req = false -> gateway_calls evs = 0%nat).
Proof.
  assert (calls_at_most (if is_analyze req then 2 else 0) (endpoint_of E req)) as H.
  { destruct req as [ct content | image_data | | ]; simpl.
    - apply calls_with_db.
      unfold analyze_uploaded_graph, analyze_uploaded_graph_with.
      destruct ct as [ct|]; [|apply (calls_weaken 0); [lia | apply calls_raise]].
      destruct (negb (prefix "image/" ct));
        [apply (calls_weaken 0); [lia | apply calls_raise]|].
      cbv zeta. apply (calls_bind 0 2); [|intros image; apply calls_analysis].
      destruct (image_open E content); [apply calls_raise | apply calls_ret].
    - apply calls_with_db.
      unfold analyze_screen_capture, analyze_screen_capture_with.
      apply (calls_bind 0 2); [|intros image; apply calls_analysis].
      apply (calls_try_except 0 0); [apply calls_lift | intros e; apply calls_raise].
    - apply calls_with_db. unfold get_historical_data, query_recent.
      apply (calls_bind 0 0); [|intros records; apply calls_ret].
      apply (calls_bind 0 0); [apply (calls_emit EvQueryRecent) | intros _].
      apply (calls_bind 0 0); [apply calls_check_active | intros _].
      now apply calls_still.
    - apply calls_ret. }
  unfold app. destruct (H w) as (evs & Ht & Hc).
  destruct (endpoint_of E req w) as [r w']. simpl in *.
  exists evs. split; [exact Ht|].
  destruct (is_analyze req); split; try lia; discriminate.
Qed.

(* ================================================================= *)
(** ** Rejected input *)


(** X9. The upload endpoint turns away what does not declare an image
    before doing anything else: when the part declares a content type
    that does not start with [image/], or its bytes do not open as an
    image, the answer is 400; when the part declares no content type at
    all, the test itself fails and the answer is 500. In each case the
    request has called no Gateway and touched no table (the world is as
    before, with a closed session). *)
Theorem upload_rejects_non_images (E : Env) (ct : option string) (content : string)
    (w : world) :
  match ct with
  | Some declared =>
      prefix "image/" declared = false \/ (exists msg, image_open E content = inl msg)
  | None => True
  end ->
  exists answer,
    app E (PostAnalyzeUpload ct content) w = (answer, with_session w []) /\
    match ct with
    | Some _ => exists detail, answer = bad_request detail
    | None => answer = {| status := 500; body := JStr "Internal Server Error" |}
    end.
Proof.
  intros Hbad.
  unfold app, endpoint_of, with_db, analyze_uploaded_graph, analyze_uploaded_graph_with.
  destruct ct as [declared|].
  - destruct (prefix "image/" declared) eqn:Hct; cbn [negb].
    + destruct Hbad as [Hfalse | [msg Himg]]; [discriminate|].
      cbv zeta. rewrite Himg.
      eexists. split; [reflexivity|]. now exists ("Invalid image format: " ++ msg).
    + eexists. split; [reflexivity|]. now exists "File provided is not an image.".
  - eexists. split; reflexivity.
Qed.

Lemma upload_rejects_non_images_witness :
  exists answer,
    app (fake_env (inr "initial") (inr "refined") (sample_parse JNull))
        (PostAnalyzeUpload (Some "application/pdf") "%PDF-1.7") store_with_jan =
      (answer, with_session store_with_jan []) /\
    exists detail, answer = bad_request detail.
Proof.
  apply (upload_rejects_non_images
           (fake_env (inr "initial") (inr "refined") (sample_parse JNull))
           (Some "application/pdf") "%PDF-1.7" store_with_jan).
  left. reflexivity.
Defined.

Lemma split_comma_no_comma (s : string) :
  has_comma s = false -> split_comma s = [s].
Proof.
  unfold has_comma. induction s as [|c s IH]; simpl; [reflexivity|].
  destruct (Ascii.eqb c ","); simpl; [discriminate|].
  intros H. now rewrite (IH H).
Qed.

Lemma split_comma_header (header rest : string) :
  has_comma header = false ->
  split_comma (header ++ "," ++ rest) = header :: split_comma rest.
Proof.
  unfold has_comma. induction header as [|c header IH]; simpl; [reflexivity|].
  destruct (Ascii.eqb c ","); simpl; [discriminate|].
  intros H. simpl in IH. now rewrite (IH H).
Qed.

(** X10. The screen-capture endpoint needs the comma of a data URL: an
    [image_data] without a comma (a bare base64 payload, say), and any
    [image_data] whose payload does not decode to an image, is answered
    with 400, and the request has called no Gateway and touched no
    table. *)
Theorem screencap_rejects_undecodable (E : Env) (image_data : string) (w : world) :
  has_comma image_data = false \/ is_ok (decode_screen_capture E image_data) = false ->
  exists detail,
    app E (PostAnalyzeScreencap image_data) w =
      (bad_request detail, with_session w []).
Proof.
  intros Hbad.
  assert (exists e, decode_screen_capture E image_data = Raise e) as [e He].
  { destruct Hbad as [Hcomma | Hdec].
    - unfold decode_screen_capture. rewrite (split_comma_no_comma _ Hcomma). simpl.
      eauto.
    - destruct (decode_screen_capture E image_data) as [img|e]; [discriminate | eauto]. }
  exists ("Invalid image data: " ++ exn_str e).
  unfold app, endpoint_of, with_db, analyze_screen_capture, analyze_screen_capture_with.
  rewrite He. reflexivity.
Qed.

Lemma screencap_rejects_undecodable_witness :
  exists detail,
    app (fake_env (inr "initial") (inr "refined") (sample_parse JNull))
        (PostAnalyzeScreencap "iVBORw0KGgo=") store_with_jan =
      (bad_request detail, with_session store_with_jan []).
Proof.
  apply (screencap_rejects_undecodable
           (fake_env (inr "initial") (inr "refined") (sample_parse JNull))
           "iVBORw0KGgo=" store_with_jan).
  left. reflexivity.
Defined.

(** X11. The screen-capture endpoint never reads the header of the
    data URL: two values of [image_data] that differ only before the
    first comma decode to the same image or fail alike, so the media
    type the header announces is not checked. *)
Theorem screencap_ignores_header (E : Env) (header1 header2 rest : string) :
  has_comma header1 = false ->
  has_comma header2 = false ->
  decode_screen_capture E (header1 ++ "," ++ rest) =
  decode_screen_capture E (header2 ++ "," ++ rest).
Proof.
  intros H1 H2. unfold decode_screen_capture.
  now rewrite (split_comma_header header1 rest H1), (split_comma_header header2 rest H2).
Qed.

Lemma screencap_ignores_header_witness :
  decode_screen_capture (fake_env (inr "initial") (inr "refined") (sample_parse JNull))
    ("data:image/png;base64" ++ "," ++ "iVBORw0KGgo=") =
  decode_screen_capture (fake_env (inr "initial") (inr "refined") (sample_parse JNull))
    ("data:text/plain" ++ "," ++ "iVBORw0KGgo=").
Proof.
  apply (screencap_ignores_header
           (fake_env (inr "initial") (inr "refined") (sample_parse JNull))
           "data:image/png;base64" "data:text/plain" "iVBORw0KGgo="); reflexivity.
Defined.

(* ================================================================= *)
(** ** Extractions of another shape *)

Lemma py_iter_of_non_list (v : json) (items : list json) :
  is_list v = false -> py_iter v = Ok items ->
  Forall (fun item => exists s, item = JStr s) items.
Proof.
  destruct v; simpl; try discriminate; intros _ H; injection H as <-.
  - induction (py_chars s); simpl; constructor; eauto.
  - induction fields; simpl; constructor; eauto.
Qed.

(** Strings never yield a category: [in] may hold of a string, but a
    string has no [get]. *)
Lemma category_values_of_strings (items : list json) :
  Forall (fun item => exists s, item = JStr s) items ->
  forall cs, category_values items = Ok cs -> cs = [].
Proof.
  induction 1 as [|item items [s ->] _ IH]; simpl; intros cs H.
  - now injection H as <-.
  - destruct (is_substring "category" s); simpl in H; [discriminate | now apply IH].
Qed.

(** X12. When [extracted_data] is missing or is anything but a list (a
    single data point given as an object, a string, a number, [null]),
    the validator never reaches the store or the Gateway: the world is
    exactly as before, and if the validator returns at all it returns
    the record it was given. *)
Theorem validator_needs_a_list (E : Env) (fields : list (string * json)) (w : world) :
  (forall items, lookup "extracted_data" fields <> Some (JArr items)) ->
  snd (get_validated_insights E (JObj fields) w) = w /\
  (forall v, fst (get_validated_insights E (JObj fields) w) = Ok v -> v = JObj fields).
Proof.
  intros Hshape. unfold get_validated_insights.
  rewrite bind_lift. simpl py_get. cbv iota.
  destruct (lookup "extracted_data" fields) as [x|] eqn:Hx;
    [|split; [reflexivity | intros v H; now injection H as <-]].
  assert (is_list x = false) as Hlist.
  { destruct x; try reflexivity. now destruct (Hshape items). }
  destruct (negb (py_truthy x));
    [split; [reflexivity | intros v H; now injection H as <-]|].
  rewrite bind_lift.
  destruct (py_iter x) as [items|e] eqn:Hiter; [|split; [reflexivity | discriminate]].
  rewrite bind_lift.
  destruct (category_values items) as [cs|e] eqn:Hcs; [|split; [reflexivity | discriminate]].
  rewrite (category_values_of_strings items (py_iter_of_non_list x items Hlist Hiter) cs Hcs).
  split; [reflexivity | intros v H; now injection H as <-].
Qed.

Lemma validator_needs_a_list_witness :
  snd (get_validated_insights
         (fake_env (inr "initial") (inr "refined") (sample_parse JNull))
         (JObj [("summary", JStr "one point"); ("extracted_data", data_point "Jan" 150)])
         store_with_jan) = store_with_jan /\
  (forall v,
      fst (get_validated_insights
             (fake_env (inr "initial") (inr "refined") (sample_parse JNull))
             (JObj [("summary", JStr "one point"); ("extracted_data", data_point "Jan" 150)])
             store_with_jan) = Ok v ->
      v = JObj [("summary", JStr "one point"); ("extracted_data", data_point "Jan" 150)]).
Proof.
  apply (validator_needs_a_list
           (fake_env (inr "initial") (inr "refined") (sample_parse JNull))
           [("summary", JStr "one point"); ("extracted_data", data_point "Jan" 150)]
           store_with_jan).
  intros items. discriminate.
Defined.

(** X13. An extraction that parses as JSON but is not an object (a
    list, a string, a number, [null]) is an internal server error: the
    upload endpoint answers 500 after its one Gateway call, and the
    store is not touched. *)
Theorem non_object_extraction_is_fatal (E : Env) (ct content raw : string)
    (image : Image) (v : json) (w : world) :
  prefix "image/" ct = true ->
  image_open E content = inr image ->
  generate_content_async E "gemini-pro-vision" analysis_prompt image = inr raw ->
  json_loads E raw = inr v ->
  is_object v = false ->
  app E (PostAnalyzeUpload (Some ct) content) w =
    ({| status := 500; body := JStr "Internal Server Error" |},
     after_extraction_call w image).
Proof.
  intros Hct Himg Hvision Hraw Hobj.
  unfold app, endpoint_of, with_db, analyze_uploaded_graph, analyze_uploaded_graph_with.
  rewrite Hct. cbn [negb]. cbv zeta. rewrite Himg, bind_ret.
  unfold bind at 1, analyze_graph_with_gemini, try_except.
  rewrite gateway_vision_run, Hvision.
  unfold bind at 1, parse_initial. rewrite Hraw. unfold ret at 1.
  unfold bind at 1, get_validated_insights. rewrite bind_lift.
  destruct v; try discriminate; reflexivity.
Qed.

Lemma non_object_extraction_is_fatal_witness :
  app (fake_env (inr "initial") (inr "refined") (sample_parse (JArr jan_feb)))
      (PostAnalyzeUpload (Some "image/png") "PNG") store_with_jan =
    ({| status := 500; body := JStr "Internal Server Error" |},
     after_extraction_call store_with_jan (PILImage "PNG")).
Proof.
  apply (non_object_extraction_is_fatal
           (fake_env (inr "initial") (inr "refined") (sample_parse (JArr jan_feb)))
           "image/png" "PNG" "initial" (PILImage "PNG") (JArr jan_feb) store_with_jan);
    reflexivity.
Defined.

(* ================================================================= *)
(** ** Submitting the same data again *)

Lemma stored_from_same_content (E : Env) (m : string) (now1 now2 : datetime)
    (dps : list json) (rows1 : list row) :
  Forall2 (stored_from E m now1) dps rows1 ->
  forall rows2,
    Forall2 (stored_from E m now2) dps rows2 ->
    map GraphDataHistory.category rows1 = map GraphDataHistory.category rows2 /\
    map GraphDataHistory.value rows1 = map GraphDataHistory.value rows2.
Proof.
  induction 1 as [|dp r1 dps rows1 H1 _ IH]; intros rows2 H2; inversion H2; subst.
  - split; reflexivity.
  - match goal with Hr : stored_from _ _ _ dp ?r2, Hrest : Forall2 _ dps ?l2 |- _ =>
      destruct (IH l2 Hrest) as [IHc IHv];
      destruct H1 as (f1 & v1 & x1 & Hdp1 & Hc1 & Hv1 & Hf1 & Hn1 & _);
      destruct Hr as (f2 & v2 & x2 & Hdp2 & Hc2 & Hv2 & Hf2 & Hn2 & _)
    end.
    subst dp. injection Hdp2 as <-.
    rewrite Hc1 in Hc2. injection Hc2 as Hc.
    rewrite Hv1 in Hv2. injection Hv2 as <-.
    rewrite Hf1 in Hf2. injection Hf2 as <-.
    simpl. now rewrite Hc, Hn1, Hn2, IHc, IHv.
Qed.

(** X14. Nothing is deduplicated or upserted: storing the same data
    points (categories and metric name the [String(255)] columns take,
    values [float()] accepts) in two requests leaves the rows of the
    first request in place and appends a second copy, with the same
    categories and values in the same order. *)
Theorem storing_twice_duplicates (E : Env) (items : list json) (m : string) (w : world) :
  forallb (persistable E) items = true ->
  storable 255 m = true ->
  exists w1 w2 rows1 rows2,
    store_new_data_in_db E (JArr items) m (with_session w []) = (Ok tt, w1) /\
    store_new_data_in_db E (JArr items) m (with_session w1 []) = (Ok tt, w2) /\
    table w2 = (table w ++ rows1 ++ rows2)%list /\
    List.length rows1 = List.length (filter both_keys items) /\
    map GraphDataHistory.category rows2 = map GraphDataHistory.category rows1 /\
    map GraphDataHistory.value rows2 = map GraphDataHistory.value rows1.
Proof.
  intros Hp Hm.
  destruct (store_new_data_in_db_persistable E m items (with_session w []) Hm Hp
              eq_refl eq_refl)
    as (added1 & rows1 & Hrun1 & Hrows1 & _).
  set (w1 := after_store (with_session w []) added1 rows1) in *.
  destruct (store_new_data_in_db_persistable E m items (with_session w1 []) Hm Hp
              eq_refl eq_refl)
    as (added2 & rows2 & Hrun2 & Hrows2 & _).
  exists w1, (after_store (with_session w1 []) added2 rows2), rows1, rows2.
  destruct (stored_from_same_content E m _ _ _ _ Hrows1 _ Hrows2) as [Hc Hv].
  repeat split; auto.
  - simpl. now rewrite app_assoc.
  - symmetry. exact (Forall2_length Hrows1).
Qed.

Lemma storing_twice_duplicates_witness :
  exists w1 w2 rows1 rows2,
    store_new_data_in_db (fake_env (inr "initial") (inr "refined") (sample_parse JNull))
      (JArr jan_feb) "general_metric" (with_session empty_store []) = (Ok tt, w1) /\
    store_new_data_in_db (fake_env (inr "initial") (inr "refined") (sample_parse JNull))
      (JArr jan_feb) "general_metric" (with_session w1 []) = (Ok tt, w2) /\
    table w2 = (table empty_store ++ rows1 ++ rows2)%list /\
    List.length rows1 = List.length (filter both_keys jan_feb) /\
    map GraphDataHistory.category rows2 = map GraphDataHistory.category rows1 /\
    map GraphDataHistory.value rows2 = map GraphDataHistory.value rows1.
Proof.
  apply (storing_twice_duplicates
           (fake_env (inr "initial") (inr "refined") (sample_parse JNull))
           jan_feb "general_metric" empty_store); reflexivity.
Defined.

Lemma in_categories_of (items : list json) (fields : list (string * json)) (c : string) :
  In (JObj fields) items ->
  lookup "category" fields = Some (JStr c) ->
  In c (categories_of items).
Proof.
  intros Hin Hc. unfold categories_of. apply in_flat_map.
  exists (JObj fields). split; [exact Hin|]. rewrite Hc. now left.
Qed.

Lemma matching_rows_grows (w w' : world) (items : list json) (rows : list row) :
  table w' = (table w ++ rows)%list ->
  matching_rows w items <> [] -> matching_rows w' items <> [].
Proof.
  unfold matching_rows. intros Ht H. rewrite Ht, filter_app.
  intros Habs. apply app_eq_nil in Habs as [Habs _]. contradiction.
Qed.

Lemma Forall2_pick {A B} (R : A -> B -> Prop) (l : list A) (l' : list B) (x : A) :
  Forall2 R l l' -> In x l -> exists y, In y l' /\ R x y.
Proof.
  induction 1 as [|a b l l' Hab _ IH]; simpl; [contradiction|].
  intros [<- | Hin].
  - exists b. auto.
  - destruct (IH Hin) as (y & Hy & Hxy). exists y. auto.
Qed.

Lemma matching_rows_of_stored (E : Env) (now : datetime) (items : list json)
    (rows : list row) (w' : world) (before : list row) :
  Forall2 (stored_from E general_metric now) (filter both_keys items) rows ->
  existsb both_keys items = true ->
  table w' = (before ++ rows)%list ->
  matching_rows w' items <> [].
Proof.
  intros Hrows Hex Htable.
  apply existsb_exists in Hex as (dp & Hin & Hboth).
  assert (In dp (filter both_keys items)) as Hdp by (apply filter_In; auto).
  destruct (Forall2_pick _ _ _ _ Hrows Hdp) as (r & Hr & Hstored).
  destruct Hstored as (fields & v & f & -> & Hc & _ & _ & _ & Hm & _).
  assert (In r (matching_rows w' items)) as Hmatch.
  { unfold matching_rows. apply filter_In. split.
    - rewrite Htable. apply in_or_app. now right.
    - rewrite Hm, String.eqb_refl. simpl. apply existsb_exists.
      exists (GraphDataHistory.category r). split; [|apply String.eqb_refl].
      exact (in_categories_of items fields _ Hin Hc). }
  intros Hnil. rewrite Hnil in Hmatch. contradiction.
Qed.

(** X15. What the helper stores is history to the validator: after the
    data points of a record (categories the [String(255)] column
    takes, values [float()] accepts) were stored under the constant
    metric name, the lookup the validator makes for the same data
    points finds rows, as soon as one data point has both keys. *)
Theorem stored_data_is_history (E : Env) (items : list json) (w : world) :
  forallb (persistable E) items = true ->
  existsb both_keys items = true ->
  exists w1,
    store_new_data_in_db E (JArr items) general_metric (with_session w []) = (Ok tt, w1) /\
    matching_rows w1 items <> [].
Proof.
  intros Hp Hex.
  destruct (store_new_data_in_db_persistable E general_metric items (with_session w [])
              general_metric_storable Hp eq_refl eq_refl)
    as (added & rows & Hrun & Hrows & _).
  eexists. split; [exact Hrun|].
  exact (matching_rows_of_stored E _ items rows
           (after_store (with_session w []) added rows) (table w) Hrows Hex eq_refl).
Qed.

Lemma stored_data_is_history_witness :
  exists w1,
    store_new_data_in_db (fake_env (inr "initial") (inr "refined") (sample_parse JNull))
      (JArr jan_feb) general_metric (with_session empty_store []) = (Ok tt, w1) /\
    matching_rows w1 jan_feb <> [].
Proof.
  apply (stored_data_is_history
           (fake_env (inr "initial") (inr "refined") (sample_parse JNull))
           jan_feb empty_store); reflexivity.
Defined.

Lemma gateway_calls_after_store (evs : list event) (added : list new_record) :
  gateway_calls (evs ++ map EvAdd added ++ [EvCommit]) = gateway_calls evs.
Proof.
  unfold gateway_calls. rewrite !filter_app, filter_gateway_adds. simpl.
  now rewrite app_nil_r.
Qed.

Lemma validation_with_history (E : Env) (fields : list (string * json))
    (items : list json) (w : world) :
  lookup "extracted_data" fields = Some (JArr items) ->
  forallb (persistable E) items = true ->
  existsb (has_key "category") items = true ->
  session w = [] ->
  inactive w = false ->
  matching_rows w items <> [] ->
  exists v w' evs,
    get_validated_insights E (JObj fields) w = (Ok v, w') /\
    trace w' = (trace w ++ evs)%list /\
    gateway_calls evs = 1%nat /\
    (v = JObj fields \/ exists text, json_loads E text = inr v).
Proof.
  intros Hx Hp Hc Hs Hi Hm.
  rewrite (validator_to_lookup E fields items w Hx Hp Hc Hi).
  destruct (matching_rows w items) as [|r rs] eqn:Hrows; [contradiction|].
  cbv zeta.
  match goal with |- context [try_except _ _ ?w1] => set (w1' := w1) end.
  match goal with |- context [gateway_text E _ ?p] => set (prompt := p) end.
  set (query := EvQueryFiltered general_metric (map JStr (categories_of items))).
  destruct (generate_content E "gemini-pro" prompt) as [msg|text] eqn:Hg.
  - destruct (second_pass_degrades E (JObj fields) items prompt w1' Hp Hs Hi)
      as (line & added & rows & Hrun & _); [left; eauto|].
    exists (JObj fields). eexists.
    exists ([query; EvGenerate "gemini-pro" prompt None; EvPrint line]
              ++ map EvAdd added ++ [EvCommit])%list.
    split; [exact Hrun|]. split; [|split; [|now left]].
    + simpl. rewrite <- !app_assoc. reflexivity.
    + now rewrite gateway_calls_after_store.
  - destruct (json_loads E text) as [msg|final] eqn:Hl.
    + destruct (second_pass_degrades E (JObj fields) items prompt w1' Hp Hs Hi)
        as (line & added & rows & Hrun & _); [right; eauto|].
      exists (JObj fields). eexists.
      exists ([query; EvGenerate "gemini-pro" prompt None; EvPrint line]
                ++ map EvAdd added ++ [EvCommit])%list.
      split; [exact Hrun|]. split; [|split; [|now left]].
      * simpl. rewrite <- !app_assoc. reflexivity.
      * now rewrite gateway_calls_after_store.
    + destruct (second_pass_refines E (JObj fields) final items prompt text w1' Hp
                  Hs Hi Hg Hl) as (added & rows & Hrun & _).
      exists final. eexists.
      exists ([query; EvGenerate "gemini-pro" prompt None]
                ++ map EvAdd added ++ [EvCommit])%list.
      split; [exact Hrun|]. split; [|split; [|right; now exists text]].
      * simpl. rewrite <- !app_assoc. reflexivity.
      * now rewrite gateway_calls_after_store.
Qed.

(** X16. With history and data points whose categories the
    [String(255)] column takes and whose values [float()] accepts,
    validation is best effort and never fatal: whatever the second
    Gateway call does (answer JSON, answer something else, raise), the
    validator returns normally, either the parsed answer or the record
    it was given, after exactly one Gateway call. *)
Theorem validation_never_fatal (E : Env) (fields : list (string * json))
    (items : list json) (w : world) :
  lookup "extracted_data" fields = Some (JArr items) ->
  forallb (persistable E) items = true ->
  existsb (has_key "category") items = true ->
  matching_rows w items <> [] ->
  exists v w' evs,
    get_validated_insights E (JObj fields) (with_session w []) = (Ok v, w') /\
    trace w' = (trace w ++ evs)%list /\
    gateway_calls evs = 1%nat /\
    (v = JObj fields \/ exists text, json_loads E text = inr v).
Proof.
  intros Hx Hp Hc Hm.
  destruct (validation_with_history E fields items (with_session w []) Hx Hp Hc eq_refl
              eq_refl Hm)
    as (v & w' & evs & Hrun & Htrace & Hcalls & Hv).
  exists v, w', evs. repeat split; assumption.
Qed.

Lemma validation_never_fatal_witness :
  exists v w' evs,
    get_validated_insights
      (fake_env (inr "initial") (inl "quota exceeded") (sample_parse JNull))
      (JObj (insight_record jan_feb)) (with_session store_with_jan []) = (Ok v, w') /\
    trace w' = (trace store_with_jan ++ evs)%list /\
    gateway_calls evs = 1%nat /\
    (v = JObj (insight_record jan_feb) \/
     exists text,
       json_loads (fake_env (inr "initial") (inl "quota exceeded") (sample_parse JNull))
         text = inr v).
Proof.
  apply (validation_never_fatal
           (fake_env (inr "initial") (inl "quota exceeded") (sample_parse JNull))
           (insight_record jan_feb) jan_feb store_with_jan); try reflexivity.
  discriminate.
Defined.

Lemma both_keys_has_category (items : list json) :
  existsb both_keys items = true -> existsb (has_key "category") items = true.
Proof.
  intros H. apply existsb_exists in H as (dp & Hin & Hboth).
  apply existsb_exists. exists dp. split; [exact Hin|].
  unfold both_keys in Hboth. now apply andb_prop in Hboth as [Hc _].
Qed.

(** X17. History builds up by itself: once a record with a complete
    data point (category and value), with categories the [String(255)]
    column takes and values [float()] accepts, has been through the
    validator, whatever came of that first run, the next run on the
    same record finds history, makes the validation call (exactly one
    Gateway call) and returns normally. *)
Theorem second_analysis_is_validated (E : Env) (fields : list (string * json))
    (items : list json) (w : world) :
  lookup "extracted_data" fields = Some (JArr items) ->
  forallb (persistable E) items = true ->
  existsb both_keys items = true ->
  exists r1 w1 v w2 evs,
    get_validated_insights E (JObj fields) (with_session w []) = (r1, w1) /\
    matching_rows w1 items <> [] /\
    get_validated_insights E (JObj fields) (with_session w1 []) = (Ok v, w2) /\
    trace w2 = (trace w1 ++ evs)%list /\
    gateway_calls evs = 1%nat.
Proof.
  intros Hx Hp Hboth.
  pose proof (both_keys_has_category items Hboth) as Hc.
  destruct (get_validated_insights E (JObj fields) (with_session w [])) as [r1 w1] eqn:Hrun1.
  assert (matching_rows w1 items <> []) as Hhistory.
  { destruct (matching_rows w items) as [|r rs] eqn:Hm.
    - rewrite (validator_to_lookup E fields items (with_session w []) Hx Hp Hc eq_refl)
        in Hrun1.
      change (matching_rows (with_session w []) items) with (matching_rows w items)
        in Hrun1.
      rewrite Hm in Hrun1. cbv zeta in Hrun1.
      match type of Hrun1 with bind _ _ ?w0 = _ => set (w0' := w0) in * end.
      destruct (store_new_data_in_db_persistable E general_metric items w0'
                  general_metric_storable Hp eq_refl eq_refl)
        as (added & rows & Hstore & Hrows & _).
      rewrite (bind_run_ok _ _ _ _ _ Hstore) in Hrun1.
      injection Hrun1 as _ <-.
      exact (matching_rows_of_stored E _ items rows (after_store w0' added rows)
               (table w) Hrows Hboth eq_refl).
    - pose proof (grows_get_validated_insights E (JObj fields) (with_session w []))
        as [rows Hrows].
      rewrite Hrun1 in Hrows. simpl in Hrows.
      apply (matching_rows_grows w w1 items rows Hrows). rewrite Hm. discriminate. }
  destruct (validation_with_history E fields items (with_session w1 []) Hx Hp Hc eq_refl
              eq_refl Hhistory) as (v & w2 & evs & Hrun2 & Htrace & Hcalls & _).
  exists r1, w1, v, w2, evs. repeat split; assumption.
Qed.

Lemma second_analysis_is_validated_witness :
  exists r1 w1 v w2 evs,
    get_validated_insights
      (fake_env (inr "initial") (inr "refined") (sample_parse JNull))
      (JObj (insight_record jan_feb)) (with_session empty_store []) = (r1, w1) /\
    matching_rows w1 jan_feb <> [] /\
    get_validated_insights
      (fake_env (inr "initial") (inr "refined") (sample_parse JNull))
      (JObj (insight_record jan_feb)) (with_session w1 []) = (Ok v, w2) /\
    trace w2 = (trace w1 ++ evs)%list /\
    gateway_calls evs = 1%nat.
Proof.
  apply (second_analysis_is_validated
           (fake_env (inr "initial") (inr "refined") (sample_parse JNull))
           (insight_record jan_feb) jan_feb empty_store); reflexivity.
Defined.


(* ================================================================= *)
(** ** The connection script *)

Ltac run_script_case :=
  unfold run_script, test_gemini_connection, test_graph_analysis, configure,
    key_missing, connection_works, gateway_text, gateway_vision, print, emit,
    try_except, bind, ret, raise, with_trace in *;
  simpl in *.

(** X18. The connection test never raises and touches no table: it
    returns [True] exactly when the key is set and not empty,
    [genai.configure] accepts it and both models answer with text, and
    [False] in every other case; without a key it calls no Gateway. *)
Theorem connection_test_verdict (E : Env) (K : TestKit) (api_key : option string)
    (w : world) :
  fst (test_gemini_connection E K api_key w) = Ok (connection_works E K api_key) /\
  table (snd (test_gemini_connection E K api_key w)) = table w /\
  (key_missing api_key = true ->
   exists evs,
     trace (snd (test_gemini_connection E K api_key w)) = (trace w ++ evs)%list /\
     gateway_calls evs = 0%nat).
Proof.
  destruct api_key as [k|].
  - destruct (String.eqb k EmptyString) eqn:Hk.
    + run_script_case. rewrite Hk. simpl. repeat split.
      intros _. eexists. rewrite <- app_assoc. split; reflexivity.
    + run_script_case. rewrite Hk. simpl.
      destruct (genai_configure K k); simpl;
        [repeat split; discriminate|].
      destruct (generate_content E _ _); simpl; [repeat split; discriminate|].
      destruct (generate_content_async E _ _ _); simpl; repeat split; discriminate.
  - run_script_case. repeat split.
    intros _. eexists. rewrite <- app_assoc. split; reflexivity.
Qed.

Ltac close_script_case :=
  eexists; split; [reflexivity|]; split; [reflexivity|];
  split; [rewrite <- ?app_assoc; reflexivity|];
  repeat split; intros; try discriminate; try reflexivity;
  unfold gateway_calls; simpl; lia.

(** X19. The script never raises and touches no table, and it runs the
    chart test only after a connection test that passed: when the
    connection works it makes three Gateway calls (text, vision,
    chart), otherwise at most the two of the connection test, and none
    at all without a key. *)
Theorem script_gates_chart_test (E : Env) (K : TestKit) (api_key : option string)
    (w : world) :
  exists evs,
    fst (run_script E K api_key w) = Ok tt /\
    table (snd (run_script E K api_key w)) = table w /\
    trace (snd (run_script E K api_key w)) = (trace w ++ evs)%list /\
    (key_missing api_key = true -> gateway_calls evs = 0%nat) /\
    (connection_works E K api_key = true -> gateway_calls evs = 3%nat) /\
    (connection_works E K api_key = false -> (gateway_calls evs <= 2)%nat).
Proof.
  destruct api_key as [k|].
  - destruct (String.eqb k EmptyString) eqn:Hk.
    + run_script_case. rewrite Hk. simpl. close_script_case.
    + run_script_case. rewrite Hk. simpl.
      destruct (genai_configure K k); simpl; [close_script_case|].
      destruct (generate_content E _ _); simpl; [close_script_case|].
      destruct (generate_content_async E _ _ _); simpl; [close_script_case|].
      destruct (chart_reply K _ _ _); simpl; close_script_case.
  - run_script_case. close_script_case.
Qed.

(* ================================================================= *)
(** ** A value that does not convert *)

Lemma category_values_typed (items : list json) :
  forallb category_typed items = true ->
  category_values items = Ok (map JStr (categories_of items)).
Proof.
  induction items as [|dp items IH]; simpl; intros H; [reflexivity|].
  apply andb_prop in H as [Hdp Hrest].
  rewrite (IH Hrest).
  destruct dp as [ | | | | | fields]; simpl in Hdp; try discriminate.
  simpl. destruct (lookup "category" fields) as [c|]; simpl; [|reflexivity].
  destruct c; simpl in Hdp; try discriminate. reflexivity.
Qed.

Lemma categories_of_typed_nonempty (items : list json) :
  forallb category_typed items = true ->
  existsb (has_key "category") items = true ->
  categories_of items <> [].
Proof.
  induction items as [|dp items IH]; simpl; intros H Hex; [discriminate|].
  apply andb_prop in H as [Hdp Hrest].
  destruct dp as [ | | | | | fields]; simpl in Hdp; try discriminate.
  simpl in Hex. destruct (lookup "category" fields) as [c|]; simpl in *.
  - destruct c; simpl in Hdp; discriminate.
  - now apply IH.
Qed.

Lemma store_data_point_typed (E : Env) (m : string) (dp : json) (w : world) :
  category_typed dp = true ->
  if unconvertible E dp
  then exists e, store_data_point E m dp w = (Raise e, w)
  else exists w', store_data_point E m dp w = (Ok tt, w').
Proof.
  destruct dp as [ | | | | | fields]; simpl; try discriminate. intros _.
  unfold store_data_point, bind, lift, ret. simpl.
  destruct (lookup "category" fields) as [c|]; simpl; [|eexists; reflexivity].
  destruct (lookup "value" fields) as [v|]; simpl; [|eexists; reflexivity].
  destruct (py_float E v) as [f|e]; simpl; eexists; reflexivity.
Qed.

Lemma for_each_unconvertible (E : Env) (m : string) (items : list json) :
  forallb category_typed items = true ->
  existsb (unconvertible E) items = true ->
  forall w, exists e w', for_each (store_data_point E m) items w = (Raise e, w').
Proof.
  induction items as [|dp items IH]; simpl; intros Ht Hex w; [discriminate|].
  apply andb_prop in Ht as [Hdp Hrest].
  pose proof (store_data_point_typed E m dp w Hdp) as Hstep.
  destruct (unconvertible E dp); simpl in Hex.
  - destruct Hstep as [e He]. exists e, w. now rewrite (bind_run_raise _ _ _ _ _ He).
  - destruct Hstep as [w' Hw']. rewrite (bind_run_ok _ _ _ _ _ Hw').
    apply (IH Hrest Hex).
Qed.

Lemma store_unconvertible (E : Env) (m : string) (items : list json) (w : world) :
  forallb category_typed items = true ->
  existsb (unconvertible E) items = true ->
  exists e w', store_new_data_in_db E (JArr items) m w = (Raise e, w').
Proof.
  intros Ht Hex. unfold store_new_data_in_db. rewrite bind_lift. simpl py_iter. cbv iota.
  destruct (for_each_unconvertible E m items Ht Hex w) as (e & w' & Hloop).
  exists e, w'. now rewrite (bind_run_raise _ _ _ _ _ Hloop).
Qed.

(** X20. One value that does not convert fails the whole analysis: if
    the data points are objects with string categories, one of them is
    categorized, and one of them has both keys and a value [float()]
    rejects, then the validator raises, with or without history and
    whatever the second Gateway call answers, and no row is written,
    not even for the data points that were fine. *)
Theorem unconvertible_value_is_fatal (E : Env) (fields : list (string * json))
    (items : list json) (w : world) :
  lookup "extracted_data" fields = Some (JArr items) ->
  forallb category_typed items = true ->
  existsb (unconvertible E) items = true ->
  exists e w',
    get_validated_insights E (JObj fields) w = (Raise e, w') /\
    table w' = table w.
Proof.
  intros Hx Ht Hex.
  assert (exists e w', get_validated_insights E (JObj fields) w = (Raise e, w'))
    as (e & w' & Hrun).
  { assert (existsb (has_key "category") items = true) as Hc.
    { apply existsb_exists in Hex as (dp & Hin & Hbad).
      apply existsb_exists. exists dp. split; [exact Hin|].
      destruct dp as [ | | | | | f]; simpl in *; try discriminate.
      now destruct (lookup "category" f). }
    unfold get_validated_insights.
    simpl py_get. rewrite Hx, bind_lift_ok.
    rewrite (categorized_nonempty items Hc).
    cbn [negb py_iter]. cbv iota.
    rewrite bind_lift_ok, (category_values_typed items Ht), bind_lift_ok.
    pose proof (categories_of_typed_nonempty items Ht Hc) as Hne.
    destruct (map JStr (categories_of items)) as [|c cs] eqn:Hcs.
    { destruct (categories_of items); [contradiction | discriminate]. }
    rewrite <- Hcs.
    destruct (query_filtered E general_metric (map JStr (categories_of items)) w)
      as [[records|e0] w0] eqn:Hquery;
      [|exists e0, w0; now rewrite (bind_run_raise _ _ _ _ _ Hquery)].
    rewrite (bind_run_ok _ _ _ _ _ Hquery).
    destruct records as [|r rs].
    - match goal with |- context [bind _ _ ?w1] =>
        destruct (store_unconvertible E general_metric items w1 Ht Hex) as (e & w' & Hs)
      end.
      exists e, w'. now rewrite (bind_run_raise _ _ _ _ _ Hs).
    - unfold try_except.
      match goal with |- context [match ?body ?w1 with _ => _ end] =>
        destruct (body w1) as [[v|e0] w2] eqn:Hbody
      end.
      + exfalso. revert Hbody.
        match goal with |- ?body ?w1 = _ -> _ => unfold bind at 1 end.
        destruct (gateway_text E _ _ _) as [[text|e1] w3]; [|discriminate].
        unfold bind at 1, loads.
        destruct (json_loads E text) as [msg|final]; [discriminate|].
        unfold ret at 1.
        destruct (store_unconvertible E general_metric items w3 Ht Hex)
          as (e2 & w4 & Hs).
        now rewrite (bind_run_raise _ _ _ _ _ Hs).
      + unfold print, emit. unfold bind at 1.
        match goal with |- context [bind _ _ ?w3] =>
          destruct (store_unconvertible E general_metric items w3 Ht Hex)
            as (e2 & w4 & Hs)
        end.
        exists e2, w4. now rewrite (bind_run_raise _ _ _ _ _ Hs). }
  exists e, w'. split; [exact Hrun|].
  pose proof (atomic_get_validated_insights E (JObj fields) w e) as Hat.
  rewrite Hrun in Hat. now apply Hat.
Qed.

Lemma unconvertible_value_is_fatal_witness :
  exists e w',
    get_validated_insights
      (fake_env (inr "initial") (inr "refined") (sample_parse JNull))
      (JObj (insight_record (jan_feb ++ too_large))) store_with_jan = (Raise e, w') /\
    table w' = table store_with_jan.
Proof.
  apply (unconvertible_value_is_fatal
           (fake_env (inr "initial") (inr "refined") (sample_parse JNull))
           (insight_record (jan_feb ++ too_large)) (jan_feb ++ too_large) store_with_jan);
    vm_compute; reflexivity.
Defined.
